(** * Detection-to-KPI pipeline: a shallow embedding

    The development follows [src/cameras/camera_manager.py] (stream workers,
    zone membership, the shared detection store) and
    [src/analytics/kpi_processor.py] (the aggregation cycle, rolling
    statistics and alerting).

    Numbers.  Python integers are [Z].  A Python/NumPy float is an IEEE 754
    binary64 number; it is represented by the rational [Q] that it denotes.
    In the KPI processor every float operation of the source ([np.mean],
    [/], [*], [round(x, 2)], the conversion of an int) is the exact
    operation followed by [Num.fl], rounding to the nearest binary64
    number with ties to even, so the stored statistics are the numbers
    the program stores.  In the camera manager, confidences, box
    coordinates and zone edges are rationals that are only compared; the
    two sums formed there, [(x1 + x2) / 2] and [zone['x'] + zone['width']],
    are taken exactly, which is what binary64 gives for pixel coordinates
    (integers, or float32 numbers of similar size).
    Timestamps ([datetime]) are seconds since an epoch, in [Z]. *)

From stdpp Require Import gmap strings list.
From Stdlib Require Import ZArith QArith Qround Qabs Qpower Lia Lqa.
From Stdlib Require DecimalString.

Local Open Scope string_scope.
Local Open Scope list_scope.
Local Open Scope Z_scope.

(* ===================================================================== *)
(** ** Numeric helpers *)
(* ===================================================================== *)

Module Num.

(** [np.rint]: nearest integer, halves go to the even neighbour. *)
Definition rint (q : Q) : Z :=
  let n := Qnum q in
  let d := Z.pos (Qden q) in
  let f := n / d in
  let r := 2 * (n mod d) in
  if r <? d then f
  else if d <? r then f + 1
  else if Z.even f then f else f + 1.

(** *** binary64

    A finite binary64 number is [m * 2^e] with [|m| < 2^53] and
    [-1074 <= e]; the exponent used for a value [q] is the one that puts
    the leading bit of [q] at position 52, and not less than [-1074]
    (subnormal numbers).  The largest exponent is not modelled: a result
    of magnitude [2^1024] or more, where binary64 gives an infinity, is
    out of range of this model. *)

Definition pow2 (e : Z) : Q := Qpower 2 e.

(** The binary exponent of [q <> 0]: [2^(ilog2 q) <= |q| < 2^(ilog2 q + 1)]. *)
Definition ilog2 (q : Q) : Z :=
  let e := Z.log2 (Z.abs (Qnum q)) - Z.log2 (Z.pos (Qden q)) in
  if Qle_bool (pow2 e) (Qabs q) then e else e - 1.

Definition ulp_exponent (q : Q) : Z := Z.max (ilog2 q - 52) (-1074).

(** Round to the nearest binary64 number, ties to even. *)
Definition fl (q : Q) : Q :=
  if Qnum q =? 0 then 0%Q
  else Qred (inject_Z (rint (q / pow2 (ulp_exponent q))) * pow2 (ulp_exponent q)).

(** [float(n)], and the float operations [a + b], [a * b], [a / b]. *)
Definition of_int (n : Z) : Q := fl (inject_Z n).
Definition fadd (a b : Q) : Q := fl (a + b).
Definition fmul (a b : Q) : Q := fl (a * b).
Definition fdiv (a b : Q) : Q := fl (a / b).

(** [round(x, 2)] for a NumPy float: NumPy multiplies by [10.0**2],
    applies [rint] and divides by [10.0**2], each in binary64. *)
Definition round2 (x : Q) : Q :=
  fdiv (inject_Z (rint (fmul x (of_int 100)))) (of_int 100).

(** [sum(xs)] over Python ints. *)
Definition zsum (xs : list Z) : Z := foldr Z.add 0 xs.

(** The binary64 sum of a list of floats, added from left to right.
    NumPy adds in blocks; whenever the absolute values add up to less
    than [2^53] every partial sum is an integer that binary64 holds, and
    the order does not matter. *)
Definition fsum (xs : list Q) : Q := foldl fadd 0%Q xs.

(** [np.mean(xs)] for a non-empty list of ints: the entries are converted
    to binary64, added, and the sum is divided by the count.  (On the
    empty list NumPy returns NaN with a warning; every call site guards
    against it.) *)
Definition np_mean (xs : list Z) : Q :=
  fdiv (fsum (map of_int xs)) (of_int (Z.of_nat (length xs))).

(** [str(n)] for a Python int. *)
Definition str_of_int (n : Z) : string :=
  DecimalString.NilZero.string_of_int (Z.to_int n).

(** [q > 0], [a <= b], [a < b] on floats, as booleans. *)
Definition Qpos_b (q : Q) : bool := 0 <? Qnum q.
Definition Qleb (a b : Q) : bool := Qle_bool a b.
Definition Qltb (a b : Q) : bool := negb (Qle_bool b a).

End Num.

(* ===================================================================== *)
(** ** Data model *)
(* ===================================================================== *)

(** [datetime]: seconds since the epoch; [.hour] is derived. *)
Definition datetime := Z.
Definition hour (t : datetime) : Z := (t / 3600) mod 24.

(** A detection dictionary as built by the stream workers.  The [center]
    and [zone] keys exist only for the roles that compute them. *)
Record Detection := mkDetection {
  class_id   : Z;
  confidence : Q;
  bbox       : Q * Q * Q * Q;
  center     : option (Q * Q);
  zone       : option string;
  det_timestamp : datetime
}.

(** One entry of [queue_zones] in the camera configuration. *)
Record Zone := mkZone {
  zone_name  : string;
  zone_x     : Q;
  zone_y     : Q;
  zone_width : Q;
  zone_height : Q
}.

(** The snapshot dictionaries published by the four [process_*_camera]
    methods. *)
Inductive Snapshot :=
| ParkingSnap (vehicle_count : Z) (detections : list Detection) (timestamp : datetime)
| GateSnap (person_count : Z) (detections : list Detection) (timestamp : datetime)
| QueueSnap (queue_length : Z) (detections : list Detection) (timestamp : datetime)
| KitchenSnap (staff_count : Z) (hand_washing_detected : bool)
              (detections : list Detection) (timestamp : datetime).

(** A value stored under a role key of [detection_data]: the empty list
    [[]] that [__init__] puts there, or a published snapshot. *)
Inductive DetectionValue :=
| EmptyList
| Snap (s : Snapshot).

(** Python truthiness of such a value: [[]] is falsy, a snapshot is a
    non-empty dict and hence truthy. *)
Definition truthy (v : DetectionValue) : bool :=
  match v with EmptyList => false | Snap _ => true end.

(* ===================================================================== *)
(** ** camera_manager.py *)
(* ===================================================================== *)

Module CameraManager.

(** What the inference capability returns for a frame: a sequence of
    results, each with [boxes] (possibly [None]); a box carries its class,
    confidence and corner coordinates. *)
Record Box := mkBox {
  cls  : Z;
  conf : Q;
  xyxy : Q * Q * Q * Q
}.

Record Result := mkResult { boxes : option (list Box) }.

(** [model_config] and the per-camera configuration entries that the
    workers read. *)
Record ModelConfig := mkModelConfig {
  vehicle_classes : list Z;
  vehicle_confidence_threshold : Q;
  person_confidence_threshold : Q
}.

Record MonitoringZones := mkMonitoringZones {
  work_area    : option Zone;
  wash_station : option Zone
}.

Record CameraConfig := mkCameraConfig {
  queue_zones      : list Zone;
  monitoring_zones : MonitoringZones
}.

(** [zone['x'] <= center_x <= zone['x'] + zone['width'] and
     zone['y'] <= center_y <= zone['y'] + zone['height']] *)
Definition in_zone (z : Zone) (center_x center_y : Q) : bool :=
  Num.Qleb (zone_x z) center_x
  && Num.Qleb center_x (zone_x z + zone_width z)
  && Num.Qleb (zone_y z) center_y
  && Num.Qleb center_y (zone_y z + zone_height z).

(** The zone membership loop of [process_queue_camera]:
    [for zone in queue_zones: if <inside>: ...; break].  The result is the
    zone at which the loop breaks, if any. *)
Fixpoint zone_scan (zones : list Zone) (center_x center_y : Q) : option Zone :=
  match zones with
  | [] => None
  | z :: rest =>
      if in_zone z center_x center_y then Some z
      else zone_scan rest center_x center_y
  end.

(** The zone classifier read off that loop: the name recorded under
    ['zone'] in the detection. *)
Definition classify (point : Q * Q) (zones : list Zone) : option string :=
  zone_name <$> zone_scan zones (fst point) (snd point).

(** [(a + b) / 2], without rounding. *)
Definition midpoint (a b : Q) : Q := ((a + b) / 2)%Q.

(** The worker's own state: the shared [detection_data] dictionary and the
    number of [datetime.now()] calls made so far. *)
Record State := mkState {
  detection_data : gmap string DetectionValue;
  now_calls      : nat
}.

(** [CameraManager.__init__]: every role key is bound to an empty list. *)
Definition init : State :=
  {| detection_data :=
       <["parking" := EmptyList]>
       (<["gate" := EmptyList]>
       (<["queue" := EmptyList]>
       (<["kitchen" := EmptyList]> ∅)));
     now_calls := 0 |}.

(** [get_detection_data]: [self.detection_data.copy()].  The dictionary is
    a value here, so the shallow copy is the dictionary itself. *)
Definition get_detection_data (st : State) : gmap string DetectionValue :=
  detection_data st.

Section Workers.

(** The wall clock: [clock n] is what the [n]-th call of [datetime.now()]
    returns. *)
Variable clock : nat -> datetime.
Variable model_config : ModelConfig.

(** Loop state shared by the four workers: the running count, the
    detections appended so far, and the clock position. *)
Definition Acc : Type := Z * list Detection * nat.

(** [for result in results: boxes = result.boxes;
      if boxes is not None: for box in boxes: <body>] *)
Definition for_boxes {A} (body : A -> Box -> A) (results : list Result) (a : A) : A :=
  foldl (fun a r =>
           match boxes r with
           | Some bs => foldl body a bs
           | None => a
           end) a results.

(** *** process_queue_camera *)

Definition queue_box (zones : list Zone) (acc : Acc) (box : Box) : Acc :=
  let '(queue_length, detections, n) := acc in
  let class_id := cls box in
  if class_id =? 0 then
    let confidence := conf box in
    if Num.Qleb (person_confidence_threshold model_config) confidence then
      let '(x1, y1, x2, y2) := xyxy box in
      let center_x := midpoint x1 x2 in
      let center_y := midpoint y1 y2 in
      match zone_scan zones center_x center_y with
      | Some zone =>
          (queue_length + 1,
           detections ++ [mkDetection class_id confidence (x1, y1, x2, y2)
                            (Some (center_x, center_y))
                            (Some (zone_name zone)) (clock n)],
           S n)
      | None => acc
      end
    else acc
  else acc.

Definition queue_snapshot (config : CameraConfig) (results : list Result)
    (n : nat) : Snapshot * nat :=
  let '(queue_length, detections, n') :=
    for_boxes (queue_box (queue_zones config)) results (0, [], n) in
  (QueueSnap queue_length detections (clock n'), S n').

Definition process_queue_camera (config : CameraConfig) (results : list Result)
    (st : State) : State :=
  let '(snap, n) := queue_snapshot config results (now_calls st) in
  {| detection_data := <["queue" := Snap snap]> (detection_data st);
     now_calls := n |}.

(** *** process_parking_camera *)

Definition parking_box (acc : Acc) (box : Box) : Acc :=
  let '(vehicle_count, detections, n) := acc in
  let class_id := cls box in
  if existsb (Z.eqb class_id) (vehicle_classes model_config) then
    let confidence := conf box in
    if Num.Qleb (vehicle_confidence_threshold model_config) confidence then
      (vehicle_count + 1,
       detections ++ [mkDetection class_id confidence (xyxy box)
                        None None (clock n)],
       S n)
    else acc
  else acc.

Definition process_parking_camera (results : list Result) (st : State) : State :=
  let '(vehicle_count, detections, n) :=
    for_boxes parking_box results (0, [], now_calls st) in
  {| detection_data :=
       <["parking" := Snap (ParkingSnap vehicle_count detections (clock n))]>
         (detection_data st);
     now_calls := S n |}.

(** *** process_gate_camera *)

Definition gate_box (acc : Acc) (box : Box) : Acc :=
  let '(person_count, detections, n) := acc in
  let class_id := cls box in
  if class_id =? 0 then
    let confidence := conf box in
    if Num.Qleb (person_confidence_threshold model_config) confidence then
      let '(x1, y1, x2, y2) := xyxy box in
      (person_count + 1,
       detections ++ [mkDetection class_id confidence (x1, y1, x2, y2)
                        (Some (midpoint x1 x2, midpoint y1 y2))
                        None (clock n)],
       S n)
    else acc
  else acc.

Definition process_gate_camera (results : list Result) (st : State) : State :=
  let '(person_count, detections, n) :=
    for_boxes gate_box results (0, [], now_calls st) in
  {| detection_data :=
       <["gate" := Snap (GateSnap person_count detections (clock n))]>
         (detection_data st);
     now_calls := S n |}.

(** *** process_kitchen_camera *)

(** [if area: if <inside>: ...] for an optional monitoring zone. *)
Definition in_area (area : option Zone) (center_x center_y : Q) : bool :=
  match area with
  | Some z => in_zone z center_x center_y
  | None => false
  end.

Definition kitchen_box (zones : MonitoringZones) (acc : Acc * bool) (box : Box)
    : Acc * bool :=
  let '(staff_count, detections, n, hand_washing_detected) := acc in
  let class_id := cls box in
  if class_id =? 0 then
    let confidence := conf box in
    if Num.Qleb (person_confidence_threshold model_config) confidence then
      let '(x1, y1, x2, y2) := xyxy box in
      let center_x := midpoint x1 x2 in
      let center_y := midpoint y1 y2 in
      let staff_count :=
        if in_area (work_area zones) center_x center_y
        then staff_count + 1 else staff_count in
      let hand_washing_detected :=
        if in_area (wash_station zones) center_x center_y
        then true else hand_washing_detected in
      (staff_count,
       detections ++ [mkDetection class_id confidence (x1, y1, x2, y2)
                        (Some (center_x, center_y)) None (clock n)],
       S n, hand_washing_detected)
    else acc
  else acc.

Definition process_kitchen_camera (config : CameraConfig) (results : list Result)
    (st : State) : State :=
  let '(staff_count, detections, n, hand_washing_detected) :=
    for_boxes (kitchen_box (monitoring_zones config)) results
      (0, [], now_calls st, false) in
  {| detection_data :=
       <["kitchen" := Snap (KitchenSnap staff_count hand_washing_detected
                              detections (clock n))]>
         (detection_data st);
     now_calls := S n |}.

(** One completed worker iteration on one of the four cameras. *)
Inductive Publish :=
| PubParking (results : list Result)
| PubGate (results : list Result)
| PubQueue (config : CameraConfig) (results : list Result)
| PubKitchen (config : CameraConfig) (results : list Result).

Definition publish (st : State) (p : Publish) : State :=
  match p with
  | PubParking rs => process_parking_camera rs st
  | PubGate rs => process_gate_camera rs st
  | PubQueue c rs => process_queue_camera c rs st
  | PubKitchen c rs => process_kitchen_camera c rs st
  end.

(** The role key a worker iteration writes. *)
Definition role_of (p : Publish) : string :=
  match p with
  | PubParking _ => "parking"
  | PubGate _ => "gate"
  | PubQueue _ _ => "queue"
  | PubKitchen _ _ => "kitchen"
  end.

(** The store after a history of completed worker iterations, in any
    interleaving across cameras. *)
Definition run (ps : list Publish) : State := foldl publish init ps.

End Workers.

End CameraManager.

(* ===================================================================== *)
(** ** Python containers used by the aggregator *)
(* ===================================================================== *)

(** [collections.deque(maxlen=n)]: appending to a full deque discards
    from the left, so the deque keeps the last [n] items. *)
Module Deque.

Definition append {A} (maxlen : nat) (d : list A) (x : A) : list A :=
  let d' := d ++ [x] in
  drop (length d' - maxlen)%nat d'.

End Deque.

(** [defaultdict(int)] keyed by hour.  Python dictionaries iterate in
    insertion order, so the dictionary is an association list in that
    order, with at most one binding per key. *)
Module HourDict.

Definition t := list (Z * Z).

Fixpoint get (d : t) (k : Z) : option Z :=
  match d with
  | [] => None
  | (k', v) :: rest => if k' =? k then Some v else get rest k
  end.

(** [d[k]] on a [defaultdict(int)]: a missing key is inserted with [0]
    (at the end of the iteration order) and [0] is returned. *)
Definition getitem (d : t) (k : Z) : Z * t :=
  match get d k with
  | Some v => (v, d)
  | None => (0, d ++ [(k, 0)])
  end.

Definition keys (d : t) : list Z := map fst d.
Definition values (d : t) : list Z := map snd d.

(** The key function [d.get] applied to a key of [d]. *)
Definition count (d : t) (k : Z) : Z := default 0 (get d k).

(** [max(iterable, key=f)]: the running best is replaced only by a
    strictly larger item, so the first maximal item is returned. *)
Fixpoint max_from {A} (f : A -> Z) (best : A) (rest : list A) : A :=
  match rest with
  | [] => best
  | x :: rest' => if f best <? f x then max_from f x rest' else max_from f best rest'
  end.

(** [max(d, key=d.get)] guarded by [if d:]. *)
Definition peak (d : t) : option Z :=
  match keys d with
  | [] => None
  | k :: ks => Some (max_from (count d) k ks)
  end.

End HourDict.

(* ===================================================================== *)
(** ** kpi_processor.py *)
(* ===================================================================== *)

Module KPIProcessor.

(** *** The KPI dictionaries *)

Record HistoryEntry := mkHistoryEntry {
  entry_length    : Z;
  entry_timestamp : datetime
}.

Record Alert := mkAlert {
  alert_type      : string;
  alert_message   : string;
  alert_severity  : string;
  alert_timestamp : datetime
}.

Record CustomerFlow := mkCustomerFlow {
  total_entries      : Z;
  total_exits        : Z;
  current_occupancy  : Z;
  hourly_entries     : HourDict.t;
  peak_hour          : option Z;
  average_dwell_time : Z
}.

Record VehicleMetrics := mkVehicleMetrics {
  total_vehicles      : Z;
  current_vehicles    : Z;
  hourly_arrivals     : HourDict.t;
  peak_parking_hour   : option Z;
  parking_utilization : Z
}.

Record QueueAnalytics := mkQueueAnalytics {
  current_queue_length   : Z;
  max_queue_length       : Z;
  average_queue_length   : Q;
  average_wait_time      : Z;
  total_customers_served : Z;
  queue_history          : list HistoryEntry
}.

Record StaffMetrics := mkStaffMetrics {
  current_staff_count     : Z;
  total_staff_hours       : Z;
  hygiene_compliance_rate : Z;
  hand_washing_events     : Z;
  attendance_log          : list Z
}.

Record OperationalKPIs := mkOperationalKPIs {
  service_efficiency          : Q;
  customer_satisfaction_score : Z;
  peak_hours                  : list Z;
  busy_periods                : list Z;
  alerts                      : list Alert
}.

Record KPIs := mkKPIs {
  customer_flow    : CustomerFlow;
  vehicle_metrics  : VehicleMetrics;
  queue_analytics  : QueueAnalytics;
  staff_metrics    : StaffMetrics;
  operational_kpis : OperationalKPIs
}.

(** *** Historical data *)

Record HourSample := mkHourSample {
  sample_hour      : Z;
  sample_entries   : Z;
  sample_timestamp : datetime
}.

Record CountSample := mkCountSample {
  sample_count : Z;
  count_timestamp : datetime
}.

Record HistoricalData := mkHistoricalData {
  entries_per_hour : list HourSample;      (* deque(maxlen=24) *)
  queue_lengths    : list HistoryEntry;    (* deque(maxlen=1440) *)
  staff_counts     : list CountSample;     (* deque(maxlen=1440) *)
  vehicle_counts   : list CountSample      (* deque(maxlen=1440) *)
}.

(** *** Configuration: [analytics_config['alert_thresholds']] *)

Record AlertThresholds := mkAlertThresholds {
  cfg_max_queue_length : option Z;
  cfg_min_staff_count  : option Z
}.

Record AnalyticsConfig := mkAnalyticsConfig {
  alert_thresholds : option AlertThresholds
}.

(** *** The processor *)

Record State := mkState {
  kpis            : KPIs;
  historical_data : HistoricalData
}.

(** [KPIProcessor.__init__] *)
Definition init_kpis : KPIs :=
  {| customer_flow := mkCustomerFlow 0 0 0 [] None 0;
     vehicle_metrics := mkVehicleMetrics 0 0 [] None 0;
     queue_analytics := mkQueueAnalytics 0 0 0 0 0 [];
     staff_metrics := mkStaffMetrics 0 0 0 0 [];
     operational_kpis := mkOperationalKPIs 0 0 [] [] [] |}.

Definition init : State :=
  {| kpis := init_kpis;
     historical_data := mkHistoricalData [] [] [] [] |}.

(** Field assignments [self.kpis[family][key] = value]. *)
Definition set_customer_flow (c : CustomerFlow) (k : KPIs) : KPIs :=
  mkKPIs c (vehicle_metrics k) (queue_analytics k) (staff_metrics k) (operational_kpis k).
Definition set_vehicle_metrics (v : VehicleMetrics) (k : KPIs) : KPIs :=
  mkKPIs (customer_flow k) v (queue_analytics k) (staff_metrics k) (operational_kpis k).
Definition set_queue_analytics (q : QueueAnalytics) (k : KPIs) : KPIs :=
  mkKPIs (customer_flow k) (vehicle_metrics k) q (staff_metrics k) (operational_kpis k).
Definition set_staff_metrics (s : StaffMetrics) (k : KPIs) : KPIs :=
  mkKPIs (customer_flow k) (vehicle_metrics k) (queue_analytics k) s (operational_kpis k).
Definition set_operational_kpis (o : OperationalKPIs) (k : KPIs) : KPIs :=
  mkKPIs (customer_flow k) (vehicle_metrics k) (queue_analytics k) (staff_metrics k) o.

(** What a method sees of its [*_data] argument: [detection_data.get(role)]
    is [None] for a missing key; [if not data: return] lets only a
    snapshot through. *)
Definition snapshot_of (data : option DetectionValue) : option Snapshot :=
  match data with
  | Some (Snap s) => Some s
  | Some EmptyList | None => None
  end.

(** [data.get('vehicle_count', 0)] and its siblings on a snapshot. *)
Definition get_vehicle_count (s : Snapshot) : Z :=
  match s with ParkingSnap n _ _ => n | _ => 0 end.
Definition get_queue_length (s : Snapshot) : Z :=
  match s with QueueSnap n _ _ => n | _ => 0 end.
Definition get_staff_count (s : Snapshot) : Z :=
  match s with KitchenSnap n _ _ _ => n | _ => 0 end.

(** *** update_customer_flow_kpis *)

Definition update_customer_flow_kpis (gate_data : option DetectionValue)
    (current_time : datetime) (st : State) : State :=
  match snapshot_of gate_data with
  | None => st
  | Some _ =>
      let cf := customer_flow (kpis st) in
      let hour := hour current_time in
      (* Calculate peak hour *)
      let peak :=
        match HourDict.peak (hourly_entries cf) with
        | Some peak_hour => Some peak_hour
        | None => peak_hour cf
        end in
      (* Store historical data; the defaultdict lookup may insert [hour] *)
      let '(entries_this_hour, hourly) := HourDict.getitem (hourly_entries cf) hour in
      let cf' := mkCustomerFlow (total_entries cf) (total_exits cf)
                   (current_occupancy cf) hourly peak (average_dwell_time cf) in
      let h := historical_data st in
      {| kpis := set_customer_flow cf' (kpis st);
         historical_data :=
           mkHistoricalData
             (Deque.append 24 (entries_per_hour h)
                (mkHourSample hour entries_this_hour current_time))
             (queue_lengths h) (staff_counts h) (vehicle_counts h) |}
  end.

(** *** update_vehicle_kpis *)

Definition update_vehicle_kpis (parking_data : option DetectionValue)
    (current_time : datetime) (st : State) : State :=
  match snapshot_of parking_data with
  | None => st
  | Some data =>
      let vm := vehicle_metrics (kpis st) in
      let current := get_vehicle_count data in
      (* Calculate peak parking hour *)
      let peak :=
        match HourDict.peak (hourly_arrivals vm) with
        | Some peak_hour => Some peak_hour
        | None => peak_parking_hour vm
        end in
      let vm' := mkVehicleMetrics (total_vehicles vm) current (hourly_arrivals vm)
                   peak (parking_utilization vm) in
      let h := historical_data st in
      {| kpis := set_vehicle_metrics vm' (kpis st);
         historical_data :=
           mkHistoricalData (entries_per_hour h) (queue_lengths h) (staff_counts h)
             (Deque.append 1440 (vehicle_counts h)
                (mkCountSample current current_time)) |}
  end.

(** *** update_queue_kpis

    [queue_history] is a [deque(maxlen=100)]; the capacity is a parameter
    of [update_queue_kpis_with] so that the ring can be studied at other
    sizes, and [update_queue_kpis] fixes it to the source's 100. *)

Definition lengths (history : list HistoryEntry) : list Z :=
  map entry_length history.

Definition update_queue_kpis_with (maxlen : nat)
    (queue_data : option DetectionValue) (current_time : datetime)
    (st : State) : State :=
  match snapshot_of queue_data with
  | None => st
  | Some data =>
      let qa := queue_analytics (kpis st) in
      let current := get_queue_length data in
      (* Update queue history *)
      let history :=
        Deque.append maxlen (queue_history qa)
          (mkHistoryEntry current current_time) in
      (* Update max queue length *)
      let max_len :=
        if max_queue_length qa <? current then current else max_queue_length qa in
      (* Calculate average queue length *)
      let avg :=
        match history with
        | [] => average_queue_length qa
        | _ :: _ => Num.round2 (Num.np_mean (lengths history))
        end in
      let qa' := mkQueueAnalytics current max_len avg (average_wait_time qa)
                   (total_customers_served qa) history in
      let h := historical_data st in
      {| kpis := set_queue_analytics qa' (kpis st);
         historical_data :=
           mkHistoricalData (entries_per_hour h)
             (Deque.append 1440 (queue_lengths h)
                (mkHistoryEntry current current_time))
             (staff_counts h) (vehicle_counts h) |}
  end.

Definition queue_history_maxlen : nat := 100.

Definition update_queue_kpis := update_queue_kpis_with queue_history_maxlen.

(** *** update_staff_kpis *)

Definition update_staff_kpis (kitchen_data : option DetectionValue)
    (current_time : datetime) (st : State) : State :=
  match snapshot_of kitchen_data with
  | None => st
  | Some data =>
      let sm := staff_metrics (kpis st) in
      let current_staff := get_staff_count data in
      let sm' := mkStaffMetrics current_staff (total_staff_hours sm)
                   (hygiene_compliance_rate sm) (hand_washing_events sm)
                   (attendance_log sm) in
      let h := historical_data st in
      {| kpis := set_staff_metrics sm' (kpis st);
         historical_data :=
           mkHistoricalData (entries_per_hour h) (queue_lengths h)
             (Deque.append 1440 (staff_counts h)
                (mkCountSample current_staff current_time))
             (vehicle_counts h) |}
  end.

(** *** update_operational_kpis *)

Definition update_operational_kpis (current_time : datetime) (st : State) : State :=
  let k := kpis st in
  let op := operational_kpis k in
  (* Calculate service efficiency *)
  let queue_length := average_queue_length (queue_analytics k) in
  let staff_count := current_staff_count (staff_metrics k) in
  let service_eff :=
    if (0 <? staff_count) && Num.Qpos_b queue_length
    then
      (* Simple efficiency metric: lower is better *)
      let efficiency := Num.fdiv queue_length (Num.of_int staff_count) in
      Num.round2 efficiency
    else service_efficiency op in
  (* Identify peak hours *)
  let hourly := hourly_entries (customer_flow k) in
  let peaks :=
    match hourly with
    | [] => peak_hours op
    | _ :: _ =>
        let avg_entries := Num.np_mean (HourDict.values hourly) in
        map fst
          (filter (fun item =>
                     (* entries > avg_entries * 1.5 *)
                     Num.Qltb (Num.fmul avg_entries (3 # 2)) (Num.of_int (snd item)) = true)
             hourly)
    end in
  {| kpis := set_operational_kpis
               (mkOperationalKPIs service_eff (customer_satisfaction_score op)
                  peaks (busy_periods op) (alerts op)) k;
     historical_data := historical_data st |}.

(** *** check_and_generate_alerts *)

(** [self.config.get('alert_thresholds', {}).get(key, default)] *)
Definition threshold_max_queue (config : AnalyticsConfig) : Z :=
  default 10 (alert_thresholds config ≫= cfg_max_queue_length).
Definition threshold_min_staff (config : AnalyticsConfig) : Z :=
  default 2 (alert_thresholds config ≫= cfg_min_staff_count).

Definition queue_alert (current_queue max_queue : Z) (current_time : datetime) : Alert :=
  {| alert_type := "queue_alert";
     alert_message :=
       String.append "Queue length ("
         (String.append (Num.str_of_int current_queue)
            (String.append ") exceeds threshold ("
               (String.append (Num.str_of_int max_queue) ")")));
     alert_severity := "high";
     alert_timestamp := current_time |}.

Definition staff_alert (current_staff min_staff : Z) (current_time : datetime) : Alert :=
  {| alert_type := "staff_alert";
     alert_message :=
       String.append "Staff count ("
         (String.append (Num.str_of_int current_staff)
            (String.append ") below minimum ("
               (String.append (Num.str_of_int min_staff) ")")));
     alert_severity := "medium";
     alert_timestamp := current_time |}.

(** [xs[-n:]] for a positive [n]. *)
Definition last_n {A} (n : nat) (xs : list A) : list A :=
  drop (length xs - n)%nat xs.

Definition alerts_limit : nat := 100.

(** The local list [alerts] built by one evaluation. *)
Definition new_alerts (config : AnalyticsConfig) (current_time : datetime)
    (k : KPIs) : list Alert :=
  let alerts0 : list Alert := [] in
  (* Check queue length alert *)
  let max_queue := threshold_max_queue config in
  let current_queue := current_queue_length (queue_analytics k) in
  let alerts1 :=
    if max_queue <? current_queue
    then alerts0 ++ [queue_alert current_queue max_queue current_time]
    else alerts0 in
  (* Check staff count alert *)
  let min_staff := threshold_min_staff config in
  let current_staff := current_staff_count (staff_metrics k) in
  if current_staff <? min_staff
  then alerts1 ++ [staff_alert current_staff min_staff current_time]
  else alerts1.

Definition check_and_generate_alerts (config : AnalyticsConfig)
    (current_time : datetime) (st : State) : State :=
  let k := kpis st in
  let op := operational_kpis k in
  (* Store alerts *)
  let extended := alerts op ++ new_alerts config current_time k in
  (* Keep only recent alerts (last 100) *)
  let kept :=
    if (alerts_limit <? length extended)%nat
    then last_n alerts_limit extended
    else extended in
  {| kpis := set_operational_kpis
               (mkOperationalKPIs (service_efficiency op)
                  (customer_satisfaction_score op) (peak_hours op)
                  (busy_periods op) kept) k;
     historical_data := historical_data st |}.

(** *** process_kpis: one aggregation cycle *)

Definition process_kpis (config : AnalyticsConfig)
    (detection_data : gmap string DetectionValue) (current_time : datetime)
    (st : State) : State :=
  if bool_decide (detection_data = ∅) then st
  else
    let st := update_customer_flow_kpis (detection_data !! "gate") current_time st in
    let st := update_vehicle_kpis (detection_data !! "parking") current_time st in
    let st := update_queue_kpis (detection_data !! "queue") current_time st in
    let st := update_staff_kpis (detection_data !! "kitchen") current_time st in
    let st := update_operational_kpis current_time st in
    check_and_generate_alerts config current_time st.

End KPIProcessor.

(* ===================================================================== *)
(** ** get_current_kpis and object sharing *)
(* ===================================================================== *)

(** [self.kpis] is a dictionary whose five values are themselves
    dictionaries.  The processor's methods never rebind a key of
    [self.kpis]; they assign into the five inner dictionaries, which are
    created once by [__init__].  So the contents of the inner dictionaries
    are exactly the [KPIs] record of the processor state, and a top-level
    dictionary is a finite map from keys to references to them. *)
Module Aliasing.

Import KPIProcessor.

(** References to the five inner dictionaries. *)
Inductive Family :=
| CustomerFlowRef
| VehicleMetricsRef
| QueueAnalyticsRef
| StaffMetricsRef
| OperationalRef.

(** What a reference points to at a given moment. *)
Inductive FamilyValue :=
| CustomerFlowVal (c : CustomerFlow)
| VehicleMetricsVal (v : VehicleMetrics)
| QueueAnalyticsVal (q : QueueAnalytics)
| StaffMetricsVal (s : StaffMetrics)
| OperationalVal (o : OperationalKPIs).

Definition deref (k : KPIs) (r : Family) : FamilyValue :=
  match r with
  | CustomerFlowRef => CustomerFlowVal (customer_flow k)
  | VehicleMetricsRef => VehicleMetricsVal (vehicle_metrics k)
  | QueueAnalyticsRef => QueueAnalyticsVal (queue_analytics k)
  | StaffMetricsRef => StaffMetricsVal (staff_metrics k)
  | OperationalRef => OperationalVal (operational_kpis k)
  end.

(** The object store: the processor with its inner dictionaries, the
    top-level dictionary [self.kpis], and the top-level dictionaries handed
    out so far, addressed by position. *)
Record Heap := mkHeap {
  proc      : State;
  self_kpis : gmap string Family;
  returned  : list (gmap string Family)
}.

Definition init_heap : Heap :=
  {| proc := init;
     self_kpis :=
       <["customer_flow" := CustomerFlowRef]>
       (<["vehicle_metrics" := VehicleMetricsRef]>
       (<["queue_analytics" := QueueAnalyticsRef]>
       (<["staff_metrics" := StaffMetricsRef]>
       (<["operational_kpis" := OperationalRef]> ∅))));
     returned := [] |}.

(** [get_current_kpis]: [return self.kpis.copy()].  [dict.copy] makes a
    new top-level dictionary with the same keys bound to the same
    objects. *)
Definition get_current_kpis (h : Heap) : nat * Heap :=
  (length (returned h),
   mkHeap (proc h) (self_kpis h) (returned h ++ [self_kpis h])).

(** A method of the processor runs: it assigns into the inner
    dictionaries. *)
Definition method (f : State -> State) (h : Heap) : Heap :=
  mkHeap (f (proc h)) (self_kpis h) (returned h).

(** What a reader sees through [self.kpis] and through a returned
    dictionary: every key with the current contents of the object it is
    bound to. *)
Definition view_self (h : Heap) : gmap string FamilyValue :=
  deref (kpis (proc h)) <$> self_kpis h.

Definition view (h : Heap) (v : nat) : option (gmap string FamilyValue) :=
  match returned h !! v with
  | Some d => Some (deref (kpis (proc h)) <$> d)
  | None => None
  end.

(** The caller runs [del v[key]] on a returned dictionary. *)
Definition caller_delitem (v : nat) (key : string) (h : Heap) : Heap :=
  mkHeap (proc h) (self_kpis h) (alter (delete key) v (returned h)).

(** The caller runs [v['queue_analytics']['current_queue_length'] = n] on
    a returned dictionary. *)
Definition caller_set_queue_length (v : nat) (n : Z) (h : Heap) : Heap :=
  match (d ← returned h !! v; d !! "queue_analytics") with
  | Some QueueAnalyticsRef =>
      let q := queue_analytics (kpis (proc h)) in
      let q' := mkQueueAnalytics n (max_queue_length q) (average_queue_length q)
                  (average_wait_time q) (total_customers_served q)
                  (queue_history q) in
      mkHeap (mkState (set_queue_analytics q' (kpis (proc h)))
                (historical_data (proc h)))
        (self_kpis h) (returned h)
  | _ => h
  end.

(** The current queue length as read through a returned dictionary:
    [v['queue_analytics']['current_queue_length']]. *)
Definition read_queue_length (h : Heap) (v : nat) : option Z :=
  match view h v with
  | Some d =>
      match d !! "queue_analytics" with
      | Some (QueueAnalyticsVal q) => Some (current_queue_length q)
      | _ => None
      end
  | None => None
  end.

(** The reading of "returns a copy": what was returned earlier does not
    change when the processor later runs a method. *)
Definition returns_isolated_copy (h : Heap) (f : State -> State) : Prop :=
  view (method f (get_current_kpis h).2) (get_current_kpis h).1
  = view (get_current_kpis h).2 (get_current_kpis h).1.

End Aliasing.

(* ===================================================================== *)
(** ** Vocabulary of the statements: predicates, runs and example inputs *)
(* ===================================================================== *)

Module ZoneSpec.

Import CameraManager.

(** The rectangle [[x, x+width] × [y, y+height]] of a zone, bounds
    included. *)
Definition contains (z : Zone) (p : Q * Q) : Prop :=
  (zone_x z <= p.1 /\ p.1 <= zone_x z + zone_width z /\
   zone_y z <= p.2 /\ p.2 <= zone_y z + zone_height z)%Q.

Definition zone_A : Zone := mkZone "A" 0 0 10 10.
Definition zone_B : Zone := mkZone "B" 0 0 20 20.

End ZoneSpec.

Module QueueWorkerSpec.

Import CameraManager.

(** All boxes of a frame, in the order the nested loops visit them. *)
Definition all_boxes (results : list Result) : list Box :=
  concat (map (fun r => default [] (boxes r)) results).

Definition box_center (b : Box) : Q * Q :=
  let '(x1, y1, x2, y2) := xyxy b in (midpoint x1 x2, midpoint y1 y2).

(** A confident person detection. *)
Definition is_person (mc : ModelConfig) (b : Box) : bool :=
  (cls b =? 0) && Num.Qleb (person_confidence_threshold mc) (conf b).

(** A confident person detection whose centre lies in some queue zone. *)
Definition in_queue (mc : ModelConfig) (zones : list Zone) (b : Box) : bool :=
  is_person mc b && bool_decide (is_Some (classify (box_center b) zones)).

Definition overlap_config : CameraConfig :=
  mkCameraConfig [ZoneSpec.zone_A; ZoneSpec.zone_B] (mkMonitoringZones None None).

Definition overlap_frame : list Result :=
  [mkResult (Some [mkBox 0 (9 # 10) (4, 4, 6, 6)%Q])].

End QueueWorkerSpec.

Module StoreSpec.

Import CameraManager.

Definition roles : list string := ["parking"; "gate"; "queue"; "kitchen"].

(** The reading of "not yet published means absent": a role that no
    completed worker iteration has written is not a key of the result of
    [get_detection_data]. *)
Definition absent_until_published (clock : nat -> datetime) (mc : ModelConfig)
    (ps : list Publish) (role : string) : Prop :=
  (forall p, p ∈ ps -> role_of p <> role) ->
  get_detection_data (run clock mc ps) !! role = None.

Definition clock0 : nat -> datetime := fun n => Z.of_nat n.
Definition mc0 : ModelConfig := mkModelConfig [2; 3; 5; 7] (1 # 2) (1 # 2).
Definition cfg0 : CameraConfig :=
  mkCameraConfig [ZoneSpec.zone_A] (mkMonitoringZones None None).

End StoreSpec.

Module KPISpec.

Import KPIProcessor.

(** Shorthands for the nested dictionaries of a processor state. *)
Definition qa (st : State) : QueueAnalytics := queue_analytics (kpis st).
Definition sm (st : State) : StaffMetrics := staff_metrics (kpis st).
Definition cf (st : State) : CustomerFlow := customer_flow (kpis st).
Definition op (st : State) : OperationalKPIs := operational_kpis (kpis st).

(** The aggregator's lifetime: the timer loop of [start_processing] calls
    [process_kpis] once per tick, each time with what
    [get_detection_data()] and [datetime.now()] return at that moment. *)
Definition Tick : Type := gmap string DetectionValue * datetime.

Definition run_cycles (config : AnalyticsConfig) (ticks : list Tick)
    (st : State) : State :=
  foldl (fun st tick => process_kpis config tick.1 tick.2 st) st ticks.

(** A queue snapshot with the given count, and a sequence of queue-KPI
    updates fed with such snapshots. *)
Definition queue_data (n : Z) : option DetectionValue :=
  Some (Snap (QueueSnap n [] 0)).

Definition feed_with (maxlen : nat) (lens : list Z) (st : State) : State :=
  foldl (fun st n => update_queue_kpis_with maxlen (queue_data n) 0 st) st lens.

(** Any sequence of calls of [update_queue_kpis], with or without data. *)
Definition queue_updates (calls : list (option DetectionValue * datetime))
    (st : State) : State :=
  foldl (fun st call => update_queue_kpis call.1 call.2 st) st calls.

(** The exact arithmetic mean of a non-empty list of integers, as a
    rational number. *)
Definition exact_mean (xs : list Z) : Q :=
  Num.zsum xs # Pos.of_nat (length xs).

(** The reading of "exact arithmetic mean": the stored average and the
    mean of the retained ring are the same number. *)
Definition average_is_exact_mean (st : State) : Prop :=
  (average_queue_length (qa st) == exact_mean (lengths (queue_history (qa st))))%Q.

(** The store contents used in the examples: the constructor's dictionary
    with a queue snapshot and a kitchen snapshot of the given counts. *)
Definition detections_with (queue_len staff : Z) : gmap string DetectionValue :=
  <["queue" := Snap (QueueSnap queue_len [] 0)]>
    (<["kitchen" := Snap (KitchenSnap staff false [] 0)]>
       (CameraManager.detection_data CameraManager.init)).

Definition default_config : AnalyticsConfig := mkAnalyticsConfig None.

(** One busy cycle (queue 5, staff 2) followed by a hundred cycles with an
    empty queue: the ring then holds only zeros. *)
Definition drained : State :=
  run_cycles default_config
    ((detections_with 5 2, 0) :: replicate 100 (detections_with 0 2, 0)) init.

(** The reading of the service-efficiency rule as stated: in a cycle with
    queue data, a positive staff count makes the efficiency the plain
    ratio, and a zero staff count leaves it alone. *)
Definition efficiency_is_plain_ratio (config : AnalyticsConfig)
    (dd : gmap string DetectionValue) (t : datetime) (st : State) : Prop :=
  is_Some (snapshot_of (dd !! "queue")) ->
  let st' := process_kpis config dd t st in
  (0 < current_staff_count (sm st') ->
   Qeq (service_efficiency (op st'))
       (average_queue_length (qa st') / inject_Z (current_staff_count (sm st'))))
  /\ (current_staff_count (sm st') = 0 ->
      service_efficiency (op st') = service_efficiency (op st)).

(** A hundred cycles with two staff, ninety-one of them with one customer
    queueing and nine with two: the ring then holds a hundred samples
    that add up to 109, and the stored average is the float 1.09. *)
Definition steady : State :=
  run_cycles default_config
    (replicate 91 (detections_with 1 2, 0) ++ replicate 9 (detections_with 2 2, 0))
    init.

Definition count_severity (sev : string) (l : list Alert) : nat :=
  length (List.filter (fun a => String.eqb (alert_severity a) sev) l).

(** Configurations that set the queue threshold only, and both
    thresholds. *)
Definition threshold_config (max_queue : Z) : AnalyticsConfig :=
  mkAnalyticsConfig (Some (mkAlertThresholds (Some max_queue) None)).

Definition thresholds_config (max_queue min_staff : Z) : AnalyticsConfig :=
  mkAnalyticsConfig (Some (mkAlertThresholds (Some max_queue) (Some min_staff))).

Definition gate_data : option DetectionValue := Some (Snap (GateSnap 0 [] 0)).

(** The process starts at 22:00 and keeps running past midnight; the gate
    camera publishes throughout. *)
Definition overnight : State :=
  foldl (fun st t => update_customer_flow_kpis gate_data t st) init
    [22 * 3600; 23 * 3600; 24 * 3600; 24 * 3600 + 5].

(** The reading of the peak-hour rule as stated: the peak is a key of
    maximal count, and among the keys of maximal count it is the lowest
    hour. *)
Definition peak_is_lowest_max_hour (d : HourDict.t) : Prop :=
  d <> [] ->
  exists p : Z,
    HourDict.peak d = Some p
    /\ p ∈ HourDict.keys d
    /\ (forall k, k ∈ HourDict.keys d -> HourDict.count d k <= HourDict.count d p)
    /\ (forall k, k ∈ HourDict.keys d ->
          HourDict.count d k = HourDict.count d p -> p <= k).

End KPISpec.

(* ===================================================================== *)
(** ** camera_manager.py: the per-camera loop *)
(* ===================================================================== *)

Module CameraFeed.

Import CameraManager.

Section Feed.

(** Frames are opaque; [yolo_model frame] is what
    [self.yolo_model(frame, verbose=False)] returns. *)
Variable Frame : Type.
Variable yolo_model : Frame -> list Result.
Variable clock : nat -> datetime.
Variable model_config : ModelConfig.

(** One pass through the body of [while self.running:] in
    [process_camera_feed].  [read] is the outcome of [camera.read()]:
    [None] when [ret] is false (warning, sleep, [continue]), the frame
    otherwise.  A camera type that matches none of the four branches
    does nothing. *)
Definition feed_iteration (camera_type : string) (config : CameraConfig)
    (st : State) (read : option Frame) : State :=
  match read with
  | None => st
  | Some frame =>
      if String.eqb camera_type "vehicle_detection"
      then process_parking_camera clock model_config (yolo_model frame) st
      else if String.eqb camera_type "person_tracking"
      then process_gate_camera clock model_config (yolo_model frame) st
      else if String.eqb camera_type "queue_analysis"
      then process_queue_camera clock model_config config (yolo_model frame) st
      else if String.eqb camera_type "staff_monitoring"
      then process_kitchen_camera clock model_config config (yolo_model frame) st
      else st
  end.

(** [process_camera_feed]: [camera = self.cameras.get(camera_name)];
    [if not camera: return]; then the loop, here over the reads made
    while [self.running] held. *)
Definition process_camera_feed (camera_opened : bool) (camera_type : string)
    (config : CameraConfig) (reads : list (option Frame)) (st : State) : State :=
  if camera_opened
  then foldl (feed_iteration camera_type config) st reads
  else st.

End Feed.

End CameraFeed.

(* ===================================================================== *)
(** ** kpi_processor.py: queries, persistence and the timer loop *)
(* ===================================================================== *)

Module KPIService.

Import KPIProcessor.

(** *** get_historical_data *)

(** An element of one of the four [historical_data] deques. *)
Inductive HistoricalEntry :=
| HourEntry (e : HourSample)
| LengthEntry (e : HistoryEntry)
| CountEntry (e : CountSample).

(** [entry.get('timestamp', ...)]; every entry has the key. *)
Definition timestamp_of (entry : HistoricalEntry) : datetime :=
  match entry with
  | HourEntry e => sample_timestamp e
  | LengthEntry e => entry_timestamp e
  | CountEntry e => count_timestamp e
  end.

(** [list(self.historical_data[metric_type])], or [None] when
    [metric_type not in self.historical_data]. *)
Definition historical_lookup (h : HistoricalData) (metric_type : string)
    : option (list HistoricalEntry) :=
  if String.eqb metric_type "entries_per_hour"
  then Some (map HourEntry (entries_per_hour h))
  else if String.eqb metric_type "queue_lengths"
  then Some (map LengthEntry (queue_lengths h))
  else if String.eqb metric_type "staff_counts"
  then Some (map CountEntry (staff_counts h))
  else if String.eqb metric_type "vehicle_counts"
  then Some (map CountEntry (vehicle_counts h))
  else None.

(** [timedelta(hours=hours)] in seconds. *)
Definition timedelta_hours (hours : Z) : Z := hours * 3600.

(** [get_historical_data(metric_type, hours)]; [now] is what
    [datetime.now()] returns for the cutoff. *)
Definition get_historical_data (now : datetime) (metric_type : string)
    (hours : Z) (st : State) : list HistoricalEntry :=
  match historical_lookup (historical_data st) metric_type with
  | None => []
  | Some historical =>
      let cutoff_time := now - timedelta_hours hours in
      List.filter (fun entry => cutoff_time <=? timestamp_of entry) historical
  end.

(** *** save_kpis_to_database *)

(** The dictionary [kpi_record] handed to [db_manager.save_kpi_record]. *)
Record KpiRecord := mkKpiRecord {
  rec_timestamp          : datetime;
  rec_customer_entries   : Z;
  rec_customer_exits     : Z;
  rec_current_occupancy  : Z;
  rec_vehicle_count      : Z;
  rec_queue_length       : Z;
  rec_staff_count        : Z;
  rec_service_efficiency : Q
}.

Definition kpi_record (current_time : datetime) (k : KPIs) : KpiRecord :=
  {| rec_timestamp := current_time;
     rec_customer_entries := total_entries (customer_flow k);
     rec_customer_exits := total_exits (customer_flow k);
     rec_current_occupancy := current_occupancy (customer_flow k);
     rec_vehicle_count := current_vehicles (vehicle_metrics k);
     rec_queue_length := current_queue_length (queue_analytics k);
     rec_staff_count := current_staff_count (staff_metrics k);
     rec_service_efficiency := service_efficiency (operational_kpis k) |}.

(** The database is an external collaborator; what the model keeps of it
    is the sequence of records passed to [save_kpi_record], oldest
    first. *)
Definition save_kpis_to_database (current_time : datetime) (st : State)
    (saved : list KpiRecord) : list KpiRecord :=
  saved ++ [kpi_record current_time (kpis st)].

(** *** start_processing *)

(** [self.config.get('save_interval', 60)] *)
Definition save_interval_of (configured : option Q) : Q := default 60%Q configured.

(** What one pass of the timer loop reads from its environment:
    [time.time()], the store copy from [get_detection_data()], and
    [datetime.now()] in [process_kpis] and in [save_kpis_to_database]. *)
Record Reading := mkReading {
  time_time      : Q;
  detection_data : gmap string DetectionValue;
  now_process    : datetime;
  now_save       : datetime
}.

(** The loop's variables: the processor, [last_save_time], and the
    records saved so far. *)
Record Loop := mkLoop {
  processor      : State;
  last_save_time : Q;
  saved          : list KpiRecord
}.

Definition loop_iteration (config : AnalyticsConfig) (save_interval : Q)
    (l : Loop) (r : Reading) : Loop :=
  let current_time := time_time r in
  (* Process KPIs *)
  let st := process_kpis config (detection_data r) (now_process r) (processor l) in
  (* Save to database periodically *)
  if Qle_bool save_interval (current_time - last_save_time l)
  then mkLoop st current_time (save_kpis_to_database (now_save r) st (saved l))
  else mkLoop st (last_save_time l) (saved l).

(** [start_processing], entered at [time.time() = start] and run for the
    passes that [readings] describes. *)
Definition start_processing (config : AnalyticsConfig) (save_interval : Q)
    (start : Q) (readings : list Reading) (st : State) : Loop :=
  foldl (loop_iteration config save_interval) (mkLoop st start []) readings.

End KPIService.

Module WorkerSpec.

Import CameraManager.
Import QueueWorkerSpec.

(** A box of a whitelisted vehicle class, confident enough. *)
Definition is_vehicle (mc : ModelConfig) (b : Box) : bool :=
  existsb (Z.eqb (cls b)) (vehicle_classes mc)
  && Num.Qleb (vehicle_confidence_threshold mc) (conf b).

(** A confident person whose centre lies in the configured work area,
    respectively at the wash station; a zone that is not configured holds
    nobody. *)
Definition in_work_area (mc : ModelConfig) (zones : MonitoringZones) (b : Box) : bool :=
  is_person mc b && in_area (work_area zones) (box_center b).1 (box_center b).2.

Definition at_wash_station (mc : ModelConfig) (zones : MonitoringZones) (b : Box) : bool :=
  is_person mc b && in_area (wash_station zones) (box_center b).1 (box_center b).2.

(** The detection dictionaries the workers build from a box, up to the
    time stamp. *)
Definition parking_detection (b : Box) (t : datetime) : Detection :=
  mkDetection (cls b) (conf b) (xyxy b) None None t.

Definition person_detection (b : Box) (t : datetime) : Detection :=
  mkDetection (cls b) (conf b) (xyxy b) (Some (box_center b)) None t.

Definition queue_detection (zones : list Zone) (b : Box) (t : datetime) : Detection :=
  mkDetection (cls b) (conf b) (xyxy b) (Some (box_center b))
    (classify (box_center b) zones) t.

(** Detections for the boxes [bs], the [i]-th one stamped with the
    [(n + i)]-th reading of the clock. *)
Definition stamped (clock : nat -> datetime) (n : nat)
    (mk : Box -> datetime -> Detection) (bs : list Box) : list Detection :=
  imap (fun i b => mk b (clock (n + i)%nat)) bs.

(** Fields of a snapshot, whatever its role. *)
Definition snapshot_detections (s : Snapshot) : list Detection :=
  match s with
  | ParkingSnap _ ds _ | GateSnap _ ds _ | QueueSnap _ ds _
  | KitchenSnap _ _ ds _ => ds
  end.

Definition snapshot_timestamp (s : Snapshot) : datetime :=
  match s with
  | ParkingSnap _ _ t | GateSnap _ _ t | QueueSnap _ _ t
  | KitchenSnap _ _ _ t => t
  end.

(** A clock that never runs backwards. *)
Definition monotone_clock (clock : nat -> datetime) : Prop :=
  forall i j : nat, (i <= j)%nat -> clock i <= clock j.

(** A list of time stamps in non-decreasing order. *)
Definition nondecreasing (ts : list datetime) : Prop :=
  forall (i j : nat) (a b : datetime),
    (i <= j)%nat -> ts !! i = Some a -> ts !! j = Some b -> a <= b.

(** The role key written for a camera type by [process_camera_feed]. *)
Definition camera_role (camera_type : string) : option string :=
  if String.eqb camera_type "vehicle_detection" then Some "parking"
  else if String.eqb camera_type "person_tracking" then Some "gate"
  else if String.eqb camera_type "queue_analysis" then Some "queue"
  else if String.eqb camera_type "staff_monitoring" then Some "kitchen"
  else None.

(** The successful reads of a sequence of [camera.read()] outcomes. *)
Definition successful {Frame} (reads : list (option Frame)) : list (option Frame) :=
  List.filter (fun r => match r with Some _ => true | None => false end) reads.

(** A gate iteration on a frame with one confident person. *)
Definition gate_publish : Publish := PubGate overlap_frame.

End WorkerSpec.

Module ServiceSpec.

Import KPIProcessor.
Import KPISpec.
Import KPIService.

(** What the aggregator keeps per stream role: the KPI family and the
    historical deque fed from that role. *)
Definition gate_part (st : State) : CustomerFlow * list HourSample :=
  (cf st, entries_per_hour (historical_data st)).
Definition parking_part (st : State) : VehicleMetrics * list CountSample :=
  (vehicle_metrics (kpis st), vehicle_counts (historical_data st)).
Definition queue_part (st : State) : QueueAnalytics * list HistoryEntry :=
  (qa st, queue_lengths (historical_data st)).
Definition kitchen_part (st : State) : StaffMetrics * list CountSample :=
  (sm st, staff_counts (historical_data st)).

(** A well-formed hourly histogram as the aggregator builds it: no hour
    twice, every key an hour of the day, every count still 0 (nothing in
    the source increments a count). *)
Definition histogram_ok (d : HourDict.t) : Prop :=
  NoDup (HourDict.keys d)
  /\ Forall (fun kv : Z * Z => 0 <= kv.1 < 24 /\ kv.2 = 0) d.

(** The capacity bounds of the aggregator's containers. *)
Definition within_capacity (st : State) : Prop :=
  (length (entries_per_hour (historical_data st)) <= 24)%nat
  /\ (length (queue_lengths (historical_data st)) <= 1440)%nat
  /\ (length (staff_counts (historical_data st)) <= 1440)%nat
  /\ (length (vehicle_counts (historical_data st)) <= 1440)%nat
  /\ (length (queue_history (qa st)) <= 100)%nat.

(** What holds of the customer-flow, vehicle and peak-hours fields at
    every point of the aggregator's life. *)
Definition flow_ok (st : State) : Prop :=
  histogram_ok (hourly_entries (cf st))
  /\ (peak_hour (cf st) = None
      \/ peak_hour (cf st) = head (HourDict.keys (hourly_entries (cf st))))
  /\ (total_entries (cf st) = 0 /\ total_exits (cf st) = 0
      /\ current_occupancy (cf st) = 0)
  /\ (hourly_arrivals (vehicle_metrics (kpis st)) = []
      /\ peak_parking_hour (vehicle_metrics (kpis st)) = None)
  /\ peak_hours (op st) = [].

(** The queue length that a cycle reads from the store, if the store
    holds a queue snapshot. *)
Definition queue_reading (dd : gmap string DetectionValue) : Z :=
  match snapshot_of (dd !! "queue") with
  | Some s => get_queue_length s
  | None => 0
  end.

(** Queue lengths of magnitude at most 2^46: a hundred of them add up to
    less than 2^53, so the binary64 sum over the ring is exact. *)
Definition count_limit : Z := 2 ^ 46.

Definition small_queue_counts (ticks : list Tick) : Prop :=
  Forall (fun tick : Tick => Z.abs (queue_reading tick.1) <= count_limit) ticks.

(** What holds of the ring, the maximum and the average while the queue
    lengths stay small. *)
Definition average_ok (st : State) : Prop :=
  Forall (fun e => entry_length e <= max_queue_length (qa st)
                   /\ Z.abs (entry_length e) <= count_limit)
    (queue_history (qa st))
  /\ (length (queue_history (qa st)) <= 100)%nat
  /\ (average_queue_length (qa st) <= inject_Z (max_queue_length (qa st)))%Q.

(** The two kinds of alert the evaluation builds. *)
Definition known_alert (a : Alert) : Prop :=
  (alert_type a = "queue_alert" /\ alert_severity a = "high")
  \/ (alert_type a = "staff_alert" /\ alert_severity a = "medium").

(** A hundred cycles with nobody in the kitchen: each raises one staff
    alert under the default thresholds. *)
Definition saturated : State :=
  run_cycles default_config (replicate 100 (detections_with 0 0, 0)) init.



(** The ring agrees with the day-long queue history: it is its most
    recent end, and its newest entry is the current queue length. *)
Definition ring_ok (st : State) : Prop :=
  queue_history (qa st) `suffix_of` queue_lengths (historical_data st)
  /\ (last (queue_history (qa st)) = None
      \/ entry_length <$> last (queue_history (qa st))
         = Some (current_queue_length (qa st))).

End ServiceSpec.

(* ===================================================================== *)
(** ** Evaluation checks *)
(* ===================================================================== *)

Example rint_half_even : Num.rint (25 # 2) = 12 /\ Num.rint (27 # 2) = 14.
Proof. split; reflexivity. Qed.

(** 0.1 is not a binary64 number; its nearest one is
    3602879701896397 / 2^55.  Integers round to themselves up to 2^53,
    and 2^53 + 1 is a tie that goes to the even neighbour. *)
Example fl_values :
  Num.fl (1 # 10) = (3602879701896397 # 36028797018963968)%Q
  /\ Num.of_int 100 = 100%Q
  /\ Num.of_int (2 ^ 53 + 1) = inject_Z (2 ^ 53)
  /\ Num.of_int (2 ^ 53 + 3) = inject_Z (2 ^ 53 + 4)
  /\ Num.fl (1 # Z.to_pos (2 ^ 1075)) = 0%Q
  /\ Num.fl (3 # Z.to_pos (2 ^ 1075)) = (1 # Z.to_pos (2 ^ 1073))%Q.
Proof. repeat split; vm_compute; reflexivity. Qed.

(** [round(x, 2)]: a third becomes the float 0.33.  The float 0.575 lies
    below 0.575 and its hundredfold is 57.49999999999999, so it becomes
    0.57; the float 0.545 lies above 0.545 and its hundredfold is
    54.50000000000001, so it becomes 0.55. *)
Example round2_values :
  Num.round2 (Num.fl (1 # 3)) = Num.fl (33 # 100)
  /\ Num.fl (33 # 100) = (5944751508129055 # 18014398509481984)%Q
  /\ Num.round2 (Num.fl (23 # 40)) = Num.fl (57 # 100)
  /\ Num.fl (57 # 100) = (5134103575202365 # 9007199254740992)%Q
  /\ Num.round2 (Num.fl (109 # 200)) = Num.fl (55 # 100)
  /\ Num.fl (55 # 100) = (2476979795053773 # 4503599627370496)%Q
  /\ Num.round2 (25 # 2) = (25 # 2)%Q.
Proof. repeat split; vm_compute; reflexivity. Qed.

Example np_mean_values :
  Num.np_mean [4; 6; 8] = 6%Q
  /\ Num.np_mean [1; 0; 0] = Num.fl (1 # 3)
  /\ Num.np_mean [1; 2] = (3 # 2)%Q.
Proof. repeat split; vm_compute; reflexivity. Qed.

Example str_of_int_12 : Num.str_of_int 12 = "12" /\ Num.str_of_int (-3) = "-3"
                        /\ Num.str_of_int 0 = "0".
Proof. repeat split; reflexivity. Qed.

Example deque_keeps_last : Deque.append 3 [2; 4; 6] 8 = [4; 6; 8].
Proof. reflexivity. Qed.

Example peak_first_max : HourDict.peak [(9, 4); (7, 6); (3, 6)] = Some 7.
Proof. reflexivity. Qed.

(* ===================================================================== *)
(** ** Facts about rounding and means *)
(* ===================================================================== *)

Section NumFacts.

Import Num.

(** *** Rounding to an integer *)

Lemma rint_bound (q : Q) :
  - Z.pos (Qden q) <= 2 * (rint q * Z.pos (Qden q) - Qnum q) <= Z.pos (Qden q).
Proof.
  unfold rint.
  set (n := Qnum q). set (d := Z.pos (Qden q)).
  assert (Hd : 0 < d) by (unfold d; lia).
  pose proof (Z.div_mod n d ltac:(lia)) as Hdm.
  pose proof (Z.mod_pos_bound n d Hd) as Hm.
  destruct (Z.ltb_spec (2 * (n mod d)) d);
    [|destruct (Z.ltb_spec d (2 * (n mod d)));
      [|destruct (Z.even (n / d))]]; nia.
Qed.

Lemma rint_le_int (q : Q) (n : Z) : (q <= inject_Z n)%Q -> rint q <= n.
Proof.
  intros Hq. pose proof (rint_bound q) as Hb.
  unfold Qle, inject_Z in Hq. simpl in Hq.
  assert (Hd : 0 < Z.pos (Qden q)) by lia. nia.
Qed.

Lemma rint_ge_int (q : Q) (n : Z) : (inject_Z n <= q)%Q -> n <= rint q.
Proof.
  intros Hq. pose proof (rint_bound q) as Hb.
  unfold Qle, inject_Z in Hq. simpl in Hq.
  assert (Hd : 0 < Z.pos (Qden q)) by lia. nia.
Qed.

Lemma rint_int (q : Q) (n : Z) : (q == inject_Z n)%Q -> rint q = n.
Proof.
  intros Hq. apply Z.le_antisymm.
  - apply rint_le_int. rewrite Hq. apply Qle_refl.
  - apply rint_ge_int. rewrite Hq. apply Qle_refl.
Qed.

(** [rint] is within one half of its argument. *)
Lemma rint_near (q : Q) :
  (q - (1 # 2) <= inject_Z (rint q) /\ inject_Z (rint q) <= q + (1 # 2))%Q.
Proof.
  pose proof (rint_bound q) as Hb.
  destruct q as [n d]. unfold Qle, Qminus, Qplus, Qopp, inject_Z in *. simpl in *.
  split; nia.
Qed.

(** *** Powers of two and the binary exponent *)

Lemma pow2_pos (e : Z) : (0 < pow2 e)%Q.
Proof. apply Qpower_0_lt. reflexivity. Qed.

Lemma pow2_plus (a b : Z) : (pow2 (a + b) == pow2 a * pow2 b)%Q.
Proof. apply Qpower_plus. discriminate. Qed.

Lemma pow2_le (a b : Z) : a <= b -> (pow2 a <= pow2 b)%Q.
Proof. intros H. apply Qpower_le_compat_l; [exact H|discriminate]. Qed.

Lemma pow2_lt_inv (a b : Z) : (pow2 a < pow2 b)%Q -> a < b.
Proof. intros H. apply (Qpower_lt_compat_l_inv 2); [exact H|reflexivity]. Qed.

Lemma pow2_int (a : Z) : 0 <= a -> (pow2 a == inject_Z (2 ^ a))%Q.
Proof. intros H. symmetry. apply (Zpower_Qpower 2 a H). Qed.

(** Below the unit exponent a scaled integer is an integer. *)
Lemma pow2_inv (e : Z) : e <= 0 -> (pow2 e * inject_Z (2 ^ (- e)) == 1)%Q.
Proof.
  intros He. rewrite <- pow2_int by lia. rewrite <- pow2_plus.
  replace (e + - e) with 0 by lia. reflexivity.
Qed.

(** [ilog2 q] is the binary exponent of [q]:
    [2^(ilog2 q) <= |q|] here, [|q| < 2^(ilog2 q + 1)] in [ilog2_upper]. *)
Lemma ilog2_spec (q : Q) :
  ~ (q == 0)%Q ->
  (pow2 (ilog2 q) <= Qabs q)%Q.
Proof.
  intros Hq. unfold ilog2.
  set (a := Z.log2 (Z.abs (Qnum q))). set (b := Z.log2 (Z.pos (Qden q))).
  destruct (Qle_bool (pow2 (a - b)) (Qabs q)) eqn:Hle.
  - apply Qle_bool_iff. exact Hle.
  - clear Hle.
    assert (Hn : 0 < Z.abs (Qnum q)).
    { destruct q as [n d]. unfold Qeq in Hq. simpl in *. lia. }
    destruct (Z.log2_spec _ Hn) as [Ha _]. fold a in Ha.
    assert (Hd : 0 < Z.pos (Qden q)) by lia.
    destruct (Z.log2_spec _ Hd) as [_ Hb]. fold b in Hb.
    assert (Ha0 : 0 <= a) by apply Z.log2_nonneg.
    assert (Hb0 : 0 <= b) by apply Z.log2_nonneg.
    replace (a - b - 1) with (a - (b + 1)) by lia.
    unfold pow2. rewrite Qpower_minus by discriminate.
    fold (pow2 a) (pow2 (b + 1)).
    apply Qle_shift_div_r; [apply pow2_pos|].
    rewrite !pow2_int by lia.
    destruct q as [n d]. unfold Qabs, Qle, Qmult, inject_Z. simpl in *.
    assert (0 < 2 ^ a) by (apply Z.pow_pos_nonneg; lia).
    nia.
Qed.

Lemma ilog2_lt (q : Q) (k : Z) :
  ~ (q == 0)%Q -> (Qabs q < pow2 k)%Q -> ilog2 q < k.
Proof.
  intros Hq Hk. apply pow2_lt_inv.
  eapply Qle_lt_trans; [apply ilog2_spec, Hq|exact Hk].
Qed.

Lemma ilog2_upper (q : Q) : ~ (q == 0)%Q -> (Qabs q < pow2 (ilog2 q + 1))%Q.
Proof.
  intros Hq. unfold ilog2.
  set (a := Z.log2 (Z.abs (Qnum q))). set (b := Z.log2 (Z.pos (Qden q))).
  destruct (Qle_bool (pow2 (a - b)) (Qabs q)) eqn:Hle.
  - clear Hle.
    assert (Hn : 0 < Z.abs (Qnum q)).
    { destruct q as [n d]. unfold Qeq in Hq. simpl in *. lia. }
    destruct (Z.log2_spec _ Hn) as [_ Ha]. fold a in Ha.
    assert (Hd : 0 < Z.pos (Qden q)) by lia.
    destruct (Z.log2_spec _ Hd) as [Hb _]. fold b in Hb.
    assert (Ha0 : 0 <= a) by apply Z.log2_nonneg.
    assert (Hb0 : 0 <= b) by apply Z.log2_nonneg.
    replace (a - b + 1) with (a + 1 - b) by lia.
    unfold pow2. rewrite Qpower_minus by discriminate.
    fold (pow2 (a + 1)) (pow2 b).
    apply Qlt_shift_div_l; [apply pow2_pos|].
    rewrite !pow2_int by lia.
    destruct q as [n d]. unfold Qabs, Qlt, Qmult, inject_Z. simpl in *.
    assert (0 < 2 ^ b) by (apply Z.pow_pos_nonneg; lia).
    nia.
  - replace (a - b - 1 + 1) with (a - b) by lia.
    apply Qnot_le_lt. intros H. apply Qle_bool_iff in H. congruence.
Qed.

(** *** Rounding to binary64 *)

Lemma fl_zero (q : Q) : Qnum q = 0 -> fl q = 0%Q.
Proof. intros H. unfold fl. rewrite H. reflexivity. Qed.

Lemma fl_spec (q : Q) :
  Qnum q <> 0 ->
  (fl q == inject_Z (rint (q / pow2 (ulp_exponent q))) * pow2 (ulp_exponent q))%Q.
Proof.
  intros H. unfold fl. destruct (Z.eqb_spec (Qnum q) 0); [contradiction|].
  apply Qred_correct.
Qed.

Lemma Qnum_zero (q : Q) : Qnum q = 0 <-> (q == 0)%Q.
Proof. unfold Qeq. simpl. lia. Qed.

Lemma ulp_exponent_le (q : Q) (k : Z) :
  Qnum q <> 0 -> (Qabs q < pow2 k)%Q -> ulp_exponent q <= Z.max (k - 53) (-1074).
Proof.
  intros Hq Hk. unfold ulp_exponent.
  assert (ilog2 q < k) by (apply ilog2_lt; [rewrite <- Qnum_zero; exact Hq|exact Hk]).
  lia.
Qed.

(** Dividing by a power of two below the unit is multiplying by an integer. *)
Lemma div_pow2 (q : Q) (e : Z) :
  e <= 0 -> (q / pow2 e == q * inject_Z (2 ^ (- e)))%Q.
Proof.
  intros He. pose proof (pow2_inv e He) as Hinv. pose proof (pow2_pos e) as Hpos.
  apply Qmult_inj_r with (z := pow2 e); [intros H0; rewrite H0 in Hpos; discriminate Hpos|].
  unfold Qdiv. rewrite <- !Qmult_assoc.
  rewrite (Qmult_comm (/ pow2 e)), Qmult_inv_r
    by (intros H0; rewrite H0 in Hpos; discriminate Hpos).
  rewrite (Qmult_comm (inject_Z _)), Hinv. reflexivity.
Qed.

(** Rounding to binary64 does not cross an integer: below 2^53 in
    magnitude the spacing of the floats divides 1. *)
Lemma fl_le_int (q : Q) (M : Z) :
  (Qabs q < pow2 53)%Q -> (q <= inject_Z M)%Q -> (fl q <= inject_Z M)%Q.
Proof.
  intros Hmag Hq.
  destruct (Z.eq_dec (Qnum q) 0) as [H0|H0].
  { rewrite (fl_zero q H0). apply Qnum_zero in H0. rewrite <- H0. exact Hq. }
  pose proof (ulp_exponent_le q 53 H0 Hmag) as He.
  set (e := ulp_exponent q) in *.
  assert (He0 : e <= 0) by lia.
  rewrite (fl_spec q H0). fold e.
  assert (Hr : rint (q / pow2 e) <= M * 2 ^ (- e)).
  { apply rint_le_int. rewrite (div_pow2 q e He0), inject_Z_mult.
    apply Qmult_le_compat_r; [exact Hq|].
    change 0%Q with (inject_Z 0). rewrite <- Zle_Qle. apply Z.pow_nonneg. lia. }
  apply Qle_trans with (inject_Z (M * 2 ^ (- e)) * pow2 e)%Q.
  - apply Qmult_le_compat_r; [rewrite <- Zle_Qle; exact Hr|].
    apply Qlt_le_weak, pow2_pos.
  - rewrite inject_Z_mult, <- Qmult_assoc, (Qmult_comm (inject_Z (2 ^ _))),
      (pow2_inv e He0), Qmult_1_r. apply Qle_refl.
Qed.

Lemma fl_ge_int (q : Q) (M : Z) :
  (Qabs q < pow2 53)%Q -> (inject_Z M <= q)%Q -> (inject_Z M <= fl q)%Q.
Proof.
  intros Hmag Hq.
  destruct (Z.eq_dec (Qnum q) 0) as [H0|H0].
  { rewrite (fl_zero q H0). apply Qnum_zero in H0. rewrite <- H0. exact Hq. }
  pose proof (ulp_exponent_le q 53 H0 Hmag) as He.
  set (e := ulp_exponent q) in *.
  assert (He0 : e <= 0) by lia.
  rewrite (fl_spec q H0). fold e.
  assert (Hr : M * 2 ^ (- e) <= rint (q / pow2 e)).
  { apply rint_ge_int. rewrite (div_pow2 q e He0), inject_Z_mult.
    apply Qmult_le_compat_r; [exact Hq|].
    change 0%Q with (inject_Z 0). rewrite <- Zle_Qle. apply Z.pow_nonneg. lia. }
  apply Qle_trans with (inject_Z (M * 2 ^ (- e)) * pow2 e)%Q.
  - rewrite inject_Z_mult, <- Qmult_assoc, (Qmult_comm (inject_Z (2 ^ _))),
      (pow2_inv e He0), Qmult_1_r. apply Qle_refl.
  - apply Qmult_le_compat_r; [rewrite <- Zle_Qle; exact Hr|].
    apply Qlt_le_weak, pow2_pos.
Qed.

Lemma Qabs_int_lt (z k : Z) :
  0 <= k -> Z.abs z < 2 ^ k -> (Qabs (inject_Z z) < pow2 k)%Q.
Proof.
  intros Hk Hz. rewrite pow2_int by exact Hk.
  unfold Qabs, inject_Z, Qlt. simpl. lia.
Qed.

Lemma Qred_int (z : Z) : Qred (inject_Z z) = inject_Z z.
Proof.
  unfold Qred, inject_Z.
  pose proof (Z.ggcd_correct_divisors z 1) as Hd.
  pose proof (Z.ggcd_gcd z 1) as Hg. rewrite Z.gcd_1_r in Hg.
  destruct (Z.ggcd z 1) as [g [aa bb]]. simpl in *. subst g.
  destruct Hd as [Ha Hb]. replace aa with z by lia. replace bb with 1 by lia.
  reflexivity.
Qed.

(** Integers below 2^53 in magnitude are floats. *)
Lemma fl_int (z : Z) : Z.abs z < 2 ^ 53 -> fl (inject_Z z) = inject_Z z.
Proof.
  intros Hz.
  assert (Hmag : (Qabs (inject_Z z) < pow2 53)%Q) by (apply Qabs_int_lt; [lia|exact Hz]).
  assert (Heq : (fl (inject_Z z) == inject_Z z)%Q).
  { apply Qle_antisym.
    - apply fl_le_int; [exact Hmag|apply Qle_refl].
    - apply fl_ge_int; [exact Hmag|apply Qle_refl]. }
  destruct (Z.eq_dec z 0) as [->|Hz0]; [reflexivity|].
  unfold fl in *. simpl Qnum in *.
  destruct (Z.eqb_spec z 0); [contradiction|].
  etransitivity; [|apply (Qred_int z)].
  apply Qred_complete. rewrite Qred_correct in Heq. exact Heq.
Qed.

Lemma of_int_exact (z : Z) : Z.abs z < 2 ^ 53 -> of_int z = inject_Z z.
Proof. apply fl_int. Qed.

(** The rounding error of [fl] on a value below [2^k]. *)
Lemma fl_err (q : Q) (k : Z) :
  -1021 <= k -> (Qabs q < pow2 k)%Q -> (Qabs (fl q - q) <= pow2 (k - 54))%Q.
Proof.
  intros Hk Hmag.
  destruct (Z.eq_dec (Qnum q) 0) as [H0|H0].
  { rewrite (fl_zero q H0). apply Qnum_zero in H0. rewrite H0.
    apply Qlt_le_weak, pow2_pos. }
  pose proof (ulp_exponent_le q k H0 Hmag) as He.
  set (e := ulp_exponent q) in *.
  assert (He' : e - 1 <= k - 54) by lia.
  apply Qle_trans with (pow2 (e - 1)); [|apply pow2_le, He'].
  rewrite (fl_spec q H0). fold e.
  pose proof (rint_near (q / pow2 e)) as [Hlo Hhi].
  pose proof (pow2_pos e) as Hpos.
  assert (Hhalf : (pow2 (e - 1) == (1 # 2) * pow2 e)%Q).
  { replace (e - 1) with (-1 + e) by lia. rewrite pow2_plus. reflexivity. }
  assert (Hq : (q == q / pow2 e * pow2 e)%Q).
  { unfold Qdiv. rewrite <- Qmult_assoc, (Qmult_comm (/ _)), Qmult_inv_r, Qmult_1_r;
      [reflexivity|]. intros Hz. rewrite Hz in Hpos. discriminate Hpos. }
  set (x := (q / pow2 e)%Q) in *. set (r := inject_Z (rint x)) in *.
  set (p := pow2 e) in *.
  apply Qabs_Qle_condition. rewrite Hhalf.
  assert (H1 : ((r - x) * p <= (1 # 2) * p)%Q)
    by (apply Qmult_le_compat_r; [lra|lra]).
  assert (H2 : ((- (1 # 2)) * p <= (r - x) * p)%Q)
    by (apply Qmult_le_compat_r; [lra|lra]).
  split; lra.
Qed.

(** *** Sums of small integers are exact *)

Lemma fadd_int (a x : Z) :
  Z.abs (a + x) < 2 ^ 53 -> fadd (inject_Z a) (inject_Z x) = inject_Z (a + x).
Proof.
  intros H. unfold fadd.
  replace (inject_Z a + inject_Z x)%Q with (inject_Z (a + x)).
  - apply fl_int, H.
  - unfold Qplus, inject_Z. simpl. rewrite !Z.mul_1_r. reflexivity.
Qed.

Lemma fsum_acc (xs : list Z) (a : Z) :
  Z.abs a + zsum (map Z.abs xs) < 2 ^ 53 ->
  foldl fadd (inject_Z a) (map of_int xs) = inject_Z (a + zsum xs).
Proof.
  revert a. induction xs as [|x xs IH]; intros a Hb; cbn [map foldl zsum foldr] in *.
  - rewrite Z.add_0_r. reflexivity.
  - fold (zsum (map Z.abs xs)) in Hb. fold (zsum xs).
    assert (Hs : 0 <= zsum (map Z.abs xs)).
    { clear. induction xs as [|y ys IHy]; simpl; [lia|]. unfold zsum in *. lia. }
    rewrite of_int_exact by lia.
    rewrite fadd_int by lia.
    rewrite IH by lia. f_equal. lia.
Qed.

Lemma zsum_abs_bound (xs : list Z) (B : Z) :
  Forall (fun x => Z.abs x <= B) xs ->
  zsum (map Z.abs xs) <= Z.of_nat (length xs) * B
  /\ Z.abs (zsum xs) <= Z.of_nat (length xs) * B.
Proof.
  induction 1 as [|x xs Hx Hall [IH1 IH2]]; cbn [map zsum foldr length].
  - simpl. lia.
  - fold (zsum (map Z.abs xs)). fold (zsum xs). lia.
Qed.

Lemma fsum_exact (xs : list Z) (B : Z) :
  Forall (fun x => Z.abs x <= B) xs ->
  Z.of_nat (length xs) * B < 2 ^ 53 ->
  fsum (map of_int xs) = inject_Z (zsum xs).
Proof.
  intros Hall Hb. unfold fsum.
  change 0%Q with (inject_Z 0). rewrite fsum_acc; [reflexivity|].
  destruct (zsum_abs_bound xs B Hall). simpl. lia.
Qed.

(** On such a list [np_mean] rounds the exact mean once. *)
Lemma np_mean_exact_sum (xs : list Z) (B : Z) :
  xs <> [] -> 1 <= B ->
  Forall (fun x => Z.abs x <= B) xs ->
  Z.of_nat (length xs) * B < 2 ^ 53 ->
  exists x : Q, np_mean xs = fl x /\ (x == KPISpec.exact_mean xs)%Q.
Proof.
  intros Hne HB Hall Hb.
  exists (inject_Z (zsum xs) / inject_Z (Z.of_nat (length xs)))%Q.
  split.
  - unfold np_mean, fdiv. rewrite (fsum_exact xs B Hall Hb).
    rewrite of_int_exact by nia. reflexivity.
  - unfold KPISpec.exact_mean.
    assert (Hpos : Z.pos (Pos.of_nat (length xs)) = Z.of_nat (length xs)).
    { destruct xs as [|x xs]; [contradiction|].
      rewrite <- positive_nat_Z, Nat2Pos.id by discriminate. reflexivity. }
    assert (Hn : ~ (inject_Z (Z.of_nat (length xs)) == 0)%Q).
    { unfold Qeq, inject_Z. simpl. lia. }
    apply Qmult_inj_r with (z := inject_Z (Z.of_nat (length xs))); [exact Hn|].
    unfold Qdiv. rewrite <- Qmult_assoc, (Qmult_comm (/ _)), Qmult_inv_r, Qmult_1_r
      by exact Hn.
    unfold Qeq, Qmult, inject_Z. cbn [Qnum Qden].
    rewrite Pos.mul_1_r, Hpos. lia.
Qed.

Lemma exact_mean_le (xs : list Z) (m : Z) :
  xs <> [] -> Forall (fun x => x <= m) xs -> (KPISpec.exact_mean xs <= inject_Z m)%Q.
Proof.
  intros Hne Hall.
  assert (Hsum : zsum xs <= Z.of_nat (length xs) * m).
  { clear Hne. induction Hall as [|x xs Hx Hall IH]; [simpl; lia|].
    cbn [zsum foldr length]. unfold zsum in IH. lia. }
  assert (Hpos : Z.pos (Pos.of_nat (length xs)) = Z.of_nat (length xs)).
  { destruct xs as [|x xs]; [contradiction|].
    rewrite <- positive_nat_Z, Nat2Pos.id by discriminate. reflexivity. }
  unfold KPISpec.exact_mean, Qle, inject_Z. cbn [Qnum Qden]. rewrite Hpos. lia.
Qed.

Lemma exact_mean_ge (xs : list Z) (m : Z) :
  xs <> [] -> Forall (fun x => m <= x) xs -> (inject_Z m <= KPISpec.exact_mean xs)%Q.
Proof.
  intros Hne Hall.
  assert (Hsum : Z.of_nat (length xs) * m <= zsum xs).
  { clear Hne. induction Hall as [|x xs Hx Hall IH]; [simpl; lia|].
    cbn [zsum foldr length]. unfold zsum in IH. lia. }
  assert (Hpos : Z.pos (Pos.of_nat (length xs)) = Z.of_nat (length xs)).
  { destruct xs as [|x xs]; [contradiction|].
    rewrite <- positive_nat_Z, Nat2Pos.id by discriminate. reflexivity. }
  unfold KPISpec.exact_mean, Qle, inject_Z. cbn [Qnum Qden]. rewrite Hpos. lia.
Qed.

Lemma exact_mean_abs (xs : list Z) (B : Z) :
  xs <> [] -> Forall (fun x => Z.abs x <= B) xs ->
  (Qabs (KPISpec.exact_mean xs) <= inject_Z B)%Q.
Proof.
  intros Hne Hall. apply Qabs_Qle_condition. split.
  - rewrite <- inject_Z_opp. apply exact_mean_ge; [exact Hne|].
    eapply Forall_impl; [exact Hall|]. simpl. lia.
  - apply exact_mean_le; [exact Hne|].
    eapply Forall_impl; [exact Hall|]. simpl. lia.
Qed.

Lemma of_int_100 : of_int 100 = 100%Q.
Proof. vm_compute. reflexivity. Qed.

Lemma Qabs_lt_pow2_53 (q : Q) (B : Z) :
  (Qabs q <= inject_Z B)%Q -> B < 2 ^ 53 -> (Qabs q < pow2 53)%Q.
Proof.
  intros Hq HB. eapply Qle_lt_trans; [exact Hq|].
  rewrite pow2_int by lia. rewrite <- Zlt_Qlt. exact HB.
Qed.

Lemma fl_abs_le (q : Q) (B : Z) :
  B < 2 ^ 53 -> (Qabs q <= inject_Z B)%Q -> (Qabs (fl q) <= inject_Z B)%Q.
Proof.
  intros HB Hq. pose proof (Qabs_lt_pow2_53 q B Hq HB) as Hmag.
  apply Qabs_Qle_condition in Hq as [Hlo Hhi].
  apply Qabs_Qle_condition. split.
  - rewrite <- inject_Z_opp in *. apply fl_ge_int; assumption.
  - apply fl_le_int; assumption.
Qed.

(** [round2] of a value of moderate size: the three steps, with the
    integer that [rint] produces. *)
Lemma round2_steps (q : Q) (B : Z) :
  0 <= B -> 100 * B < 2 ^ 53 -> (Qabs q <= inject_Z B)%Q ->
  let k := rint (fl (q * 100)) in
  round2 q = fl (inject_Z k / 100)
  /\ (Qabs (fl (q * 100)) <= inject_Z (100 * B))%Q
  /\ Z.abs k <= 100 * B
  /\ (Qabs (inject_Z k / 100) <= inject_Z B)%Q.
Proof.
  intros HB0 HB Hq k.
  assert (Ht : (Qabs (fl (q * 100)) <= inject_Z (100 * B))%Q).
  { apply fl_abs_le; [exact HB|].
    rewrite Qabs_Qmult, inject_Z_mult, (Qmult_comm (inject_Z 100)).
    apply Qmult_le_compat_r; [exact Hq|discriminate]. }
  assert (Hk : Z.abs k <= 100 * B).
  { apply Qabs_Qle_condition in Ht as [Hlo Hhi]. rewrite <- inject_Z_opp in Hlo.
    apply rint_le_int in Hhi. apply rint_ge_int in Hlo. fold k in Hhi, Hlo. lia. }
  split; [|split; [exact Ht|split; [exact Hk|]]].
  - unfold round2, fmul, fdiv. rewrite of_int_100. reflexivity.
  - apply Qabs_Qle_condition. unfold Qdiv. split.
    + apply Qle_shift_div_l; [reflexivity|].
      rewrite <- inject_Z_opp. change 100%Q with (inject_Z 100).
      rewrite <- inject_Z_mult, <- Zle_Qle. lia.
    + apply Qle_shift_div_r; [reflexivity|].
      change 100%Q with (inject_Z 100).
      rewrite <- inject_Z_mult, <- Zle_Qle. lia.
Qed.

Lemma round2_le_int (q : Q) (M B : Z) :
  0 <= B -> 100 * B < 2 ^ 53 -> (Qabs q <= inject_Z B)%Q ->
  (q <= inject_Z M)%Q -> (round2 q <= inject_Z M)%Q.
Proof.
  intros HB0 HB Hq HM.
  destruct (round2_steps q B HB0 HB Hq) as (-> & Ht & Hk & Hr).
  assert (Hq100 : (Qabs (q * 100) < pow2 53)%Q).
  { apply (Qabs_lt_pow2_53 _ (100 * B)); [|exact HB].
    rewrite Qabs_Qmult, inject_Z_mult, (Qmult_comm (inject_Z 100)).
    apply Qmult_le_compat_r; [exact Hq|discriminate]. }
  assert (Ht' : (fl (q * 100) <= inject_Z (M * 100))%Q).
  { apply fl_le_int; [exact Hq100|]. rewrite inject_Z_mult.
    apply Qmult_le_compat_r; [exact HM|discriminate]. }
  apply rint_le_int in Ht'.
  apply fl_le_int.
  - apply (Qabs_lt_pow2_53 _ B); [exact Hr|lia].
  - apply Qle_shift_div_r; [reflexivity|].
    change 100%Q with (inject_Z 100).
    rewrite <- inject_Z_mult, <- Zle_Qle. exact Ht'.
Qed.

(** Rounding to two decimals in binary64 moves a value of magnitude at
    most 2^20 by at most half a hundredth and a rounding error below
    2^-32. *)
Lemma round2_err (q : Q) :
  (Qabs q <= inject_Z (2 ^ 20))%Q ->
  (Qabs (round2 q - q) <= (1 # 200) + pow2 (-32))%Q.
Proof.
  intros Hq.
  destruct (round2_steps q (2 ^ 20) ltac:(lia) ltac:(lia) Hq) as (-> & Ht & Hk & Hr).
  set (t := fl (q * 100)) in *. set (k := rint t) in *.
  assert (Hq100 : (Qabs (q * 100) < pow2 27)%Q).
  { rewrite Qabs_Qmult. change (Qabs 100) with 100%Q.
    apply Qle_lt_trans with (inject_Z (2 ^ 20) * 100)%Q.
    - apply Qmult_le_compat_r; [exact Hq|discriminate].
    - reflexivity. }
  pose proof (fl_err (q * 100) 27 ltac:(lia) Hq100) as E1. fold t in E1.
  pose proof (rint_near t) as [E2 E3]. fold k in E2, E3.
  assert (Hk21 : (Qabs (inject_Z k / 100) < pow2 21)%Q).
  { eapply Qle_lt_trans; [exact Hr|reflexivity]. }
  pose proof (fl_err (inject_Z k / 100) 21 ltac:(lia) Hk21) as E4.
  change (pow2 (27 - 54)) with (1 # 134217728)%Q in E1.
  change (pow2 (21 - 54)) with (1 # 8589934592)%Q in E4.
  change (pow2 (-32)) with (1 # 4294967296)%Q.
  apply Qabs_Qle_condition in E1 as [E1a E1b].
  apply Qabs_Qle_condition in E4 as [E4a E4b].
  set (r := fl (inject_Z k / 100)) in *.
  assert (Hdiv : (inject_Z k / 100 * 100 == inject_Z k)%Q).
  { unfold Qdiv. rewrite <- Qmult_assoc, (Qmult_comm (/ 100)), Qmult_inv_r, Qmult_1_r;
      [reflexivity|discriminate]. }
  set (z := (inject_Z k / 100)%Q) in *.
  apply Qabs_Qle_condition. split; lra.
Qed.

(** The rounded binary64 mean of a list of moderate size and entries is
    within half a hundredth, and a rounding error below one billionth,
    of the exact mean. *)
Lemma round2_mean_near (xs : list Z) :
  xs <> [] -> Z.of_nat (length xs) <= 2 ^ 20 ->
  Forall (fun x => Z.abs x <= 2 ^ 20) xs ->
  (Qabs (round2 (np_mean xs) - KPISpec.exact_mean xs) <= (1 # 200) + (1 # 1000000000))%Q.
Proof.
  intros Hne Hlen Hall.
  destruct (np_mean_exact_sum xs (2 ^ 20) Hne ltac:(lia) Hall ltac:(lia))
    as (x & -> & Hx).
  pose proof (exact_mean_abs xs (2 ^ 20) Hne Hall) as Hm. rewrite <- Hx in Hm.
  assert (Hx21 : (Qabs x < pow2 21)%Q) by (eapply Qle_lt_trans; [exact Hm|reflexivity]).
  pose proof (fl_err x 21 ltac:(lia) Hx21) as E1.
  pose proof (round2_err (fl x) (fl_abs_le x (2 ^ 20) ltac:(lia) Hm)) as E2.
  change (pow2 (21 - 54)) with (1 # 8589934592)%Q in E1.
  change (pow2 (-32)) with (1 # 4294967296)%Q in E2.
  rewrite <- Hx.
  apply Qabs_Qle_condition in E1 as [E1a E1b].
  apply Qabs_Qle_condition in E2 as [E2a E2b].
  apply Qabs_Qle_condition. split; lra.
Qed.

(** The same for the rounded binary64 quotient of a float by a count. *)
Lemma round2_ratio_near (a : Q) (n : Z) :
  0 < n < 2 ^ 53 -> (0 < a)%Q -> (a <= inject_Z (2 ^ 20))%Q ->
  (Qabs (round2 (fdiv a (of_int n)) - a / inject_Z n)
     <= (1 # 200) + (1 # 1000000000))%Q.
Proof.
  intros Hn Ha0 Ha. unfold fdiv. rewrite of_int_exact by lia.
  set (x := (a / inject_Z n)%Q).
  assert (Hn0 : (0 < inject_Z n)%Q) by (change 0%Q with (inject_Z 0); rewrite <- Zlt_Qlt; lia).
  assert (Hx0 : (0 <= x)%Q).
  { unfold x. apply Qle_shift_div_l; [exact Hn0|]. lra. }
  assert (Hxa : (x <= a)%Q).
  { unfold x. apply Qle_shift_div_r; [exact Hn0|].
    assert (H1 : (1 <= inject_Z n)%Q) by (change 1%Q with (inject_Z 1); rewrite <- Zle_Qle; lia).
    nra. }
  assert (Hm : (Qabs x <= inject_Z (2 ^ 20))%Q).
  { apply Qabs_Qle_condition. split; [|lra].
    apply Qle_trans with 0%Q; [discriminate|exact Hx0]. }
  assert (Hx21 : (Qabs x < pow2 21)%Q) by (eapply Qle_lt_trans; [exact Hm|reflexivity]).
  pose proof (fl_err x 21 ltac:(lia) Hx21) as E1.
  pose proof (round2_err (fl x) (fl_abs_le x (2 ^ 20) ltac:(lia) Hm)) as E2.
  change (pow2 (21 - 54)) with (1 # 8589934592)%Q in E1.
  change (pow2 (-32)) with (1 # 4294967296)%Q in E2.
  apply Qabs_Qle_condition in E1 as [E1a E1b].
  apply Qabs_Qle_condition in E2 as [E2a E2b].
  apply Qabs_Qle_condition. split; lra.
Qed.

(** The binary64 mean of a list never exceeds an integer that bounds its
    entries, and neither does its rounding to two decimals, as long as
    the sum stays below 2^53. *)
Lemma round2_mean_le (xs : list Z) (M : Z) :
  xs <> [] -> (length xs <= 100)%nat ->
  Forall (fun x => Z.abs x <= 2 ^ 46) xs ->
  Forall (fun x => x <= M) xs ->
  (round2 (np_mean xs) <= inject_Z M)%Q.
Proof.
  intros Hne Hlen Hall HM.
  destruct (np_mean_exact_sum xs (2 ^ 46) Hne ltac:(lia) Hall ltac:(lia))
    as (x & -> & Hx).
  pose proof (exact_mean_abs xs (2 ^ 46) Hne Hall) as Hm. rewrite <- Hx in Hm.
  pose proof (exact_mean_le xs M Hne HM) as Hle. rewrite <- Hx in Hle.
  apply (round2_le_int _ M (2 ^ 46)); [lia|lia| |].
  - apply fl_abs_le; [lia|exact Hm].
  - apply fl_le_int; [|exact Hle].
    apply (Qabs_lt_pow2_53 _ (2 ^ 46)); [exact Hm|lia].
Qed.

(** A list of zeros has mean zero. *)
Lemma np_mean_zero (xs : list Z) : Forall (fun x => x = 0) xs -> np_mean xs = 0%Q.
Proof.
  intros Hall. unfold np_mean, fdiv.
  rewrite (fsum_exact xs 0); [|eapply Forall_impl; [exact Hall|]; simpl; lia|lia].
  assert (Hz : zsum xs = 0).
  { induction Hall as [|x xs Hx _ IH]; [reflexivity|].
    cbn [zsum foldr]. fold (zsum xs). lia. }
  rewrite Hz. apply fl_zero. reflexivity.
Qed.

End NumFacts.

(* ===================================================================== *)
(** ** Zone classification *)
(* ===================================================================== *)

Module ZoneFacts.

Import CameraManager.
Import ZoneSpec.

Lemma in_zone_contains (z : Zone) (p : Q * Q) :
  in_zone z p.1 p.2 = true <-> contains z p.
Proof.
  unfold in_zone, contains, Num.Qleb.
  rewrite !andb_true_iff, !Qle_bool_iff. tauto.
Qed.

Lemma in_zone_not_contains (z : Zone) (p : Q * Q) :
  in_zone z p.1 p.2 = false <-> ~ contains z p.
Proof.
  rewrite <- in_zone_contains. destruct (in_zone z p.1 p.2); split; congruence.
Qed.

(** The scan breaks at the first zone, in list order, that holds the
    point; it falls through exactly when no zone does. *)
Lemma zone_scan_first (zones : list Zone) (x y : Q) :
  match zone_scan zones x y with
  | Some z =>
      exists i : nat,
        zones !! i = Some z /\ in_zone z x y = true /\
        forall (j : nat) (z' : Zone),
          (j < i)%nat -> zones !! j = Some z' -> in_zone z' x y = false
  | None => forall z : Zone, z ∈ zones -> in_zone z x y = false
  end.
Proof.
  induction zones as [|z zones IH]; simpl.
  - intros z Hz. inversion Hz.
  - destruct (in_zone z x y) eqn:Hin.
    + exists 0%nat. repeat split; auto. intros j z' Hj. lia.
    + destruct (zone_scan zones x y) as [z0|].
      * destruct IH as (i & Hi & Hz0 & Hbefore).
        exists (S i). repeat split; auto.
        intros [|j] z' Hj Hl; simpl in Hl.
        -- congruence.
        -- apply (Hbefore j); [lia | exact Hl].
      * intros z' Hz'. apply elem_of_cons in Hz' as [->|Hz']; auto.
Qed.

(** C3.  For every list of declared zones and every centre point, the
    classifier returns the name of the first zone in declaration order
    whose rectangle (bounds included) contains the point, and nothing when
    no zone contains it; in particular nothing for an empty zone list, and
    the first-declared zone when two overlapping zones both contain the
    point. *)
Theorem classify_first_declared (zones : list Zone) (p : Q * Q) :
  match classify p zones with
  | Some name =>
      exists (i : nat) (z : Zone),
        zones !! i = Some z /\ zone_name z = name /\ contains z p /\
        forall (j : nat) (z' : Zone),
          (j < i)%nat -> zones !! j = Some z' -> ~ contains z' p
  | None => forall z : Zone, z ∈ zones -> ~ contains z p
  end
  /\ classify p [] = None
  /\ classify (5, 5)%Q [zone_A; zone_B] = Some "A"
  /\ classify (5, 5)%Q [zone_B; zone_A] = Some "B"
  /\ classify (10, 10)%Q [zone_A] = Some "A"
  /\ classify (15, 5)%Q [zone_A; zone_B] = Some "B"
  /\ classify (25, 5)%Q [zone_A; zone_B] = None.
Proof.
  split; [|repeat split; reflexivity].
  unfold classify.
  pose proof (zone_scan_first zones p.1 p.2) as Hscan.
  destruct (zone_scan zones p.1 p.2) as [z|]; simpl.
  - destruct Hscan as (i & Hi & Hin & Hbefore).
    exists i, z.
    split; [exact Hi|]. split; [reflexivity|].
    split; [apply in_zone_contains; exact Hin|].
    intros j z' Hj Hl. apply in_zone_not_contains. eauto.
  - intros z Hz. apply in_zone_not_contains. auto.
Qed.

End ZoneFacts.

(* ===================================================================== *)
(** ** The queue stream worker *)
(* ===================================================================== *)

Module QueueWorkerFacts.

Import CameraManager.
Import QueueWorkerSpec.

Lemma for_boxes_all {A} (body : A -> Box -> A) (results : list Result) (a : A) :
  for_boxes body results a = foldl body a (all_boxes results).
Proof.
  unfold for_boxes, all_boxes. revert a.
  induction results as [|r results IH]; intros a; simpl; [reflexivity|].
  rewrite foldl_app, IH. destruct (boxes r); reflexivity.
Qed.

Section Loop.

Variable clock : nat -> datetime.
Variable mc : ModelConfig.
Variable zones : list Zone.

Lemma classify_box (b : Box) :
  classify (box_center b) zones
  = let '(x1, y1, x2, y2) := xyxy b in
    zone_name <$> zone_scan zones (midpoint x1 x2) (midpoint y1 y2).
Proof.
  unfold classify, box_center. destruct (xyxy b) as [[[x1 y1] x2] y2].
  reflexivity.
Qed.

(** Loop invariant of the box loop: the counter and the detection list
    grow together, one step per box that is in the queue, and each new
    detection carries the name of the zone the scan stopped at. *)
Lemma queue_box_loop (bs : list Box) (count : Z) (dets : list Detection) (n : nat) :
  exists dets' : list Detection,
    foldl (queue_box clock mc zones) (count, dets, n) bs
      = (count + Z.of_nat (length dets'), dets ++ dets', (n + length dets')%nat)
    /\ map zone dets'
       = map (fun b => classify (box_center b) zones)
           (List.filter (in_queue mc zones) bs).
Proof.
  revert count dets n.
  induction bs as [|b bs IH]; intros count dets n.
  - exists []. simpl. rewrite app_nil_r, Z.add_0_r, Nat.add_0_r. auto.
  - cbn [foldl List.filter].
    pose proof (classify_box b) as Hc.
    unfold in_queue at 1, is_person, queue_box at 2.
    destruct (cls b =? 0); [|apply IH].
    destruct (Num.Qleb (person_confidence_threshold mc) (conf b)); [|apply IH].
    destruct (xyxy b) as [[[x1 y1] x2] y2].
    rewrite Hc.
    destruct (zone_scan zones (midpoint x1 x2) (midpoint y1 y2)) as [z|].
    + destruct (IH (count + 1)
                  (dets ++ [mkDetection (cls b) (conf b) (x1, y1, x2, y2)
                              (Some (midpoint x1 x2, midpoint y1 y2))
                              (Some (zone_name z)) (clock n)])
                  (S n)) as (dets' & -> & Hmap).
      eexists (_ :: dets'). split.
      * rewrite <- app_assoc. simpl. f_equal; [f_equal; lia | lia].
      * rewrite bool_decide_true by (simpl; eauto).
        simpl. rewrite Hc, Hmap. reflexivity.
    + rewrite bool_decide_false by (simpl; intros [? ?]; discriminate).
      apply IH.
Qed.

End Loop.

Lemma filter_in_queue_le (mc : ModelConfig) (zones : list Zone) (bs : list Box) :
  (length (List.filter (in_queue mc zones) bs)
   <= length (List.filter (is_person mc) bs))%nat.
Proof.
  induction bs as [|b bs IH]; simpl; [lia|].
  unfold in_queue at 1.
  destruct (is_person mc b); simpl; [|exact IH].
  destruct (bool_decide _); simpl; lia.
Qed.

(** C10.  The snapshot that the queue worker stores under ["queue"] has a
    [queue_length] equal to the number of its detections; the detections
    are, in order, the confident person boxes whose centre lies in some
    queue zone, one detection per such box, each tagged with the first
    matching zone.  A person standing in two overlapping zones is counted
    once. *)
Theorem queue_length_counts_detections (clock : nat -> datetime)
    (mc : ModelConfig) (config : CameraConfig) (results : list Result)
    (st : State) :
  (exists (dets : list Detection) (t : datetime),
     detection_data (process_queue_camera clock mc config results st) !! "queue"
       = Some (Snap (QueueSnap (Z.of_nat (length dets)) dets t))
     /\ map zone dets
        = map (fun b => classify (box_center b) (queue_zones config))
            (List.filter (in_queue mc (queue_zones config)) (all_boxes results))
     /\ (length dets <= length (List.filter (is_person mc) (all_boxes results)))%nat)
  /\ (exists (d : Detection) (t : datetime),
        detection_data
          (process_queue_camera clock (mkModelConfig [] 0 (1 # 2))
             overlap_config overlap_frame st) !! "queue"
          = Some (Snap (QueueSnap 1 [d] t))
        /\ zone d = Some "A").
Proof.
  split.
  - unfold process_queue_camera, queue_snapshot.
    rewrite for_boxes_all.
    destruct (queue_box_loop clock mc (queue_zones config) (all_boxes results)
                0 [] (now_calls st)) as (dets & -> & Hmap).
    exists dets, (clock (now_calls st + length dets)%nat). simpl.
    rewrite lookup_insert_eq. split; [reflexivity|]. split; [exact Hmap|].
    rewrite <- (length_map zone dets), Hmap, length_map.
    apply filter_in_queue_le.
  - eexists _, _. unfold process_queue_camera. simpl.
    rewrite lookup_insert_eq. split; reflexivity.
Qed.

End QueueWorkerFacts.

(* ===================================================================== *)
(** ** The shared detection store *)
(* ===================================================================== *)

Module StoreFacts.

Import CameraManager.
Import StoreSpec.

Section Store.

Variable clock : nat -> datetime.
Variable mc : ModelConfig.

(** A worker iteration overwrites exactly its own role key, with a
    snapshot. *)
Lemma publish_insert (st : State) (p : Publish) :
  exists s : Snapshot,
    detection_data (publish clock mc st p)
    = <[role_of p := Snap s]> (detection_data st).
Proof.
  destruct p as [rs|rs|c rs|c rs]; simpl.
  - unfold process_parking_camera.
    destruct (for_boxes _ rs _) as [[n ds] k]. eauto.
  - unfold process_gate_camera.
    destruct (for_boxes _ rs _) as [[n ds] k]. eauto.
  - unfold process_queue_camera.
    destruct (queue_snapshot clock mc c rs (now_calls st)) as [s k]. eauto.
  - unfold process_kitchen_camera.
    destruct (for_boxes _ rs _) as [[[n ds] k] b]. eauto.
Qed.

Lemma run_snoc (ps : list Publish) (p : Publish) :
  run clock mc (ps ++ [p]) = publish clock mc (run clock mc ps) p.
Proof. unfold run. rewrite foldl_app. reflexivity. Qed.

Lemma never_published_lookup (ps : list Publish) (role : string) :
  (forall p, p ∈ ps -> role_of p <> role) ->
  detection_data (run clock mc ps) !! role = detection_data init !! role.
Proof.
  induction ps as [|p ps IH] using rev_ind; intros Hnever; [reflexivity|].
  rewrite run_snoc.
  destruct (publish_insert (run clock mc ps) p) as [s ->].
  rewrite lookup_insert_ne.
  - apply IH. intros q Hq. apply Hnever. apply elem_of_app. auto.
  - apply Hnever. apply elem_of_app. right. apply list_elem_of_singleton.
    reflexivity.
Qed.

Lemma published_lookup (ps : list Publish) (role : string) :
  (exists p, p ∈ ps /\ role_of p = role) ->
  exists s : Snapshot, detection_data (run clock mc ps) !! role = Some (Snap s).
Proof.
  induction ps as [|p ps IH] using rev_ind; intros (q & Hq & Hrole).
  - inversion Hq.
  - rewrite run_snoc.
    destruct (publish_insert (run clock mc ps) p) as [s ->].
    destruct (decide (role_of p = role)) as [<-|Hne].
    + exists s. apply lookup_insert_eq.
    + rewrite lookup_insert_ne by exact Hne.
      apply IH. exists q. split; [|exact Hrole].
      apply elem_of_app in Hq as [Hq|Hq]; [exact Hq|].
      apply list_elem_of_singleton in Hq. subst q. contradiction.
Qed.

Lemma init_lookup (role : string) :
  role ∈ roles -> detection_data init !! role = Some EmptyList.
Proof.
  unfold roles. rewrite !elem_of_cons, elem_of_nil.
  intros [->|[->|[->|[->|[]]]]]; reflexivity.
Qed.

End Store.

(** C8 (as amended).  For every history of completed worker iterations and
    each of the four roles: a role that has never been published is a key
    of the result of [get_detection_data], bound to the empty list that
    the constructor put there, which is falsy and which the aggregator
    skips; a role that has been published is bound to a snapshot, which is
    truthy whatever its count.  So "no snapshot yet" and "snapshot with
    zero count" are told apart by the value, not by the key being absent. *)
Theorem unpublished_role_is_empty_list (clock : nat -> datetime)
    (mc : ModelConfig) (ps : list Publish) (role : string) :
  role ∈ roles ->
  ((forall p, p ∈ ps -> role_of p <> role) ->
     get_detection_data (run clock mc ps) !! role = Some EmptyList)
  /\ ((exists p, p ∈ ps /\ role_of p = role) ->
        exists s : Snapshot,
          get_detection_data (run clock mc ps) !! role = Some (Snap s))
  /\ truthy EmptyList = false
  /\ KPIProcessor.snapshot_of (Some EmptyList) = None
  /\ (forall s : Snapshot,
        truthy (Snap s) = true /\ KPIProcessor.snapshot_of (Some (Snap s)) = Some s).
Proof.
  intros Hrole. unfold get_detection_data. split; [|split].
  - intros Hnever. rewrite never_published_lookup by exact Hnever.
    apply init_lookup. exact Hrole.
  - apply published_lookup.
  - repeat split.
Qed.

(** C8, as stated, fails before the first publish: the queue role has
    never been written, yet it is a key of the store, bound to [[]]. *)
Lemma unpublished_role_not_absent :
  ~ absent_until_published clock0 mc0 [] "queue".
Proof.
  unfold absent_until_published. intros H.
  assert (Hnone : get_detection_data (run clock0 mc0 []) !! "queue" = None).
  { apply H. intros p Hp. inversion Hp. }
  vm_compute in Hnone. discriminate.
Qed.

Lemma unpublished_role_is_empty_list_witness :
  get_detection_data (run clock0 mc0 [PubQueue cfg0 []]) !! "gate" = Some EmptyList
  /\ exists s, get_detection_data (run clock0 mc0 [PubQueue cfg0 []]) !! "queue"
               = Some (Snap s).
Proof.
  assert (Hrole1 : "gate" ∈ roles) by (unfold roles; do 1 constructor; constructor).
  assert (Hrole2 : "queue" ∈ roles) by (unfold roles; do 2 constructor; constructor).
  split.
  - apply (unpublished_role_is_empty_list clock0 mc0 [PubQueue cfg0 []] "gate" Hrole1).
    intros p Hp. apply list_elem_of_singleton in Hp. subst p. discriminate.
  - apply (unpublished_role_is_empty_list clock0 mc0 [PubQueue cfg0 []] "queue" Hrole2).
    exists (PubQueue cfg0 []). split; [apply list_elem_of_singleton|]; reflexivity.
Defined.

End StoreFacts.

(* ===================================================================== *)
(** ** The aggregation cycle *)
(* ===================================================================== *)

Module KPIFacts.

Import KPIProcessor.
Import KPISpec.

(** *** Frame lemmas: who writes what *)

Lemma customer_flow_frame d t st :
  qa (update_customer_flow_kpis d t st) = qa st
  /\ sm (update_customer_flow_kpis d t st) = sm st
  /\ op (update_customer_flow_kpis d t st) = op st.
Proof.
  unfold update_customer_flow_kpis.
  destruct (snapshot_of d); [|auto].
  destruct (HourDict.getitem _ _). auto.
Qed.

Lemma vehicle_frame d t st :
  qa (update_vehicle_kpis d t st) = qa st
  /\ sm (update_vehicle_kpis d t st) = sm st
  /\ op (update_vehicle_kpis d t st) = op st
  /\ cf (update_vehicle_kpis d t st) = cf st.
Proof. unfold update_vehicle_kpis. destruct (snapshot_of d); auto. Qed.

Lemma queue_frame maxlen d t st :
  sm (update_queue_kpis_with maxlen d t st) = sm st
  /\ op (update_queue_kpis_with maxlen d t st) = op st
  /\ cf (update_queue_kpis_with maxlen d t st) = cf st.
Proof. unfold update_queue_kpis_with. destruct (snapshot_of d); auto. Qed.

Lemma staff_frame d t st :
  qa (update_staff_kpis d t st) = qa st
  /\ op (update_staff_kpis d t st) = op st
  /\ cf (update_staff_kpis d t st) = cf st.
Proof. unfold update_staff_kpis. destruct (snapshot_of d); auto. Qed.

Lemma operational_frame t st :
  qa (update_operational_kpis t st) = qa st
  /\ sm (update_operational_kpis t st) = sm st
  /\ cf (update_operational_kpis t st) = cf st
  /\ alerts (op (update_operational_kpis t st)) = alerts (op st).
Proof. unfold update_operational_kpis. auto. Qed.

Lemma alerts_frame config t st :
  qa (check_and_generate_alerts config t st) = qa st
  /\ sm (check_and_generate_alerts config t st) = sm st
  /\ cf (check_and_generate_alerts config t st) = cf st
  /\ service_efficiency (op (check_and_generate_alerts config t st))
     = service_efficiency (op st).
Proof. unfold check_and_generate_alerts. auto. Qed.

(** Within a cycle only [update_queue_kpis] touches the queue family. *)
Lemma process_kpis_qa config dd t st :
  qa (process_kpis config dd t st) = qa st
  \/ qa (process_kpis config dd t st)
     = qa (update_queue_kpis (dd !! "queue") t st).
Proof.
  unfold process_kpis. destruct (bool_decide (dd = ∅)); [left; reflexivity|].
  right.
  rewrite (proj1 (alerts_frame _ _ _)), (proj1 (operational_frame _ _)),
    (proj1 (staff_frame _ _ _)).
  unfold update_queue_kpis, update_queue_kpis_with.
  set (st1 := update_vehicle_kpis _ _ _).
  assert (Hst1 : qa st1 = qa st).
  { unfold st1. rewrite (proj1 (vehicle_frame _ _ _)).
    apply customer_flow_frame. }
  destruct (snapshot_of (dd !! "queue")); [|exact Hst1].
  unfold qa in *. simpl. rewrite Hst1. reflexivity.
Qed.

(** *** Maximum queue length *)

Lemma update_queue_max maxlen d t st :
  max_queue_length (qa st)
    <= max_queue_length (qa (update_queue_kpis_with maxlen d t st))
  /\ (current_queue_length (qa st) <= max_queue_length (qa st) ->
      current_queue_length (qa (update_queue_kpis_with maxlen d t st))
        <= max_queue_length (qa (update_queue_kpis_with maxlen d t st))).
Proof.
  unfold update_queue_kpis_with.
  destruct (snapshot_of d) as [s|]; [|split; [lia|auto]].
  unfold qa. simpl.
  destruct (Z.ltb_spec (max_queue_length (queue_analytics (kpis st)))
              (get_queue_length s)); split; lia.
Qed.

Lemma process_kpis_max config dd t st :
  max_queue_length (qa st) <= max_queue_length (qa (process_kpis config dd t st))
  /\ (current_queue_length (qa st) <= max_queue_length (qa st) ->
      current_queue_length (qa (process_kpis config dd t st))
        <= max_queue_length (qa (process_kpis config dd t st))).
Proof.
  destruct (process_kpis_qa config dd t st) as [-> | ->].
  - split; [lia|auto].
  - apply update_queue_max.
Qed.

Lemma queue_updates_max calls st :
  max_queue_length (qa st) <= max_queue_length (qa (queue_updates calls st))
  /\ (current_queue_length (qa st) <= max_queue_length (qa st) ->
      current_queue_length (qa (queue_updates calls st))
        <= max_queue_length (qa (queue_updates calls st))).
Proof.
  revert st. induction calls as [|[d t] calls IH]; intros st; simpl.
  - split; [lia|auto].
  - destruct (IH (update_queue_kpis d t st)) as [IH1 IH2].
    destruct (update_queue_max queue_history_maxlen d t st) as [H1 H2].
    fold update_queue_kpis in H1, H2. split; [lia|auto].
Qed.

Lemma run_cycles_max config ticks st :
  max_queue_length (qa st) <= max_queue_length (qa (run_cycles config ticks st))
  /\ (current_queue_length (qa st) <= max_queue_length (qa st) ->
      current_queue_length (qa (run_cycles config ticks st))
        <= max_queue_length (qa (run_cycles config ticks st))).
Proof.
  revert st. induction ticks as [|[dd t] ticks IH]; intros st; simpl.
  - split; [lia|auto].
  - destruct (IH (process_kpis config dd t st)) as [IH1 IH2].
    destruct (process_kpis_max config dd t st) as [H1 H2].
    split; [lia|auto].
Qed.

(** C7.  Along every sequence of queue-KPI updates from the initial state,
    and along every sequence of aggregation cycles from the initial state,
    [max_queue_length] never decreases from one point of the sequence to a
    later one, and after each update [max_queue_length] is at least
    [current_queue_length]. *)
Theorem max_queue_length_monotone
    (calls calls' : list (option DetectionValue * datetime))
    (config : AnalyticsConfig) (ticks ticks' : list Tick) :
  (max_queue_length (qa (queue_updates calls init))
     <= max_queue_length (qa (queue_updates (calls ++ calls') init))
   /\ current_queue_length (qa (queue_updates calls init))
      <= max_queue_length (qa (queue_updates calls init)))
  /\ (max_queue_length (qa (run_cycles config ticks init))
        <= max_queue_length (qa (run_cycles config (ticks ++ ticks') init))
      /\ current_queue_length (qa (run_cycles config ticks init))
         <= max_queue_length (qa (run_cycles config ticks init))).
Proof.
  split; split.
  - unfold queue_updates at 2. rewrite foldl_app. apply queue_updates_max.
  - apply queue_updates_max. simpl. lia.
  - unfold run_cycles at 2. rewrite foldl_app. apply run_cycles_max.
  - apply run_cycles_max. simpl. lia.
Qed.

(** *** The history ring and the rolling average *)

Lemma deque_append_split {A} (maxlen : nat) (d : list A) (x : A) :
  exists evicted : list A,
    d ++ [x] = evicted ++ Deque.append maxlen d x
    /\ length (Deque.append maxlen d x) = Nat.min maxlen (length d + 1)
    /\ length evicted = (length d + 1 - maxlen)%nat.
Proof.
  unfold Deque.append.
  exists (take (length (d ++ [x]) - maxlen) (d ++ [x])).
  rewrite take_drop, length_drop, length_take, length_app. simpl.
  repeat split; lia.
Qed.

Lemma deque_append_nonempty {A} (m : nat) (d : list A) (x : A) :
  Deque.append (S m) d x <> [].
Proof.
  intros Hnil.
  destruct (deque_append_split (S m) d x) as (ev & _ & Hlen & _).
  rewrite Hnil in Hlen. cbn [length] in Hlen. lia.
Qed.

(** On a ring of positive capacity the update always recomputes the
    average from the ring it has just extended. *)
Lemma update_queue_average (m : nat) (st : State) (s : Snapshot) (t : datetime) :
  average_queue_length (qa (update_queue_kpis_with (S m) (Some (Snap s)) t st))
  = Num.round2
      (Num.np_mean
         (lengths (queue_history
                     (qa (update_queue_kpis_with (S m) (Some (Snap s)) t st))))).
Proof.
  unfold update_queue_kpis_with, qa. simpl.
  pose proof (deque_append_nonempty m (queue_history (queue_analytics (kpis st)))
                (mkHistoryEntry (get_queue_length s) t)) as Hne.
  destruct (Deque.append (S m) _ _); [contradiction|reflexivity].
Qed.

Lemma update_queue_ring (maxlen : nat) (st : State) (s : Snapshot) (t : datetime) :
  queue_history (qa (update_queue_kpis_with maxlen (Some (Snap s)) t st))
  = Deque.append maxlen (queue_history (qa st))
      (mkHistoryEntry (get_queue_length s) t).
Proof. reflexivity. Qed.

(** C2 (as amended).  After every queue-KPI update on a ring of positive
    capacity, the ring holds the most recent samples up to its capacity
    (older ones are evicted from the front), and [average_queue_length] is
    the binary64 mean of the retained queue lengths rounded to two
    decimals in binary64.  For a ring of at most 2^20 samples of
    magnitude at most 2^20 it lies within half a hundredth, and a
    rounding error below one billionth, of the exact mean.  The source's
    ring has capacity 100.  With capacity 3 and queue lengths
    [2, 4, 6, 8] fed in order, the ring retains [4, 6, 8], the average is
    6 and the maximum is 8.  With the source's ring and 23 samples of 1
    followed by 17 samples of 0 the mean is 0.575 and the stored average
    is the float 0.57. *)
Theorem average_is_rounded_ring_mean (m : nat) (st : State) (s : Snapshot)
    (t : datetime) :
  let st' := update_queue_kpis_with (S m) (Some (Snap s)) t st in
  let ring := queue_history (qa st') in
  (exists evicted : list HistoryEntry,
     queue_history (qa st) ++ [mkHistoryEntry (get_queue_length s) t]
       = evicted ++ ring
     /\ length ring = Nat.min (S m) (length (queue_history (qa st)) + 1)
     /\ length evicted = (length (queue_history (qa st)) + 1 - S m)%nat)
  /\ average_queue_length (qa st') = Num.round2 (Num.np_mean (lengths ring))
  /\ (Z.of_nat (S m) <= 2 ^ 20 ->
      Forall (fun x => Z.abs x <= 2 ^ 20) (lengths ring) ->
      (Qabs (average_queue_length (qa st') - exact_mean (lengths ring))
       <= (1 # 200) + (1 # 1000000000))%Q)
  /\ update_queue_kpis = update_queue_kpis_with 100
  /\ (lengths (queue_history (qa (feed_with 3 [2; 4; 6; 8] init))) = [4; 6; 8]
      /\ Qeq (average_queue_length (qa (feed_with 3 [2; 4; 6; 8] init))) 6%Q
      /\ max_queue_length (qa (feed_with 3 [2; 4; 6; 8] init)) = 8)
  /\ (Qeq (exact_mean
             (lengths (queue_history
                (qa (feed_with 100 (replicate 23 1 ++ replicate 17 0) init)))))
          (23 # 40)%Q
      /\ average_queue_length
           (qa (feed_with 100 (replicate 23 1 ++ replicate 17 0) init))
         = (5134103575202365 # 9007199254740992)%Q).
Proof.
  intros st' ring.
  pose proof (update_queue_average m st s t) as Havg. fold st' ring in Havg.
  assert (Hlen : length ring = Nat.min (S m) (length (queue_history (qa st)) + 1)).
  { unfold ring, st'. rewrite update_queue_ring.
    destruct (deque_append_split (S m) (queue_history (qa st))
                (mkHistoryEntry (get_queue_length s) t)) as (ev & _ & Hl & _).
    exact Hl. }
  split; [|split; [exact Havg|split; [|split; [reflexivity|split]]]].
  - unfold ring, st'. rewrite update_queue_ring. apply deque_append_split.
  - intros Hcap Hall. rewrite Havg. apply round2_mean_near.
    + intros Hnil. apply (f_equal (@length Z)) in Hnil.
      unfold lengths in Hnil. rewrite length_map, Hlen in Hnil.
      cbn [length] in Hnil. lia.
    + unfold lengths. rewrite length_map, Hlen. lia.
    + exact Hall.
  - repeat split; vm_compute; reflexivity.
  - split; vm_compute; reflexivity.
Qed.

Lemma average_is_rounded_ring_mean_witness :
  Qle (Qabs
         (Qminus
            (average_queue_length
               (qa (update_queue_kpis_with 100 (queue_data 0) 0
                      (feed_with 100 [1; 0] init))))
            (exact_mean
               (lengths
                  (queue_history
                     (qa (update_queue_kpis_with 100 (queue_data 0) 0
                            (feed_with 100 [1; 0] init))))))))
      ((1 # 200) + (1 # 1000000000))%Q.
Proof.
  destruct (average_is_rounded_ring_mean 99 (feed_with 100 [1; 0] init)
              (QueueSnap 0 [] 0) 0) as (_ & _ & Hnear & _).
  apply Hnear.
  - vm_compute. intros Hc. discriminate Hc.
  - assert (Hring : lengths
                      (queue_history
                         (qa (update_queue_kpis_with 100 (Some (Snap (QueueSnap 0 [] 0))) 0
                                (feed_with 100 [1; 0] init))))
                    = [1; 0; 0]) by (vm_compute; reflexivity).
    rewrite Hring.
    repeat (apply Forall_cons; split; [apply Z.leb_le; reflexivity|]).
    apply Forall_nil_2.
Defined.

(** C2, as stated, fails while the ring is filling up: after the queue
    lengths 1, 0, 0 the ring mean is 1/3 and the stored average is the
    float 0.33. *)
Lemma average_not_exact_mean :
  ~ average_is_exact_mean
      (update_queue_kpis (queue_data 0) 0
         (update_queue_kpis (queue_data 0) 0
            (update_queue_kpis (queue_data 1) 0 init))).
Proof. unfold average_is_exact_mean. vm_compute. discriminate. Qed.

(** *** Service efficiency *)

Lemma Qpos_b_spec (q : Q) : Num.Qpos_b q = true <-> (0 < q)%Q.
Proof.
  unfold Num.Qpos_b, Qlt. simpl. rewrite Z.ltb_lt. lia.
Qed.

Lemma operational_efficiency (t : datetime) (st : State) :
  service_efficiency (op (update_operational_kpis t st))
  = if (0 <? current_staff_count (sm st))
       && Num.Qpos_b (average_queue_length (qa st))
    then Num.round2 (Num.fdiv (average_queue_length (qa st))
                       (Num.of_int (current_staff_count (sm st))))
    else service_efficiency (op st).
Proof. reflexivity. Qed.

(** What a cycle does to the efficiency, in terms of the staff count and
    the average that the cycle leaves behind. *)
Lemma process_kpis_efficiency config dd t st :
  dd <> ∅ ->
  let st' := process_kpis config dd t st in
  service_efficiency (op st')
  = if (0 <? current_staff_count (sm st'))
       && Num.Qpos_b (average_queue_length (qa st'))
    then Num.round2 (Num.fdiv (average_queue_length (qa st'))
                       (Num.of_int (current_staff_count (sm st'))))
    else service_efficiency (op st).
Proof.
  intros Hdd st'. unfold st', process_kpis.
  rewrite bool_decide_false by exact Hdd.
  set (st1 := update_customer_flow_kpis _ _ st).
  set (st2 := update_vehicle_kpis _ _ st1).
  set (st3 := update_queue_kpis _ _ st2).
  set (st4 := update_staff_kpis _ _ st3).
  destruct (alerts_frame config t (update_operational_kpis t st4))
    as (-> & -> & _ & ->).
  destruct (operational_frame t st4) as (-> & -> & _).
  rewrite operational_efficiency.
  assert (Hop : op st4 = op st).
  { unfold st4. rewrite (proj1 (proj2 (staff_frame _ _ _))).
    unfold st3, update_queue_kpis.
    rewrite (proj1 (proj2 (queue_frame _ _ _ _))).
    unfold st2. rewrite (proj1 (proj2 (proj2 (vehicle_frame _ _ _)))).
    unfold st1. apply customer_flow_frame. }
  rewrite Hop. reflexivity.
Qed.

(** C1 (as amended).  In every aggregation cycle in which queue data is
    present, [service_efficiency] becomes the binary64 quotient
    [average_queue_length / current_staff_count] rounded to two decimals
    in binary64 when both the staff count and the average queue length
    are positive, and keeps its previous value when the staff count is
    not positive or the average queue length is not positive; no division
    takes place in those cases.  For an average of at most 2^20 the
    stored value lies within half a hundredth, and a rounding error below
    one billionth, of the exact ratio.  In the [steady] state the average
    is the float 1.09, the staff count is 2 and the stored efficiency is
    the float 0.55. *)
Theorem service_efficiency_update (config : AnalyticsConfig)
    (dd : gmap string DetectionValue) (t : datetime) (st : State)
    (qs : Snapshot) :
  dd !! "queue" = Some (Snap qs) ->
  let st' := process_kpis config dd t st in
  (0 < current_staff_count (sm st') ->
   (0 < average_queue_length (qa st'))%Q ->
   service_efficiency (op st')
   = Num.round2 (Num.fdiv (average_queue_length (qa st'))
                   (Num.of_int (current_staff_count (sm st')))))
  /\ (current_staff_count (sm st') <= 0 ->
      service_efficiency (op st') = service_efficiency (op st))
  /\ ((average_queue_length (qa st') <= 0)%Q ->
      service_efficiency (op st') = service_efficiency (op st))
  /\ (0 < current_staff_count (sm st') < 2 ^ 53 ->
      (0 < average_queue_length (qa st'))%Q ->
      (average_queue_length (qa st') <= inject_Z (2 ^ 20))%Q ->
      (Qabs (service_efficiency (op st')
             - average_queue_length (qa st')
               / inject_Z (current_staff_count (sm st')))
       <= (1 # 200) + (1 # 1000000000))%Q)
  /\ (average_queue_length (qa steady) = (4908923593833841 # 4503599627370496)%Q
      /\ current_staff_count (sm steady) = 2
      /\ service_efficiency (op steady) = (2476979795053773 # 4503599627370496)%Q).
Proof.
  intros Hq st'.
  assert (Hdd : dd <> ∅).
  { intros ->. rewrite lookup_empty in Hq. discriminate. }
  pose proof (process_kpis_efficiency config dd t st Hdd) as Heff.
  fold st' in Heff. cbv zeta in Heff. rewrite Heff.
  split; [|split; [|split; [|split]]].
  - intros Hstaff Havg.
    apply Z.ltb_lt in Hstaff. apply Qpos_b_spec in Havg.
    rewrite Hstaff, Havg. reflexivity.
  - intros Hstaff.
    destruct (Z.ltb_spec 0 (current_staff_count (sm st'))); [lia|reflexivity].
  - intros Havg.
    destruct (Num.Qpos_b (average_queue_length (qa st'))) eqn:Hpos.
    + apply Qpos_b_spec in Hpos. exfalso. revert Havg. apply Qlt_not_le. exact Hpos.
    + rewrite andb_false_r. reflexivity.
  - intros Hstaff Havg Hsmall.
    assert (Hs : (0 <? current_staff_count (sm st')) = true) by (apply Z.ltb_lt; lia).
    apply Qpos_b_spec in Havg as Hpos. rewrite Hs, Hpos. cbn [andb].
    apply round2_ratio_near; assumption.
  - repeat split; vm_compute; reflexivity.
Qed.

Lemma service_efficiency_update_witness :
  service_efficiency (op (process_kpis default_config (detections_with 1 3) 0 init))
  = (5944751508129055 # 18014398509481984)%Q
  /\ service_efficiency (op (process_kpis default_config (detections_with 0 0) 0 drained))
     = service_efficiency (op drained)
  /\ Qle (Qabs
            (Qminus
               (service_efficiency
                  (op (process_kpis default_config (detections_with 1 3) 0 init)))
               (Qdiv
                  (average_queue_length
                     (qa (process_kpis default_config (detections_with 1 3) 0 init)))
                  (inject_Z
                     (current_staff_count
                        (sm (process_kpis default_config (detections_with 1 3) 0 init)))))))
         ((1 # 200) + (1 # 1000000000))%Q.
Proof.
  assert (Hq1 : detections_with 1 3 !! "queue" = Some (Snap (QueueSnap 1 [] 0)))
    by (vm_compute; reflexivity).
  assert (Hq2 : detections_with 0 0 !! "queue" = Some (Snap (QueueSnap 0 [] 0)))
    by (vm_compute; reflexivity).
  destruct (service_efficiency_update default_config _ 0 init _ Hq1)
    as (H1 & _ & _ & H4 & _).
  destruct (service_efficiency_update default_config _ 0 drained _ Hq2) as (_ & H2 & _).
  split; [|split].
  - etransitivity; [apply H1; vm_compute; reflexivity | vm_compute; reflexivity].
  - apply H2. vm_compute. intros H. discriminate H.
  - refine (H4 _ _ _).
    + vm_compute. split; reflexivity.
    + vm_compute. reflexivity.
    + vm_compute. intros H. discriminate H.
Defined.

(** C1, as stated, fails in two ways.  From the initial state, a cycle
    with queue length 1 and staff count 3 stores the float 0.33, not 1/3.
    And in the drained state, whose efficiency is 0.02, a cycle with an
    empty queue and two staff keeps 0.02 although the ratio is 0. *)
Lemma service_efficiency_not_plain_ratio :
  ~ efficiency_is_plain_ratio default_config (detections_with 1 3) 0 init
  /\ ~ efficiency_is_plain_ratio default_config (detections_with 0 2) 0 drained.
Proof.
  unfold efficiency_is_plain_ratio. split; intros H.
  - assert (Hq : is_Some (snapshot_of (detections_with 1 3 !! "queue")))
      by (vm_compute; eauto).
    destruct (H Hq) as [Hratio _]. clear H Hq.
    assert (Hs : 0 < current_staff_count
                       (sm (process_kpis default_config (detections_with 1 3) 0 init)))
      by (vm_compute; reflexivity).
    apply Hratio in Hs. clear Hratio. vm_compute in Hs. discriminate Hs.
  - assert (Hq : is_Some (snapshot_of (detections_with 0 2 !! "queue")))
      by (vm_compute; eauto).
    destruct (H Hq) as [Hratio _]. clear H Hq.
    assert (Hs : 0 < current_staff_count
                       (sm (process_kpis default_config (detections_with 0 2) 0 drained)))
      by (vm_compute; reflexivity).
    apply Hratio in Hs. clear Hratio. vm_compute in Hs. discriminate Hs.
Qed.

(** *** Alerts *)

Lemma new_alerts_length config t k : (length (new_alerts config t k) <= 2)%nat.
Proof.
  unfold new_alerts.
  destruct (_ <? _); destruct (_ <? _); simpl; lia.
Qed.

(** The stored list after an evaluation is the old list followed by the
    new alerts, cut down from the front to the last hundred. *)
Lemma alerts_after config t st :
  alerts (op (check_and_generate_alerts config t st))
  = last_n alerts_limit (alerts (op st) ++ new_alerts config t (kpis st)).
Proof.
  unfold check_and_generate_alerts, op, last_n. simpl.
  destruct (Nat.ltb_spec alerts_limit
              (length (alerts (operational_kpis (kpis st))
                       ++ new_alerts config t (kpis st)))) as [Hlt|Hge];
    [reflexivity|].
  replace (_ - _)%nat with 0%nat by lia. reflexivity.
Qed.

Lemma last_n_split {A} (n : nat) (xs : list A) :
  exists dropped : list A,
    xs = dropped ++ last_n n xs
    /\ length (last_n n xs) = Nat.min n (length xs)
    /\ (dropped = [] \/ length (last_n n xs) = n).
Proof.
  unfold last_n. exists (take (length xs - n) xs).
  rewrite take_drop, length_drop. split; [reflexivity|]. split; [lia|].
  destruct (Nat.le_gt_cases (length xs) n) as [Hle|Hgt].
  - left. replace (length xs - n)%nat with 0%nat by lia. reflexivity.
  - right. lia.
Qed.

Lemma process_kpis_alerts_bounded config dd t st :
  (length (alerts (op st)) <= alerts_limit)%nat ->
  (length (alerts (op (process_kpis config dd t st))) <= alerts_limit)%nat.
Proof.
  intros Hst. unfold process_kpis.
  destruct (bool_decide (dd = ∅)); [exact Hst|].
  rewrite alerts_after.
  destruct (last_n_split alerts_limit
              (alerts (op (update_operational_kpis t
                 (update_staff_kpis (dd !! "kitchen") t
                    (update_queue_kpis (dd !! "queue") t
                       (update_vehicle_kpis (dd !! "parking") t
                          (update_customer_flow_kpis (dd !! "gate") t st))))))
               ++ new_alerts config t
                    (kpis (update_operational_kpis t
                       (update_staff_kpis (dd !! "kitchen") t
                          (update_queue_kpis (dd !! "queue") t
                             (update_vehicle_kpis (dd !! "parking") t
                                (update_customer_flow_kpis (dd !! "gate") t st)))))))
           ) as (dropped & _ & Hlen & _).
  rewrite Hlen. lia.
Qed.

(** C5.  After every alert evaluation the alert list holds at most 100
    entries; it is the old list followed by the newly generated alerts,
    with entries removed only from the front (the oldest), and only when
    the result is then exactly 100 long, so the retained alerts keep their
    order.  The bound holds after every sequence of aggregation cycles
    from the initial state. *)
Theorem alerts_bounded_fifo (config : AnalyticsConfig) (t : datetime)
    (st : State) (ticks : list Tick) :
  let st' := check_and_generate_alerts config t st in
  (length (alerts (op st')) <= 100)%nat
  /\ (exists dropped : list Alert,
        alerts (op st) ++ new_alerts config t (kpis st)
          = dropped ++ alerts (op st')
        /\ (dropped = [] \/ length (alerts (op st')) = 100%nat))
  /\ (length (alerts (op (run_cycles config ticks init))) <= 100)%nat.
Proof.
  intros st'. unfold st'. rewrite alerts_after.
  destruct (last_n_split alerts_limit
              (alerts (op st) ++ new_alerts config t (kpis st)))
    as (dropped & Hsplit & Hlen & Hcase).
  split; [|split].
  - rewrite Hlen. unfold alerts_limit. lia.
  - exists dropped. split; [exact Hsplit | exact Hcase].
  - assert (Hgen : forall st0,
               (length (alerts (op st0)) <= alerts_limit)%nat ->
               (length (alerts (op (run_cycles config ticks st0))) <= alerts_limit)%nat).
    { induction ticks as [|[dd t0] ticks IH]; intros st0 Hst0; simpl; [exact Hst0|].
      apply IH. apply process_kpis_alerts_bounded. exact Hst0. }
    apply Hgen. simpl. unfold alerts_limit. lia.
Qed.

(** C6.  The thresholds are the ones the configuration gives under
    ['alert_thresholds']: ['max_queue_length'], or 10 when the section or
    the key is missing, and ['min_staff_count'], or 2 when the section or
    the key is missing.  One alert evaluation generates exactly one
    ['high'] alert when the current queue length exceeds the configured
    maximum and none otherwise, exactly one ['medium'] alert when the
    current staff count is below the configured minimum and none
    otherwise, and nothing else; the two rules do not influence each
    other.  The generated alerts are appended at the end of the stored
    list.  The evaluation looks only at the current KPIs and leaves them
    unchanged, so a rule fires again on every cycle while its condition
    holds: with threshold 10 and queue length 12, three successive cycles
    leave three ['high'] alerts.  With the maximum raised to 12 the same
    cycles leave none, with the maximum lowered to 5 and the minimum
    raised to 3 a queue of 6 with 2 staff raises both alerts on every
    cycle, and with the default thresholds it raises none. *)
Theorem alert_rules_fire_every_cycle (config : AnalyticsConfig) (t : datetime)
    (st : State) :
  let new := new_alerts config t (kpis st) in
  let st' := check_and_generate_alerts config t st in
  let max_queue :=
    match alert_thresholds config with
    | Some section =>
        match cfg_max_queue_length section with Some n => n | None => 10 end
    | None => 10
    end in
  let min_staff :=
    match alert_thresholds config with
    | Some section =>
        match cfg_min_staff_count section with Some n => n | None => 2 end
    | None => 2
    end in
  (exists kept dropped : list Alert,
     alerts (op st') = kept ++ new /\ alerts (op st) = dropped ++ kept)
  /\ count_severity "high" new
     = Nat.b2n (bool_decide (threshold_max_queue config < current_queue_length (qa st)))
  /\ count_severity "medium" new
     = Nat.b2n (bool_decide (current_staff_count (sm st) < threshold_min_staff config))
  /\ length new = (count_severity "high" new + count_severity "medium" new)%nat
  /\ (qa st' = qa st /\ sm st' = sm st)
  /\ map alert_severity
       (alerts (op (run_cycles (threshold_config 10)
                      (replicate 3 (detections_with 12 5, 0)) init)))
     = ["high"; "high"; "high"]
  /\ map alert_severity
       (alerts (op (run_cycles (threshold_config 10)
                      (replicate 2 (detections_with 12 1, 0)) init)))
     = ["high"; "medium"; "high"; "medium"]
  /\ (threshold_max_queue config = max_queue
      /\ threshold_min_staff config = min_staff)
  /\ count_severity "high" new
     = Nat.b2n (bool_decide (max_queue < current_queue_length (qa st)))
  /\ count_severity "medium" new
     = Nat.b2n (bool_decide (current_staff_count (sm st) < min_staff))
  /\ map alert_severity
       (alerts (op (run_cycles (threshold_config 12)
                      (replicate 3 (detections_with 12 5, 0)) init)))
     = []
  /\ map alert_severity
       (alerts (op (run_cycles (threshold_config 11)
                      (replicate 3 (detections_with 12 5, 0)) init)))
     = ["high"; "high"; "high"]
  /\ map alert_severity
       (alerts (op (run_cycles (thresholds_config 5 3)
                      (replicate 2 (detections_with 6 2, 0)) init)))
     = ["high"; "medium"; "high"; "medium"]
  /\ map alert_severity
       (alerts (op (run_cycles (thresholds_config 6 2)
                      (replicate 2 (detections_with 6 2, 0)) init)))
     = []
  /\ map alert_severity
       (alerts (op (run_cycles default_config
                      (replicate 2 (detections_with 6 2, 0)) init)))
     = []
  /\ map alert_severity
       (alerts (op (run_cycles default_config
                      (replicate 2 (detections_with 11 1, 0)) init)))
     = ["high"; "medium"; "high"; "medium"].
Proof.
  intros new st' max_queue min_staff.
  assert (Hmax : threshold_max_queue config = max_queue).
  { unfold threshold_max_queue, max_queue.
    destruct (alert_thresholds config) as [section|]; [|reflexivity].
    simpl. destruct (cfg_max_queue_length section); reflexivity. }
  assert (Hmin : threshold_min_staff config = min_staff).
  { unfold threshold_min_staff, min_staff.
    destruct (alert_thresholds config) as [section|]; [|reflexivity].
    simpl. destruct (cfg_min_staff_count section); reflexivity. }
  assert (Hhigh : count_severity "high" new
                  = Nat.b2n (bool_decide (threshold_max_queue config
                                          < current_queue_length (qa st)))).
  { unfold new, new_alerts, qa, count_severity.
    destruct (Z.ltb_spec (threshold_max_queue config)
                (current_queue_length (queue_analytics (kpis st))));
      [rewrite bool_decide_true by assumption
      |rewrite bool_decide_false by lia];
      destruct (_ <? _); reflexivity. }
  assert (Hmedium : count_severity "medium" new
                    = Nat.b2n (bool_decide (current_staff_count (sm st)
                                            < threshold_min_staff config))).
  { unfold new, new_alerts, sm, count_severity.
    destruct (Z.ltb_spec (current_staff_count (staff_metrics (kpis st)))
                (threshold_min_staff config));
      [rewrite bool_decide_true by assumption
      |rewrite bool_decide_false by lia];
      destruct (_ <? _); reflexivity. }
  split; [|split; [exact Hhigh|split; [exact Hmedium|split; [|split; [|split; [|split]]]]]].
  - unfold st'. rewrite alerts_after. fold new. unfold last_n.
    pose proof (new_alerts_length config t (kpis st)) as Hnew. fold new in Hnew.
    exists (drop (length (alerts (op st) ++ new) - alerts_limit) (alerts (op st))),
           (take (length (alerts (op st) ++ new) - alerts_limit) (alerts (op st))).
    split.
    + rewrite drop_app_le; [reflexivity|].
      rewrite length_app. unfold alerts_limit. lia.
    + rewrite take_drop. reflexivity.
  - unfold new, new_alerts, count_severity.
    destruct (_ <? _); destruct (_ <? _); reflexivity.
  - unfold st'. split; apply alerts_frame.
  - vm_compute. reflexivity.
  - vm_compute. reflexivity.
  - split; [split; [exact Hmax|exact Hmin]|].
    split; [rewrite <- Hmax; exact Hhigh|].
    split; [rewrite <- Hmin; exact Hmedium|].
    repeat split; vm_compute; reflexivity.
Qed.

(** *** Peak hour *)

(** [max(..., key=f)] returns an item that no item beats, and that
    strictly beats every item before it. *)
Lemma max_from_first {A} (f : A -> Z) (rest : list A) (best : A) :
  exists before after : list A,
    best :: rest = before ++ HourDict.max_from f best rest :: after
    /\ (forall x, x ∈ before -> f x < f (HourDict.max_from f best rest))
    /\ (forall x, x ∈ after -> f x <= f (HourDict.max_from f best rest)).
Proof.
  revert best. induction rest as [|x rest IH]; intros best; simpl.
  - exists [], []. repeat split; intros y Hy; inversion Hy.
  - destruct (Z.ltb_spec (f best) (f x)) as [Hlt|Hge].
    + destruct (IH x) as (before & after & Heq & Hb & Ha).
      exists (best :: before), after. rewrite Heq at 1.
      split; [reflexivity|]. split; [|exact Ha].
      intros y Hy. apply elem_of_cons in Hy as [->|Hy]; [|auto].
      assert (Hx : f x <= f (HourDict.max_from f x rest)).
      { assert (Hin : x ∈ before ++ HourDict.max_from f x rest :: after)
          by (rewrite <- Heq; apply list_elem_of_here).
        apply elem_of_app in Hin as [Hin|Hin]; [specialize (Hb _ Hin); lia|].
        apply elem_of_cons in Hin as [<-|Hin]; [lia|auto]. }
      lia.
    + destruct (IH best) as (before & after & Heq & Hb & Ha).
      destruct before as [|b before]; simpl in Heq.
      * injection Heq as Hbest Hrest.
        exists [], (x :: rest). rewrite <- Hbest in Ha |- *. subst after.
        split; [reflexivity|]. split; [intros y Hy; inversion Hy|].
        intros y Hy. apply elem_of_cons in Hy as [->|Hy]; [exact Hge|auto].
      * injection Heq as Hbest Hrest. subst b.
        exists (best :: x :: before), after.
        split; [simpl; do 2 f_equal; exact Hrest|]. split; [|exact Ha].
        assert (Hbest : f best < f (HourDict.max_from f best rest))
          by (apply Hb; apply list_elem_of_here).
        intros y Hy. apply elem_of_cons in Hy as [->|Hy]; [exact Hbest|].
        apply elem_of_cons in Hy as [->|Hy]; [lia|].
        apply Hb. apply list_elem_of_further. exact Hy.
Qed.

(** C4 (as amended).  For every non-empty hourly histogram the computed
    peak hour is a key whose count is maximal, and when several hours tie
    for the maximum the one that comes first in the histogram's iteration
    order, which is the order in which the hours were first inserted, is
    chosen: every key before it has a strictly smaller count.  Both
    [update_customer_flow_kpis] and [update_vehicle_kpis] store this key
    when the histogram is non-empty and keep the previous value
    otherwise. *)
Theorem peak_is_first_max_key (d : HourDict.t) (st : State) (s : Snapshot)
    (t : datetime) :
  match HourDict.peak d with
  | None => d = []
  | Some p =>
      exists before after : list Z,
        HourDict.keys d = before ++ p :: after
        /\ (forall k, k ∈ before -> HourDict.count d k < HourDict.count d p)
        /\ (forall k, k ∈ after -> HourDict.count d k <= HourDict.count d p)
  end
  /\ peak_hour (cf (update_customer_flow_kpis (Some (Snap s)) t st))
     = match HourDict.peak (hourly_entries (cf st)) with
       | Some p => Some p
       | None => peak_hour (cf st)
       end
  /\ peak_parking_hour
       (vehicle_metrics (kpis (update_vehicle_kpis (Some (Snap s)) t st)))
     = match HourDict.peak (hourly_arrivals (vehicle_metrics (kpis st))) with
       | Some p => Some p
       | None => peak_parking_hour (vehicle_metrics (kpis st))
       end
  /\ HourDict.peak [(9, 4); (7, 6); (3, 6)] = Some 7.
Proof.
  split; [|split; [|split; [|reflexivity]]].
  - unfold HourDict.peak.
    destruct d as [|[k v] d]; [reflexivity|]. cbn [HourDict.keys map fst].
    apply (max_from_first (HourDict.count ((k, v) :: d)) (map fst d) k).
  - unfold update_customer_flow_kpis, cf. cbn [snapshot_of].
    destruct (HourDict.getitem _ _). reflexivity.
  - reflexivity.
Qed.

(** C4, as stated, fails on the histogram of a process that runs past
    midnight: the hours 22, 23 and 0 all have the same count, the lowest
    tied hour is 0, and the stored peak is 22, the first one inserted. *)
Lemma peak_not_lowest_hour :
  hourly_entries (cf overnight) = [(22, 0); (23, 0); (0, 0)]
  /\ peak_hour (cf overnight) = Some 22
  /\ ~ peak_is_lowest_max_hour (hourly_entries (cf overnight)).
Proof.
  split; [reflexivity|]. split; [reflexivity|].
  change (hourly_entries (cf overnight)) with [(22, 0); (23, 0); (0, 0)].
  intros H. destruct H as (p & Hp & _ & _ & Hlow); [discriminate|].
  injection Hp as <-.
  specialize (Hlow 0). cbn in Hlow.
  assert (Hle : 22 <= 0); [|lia].
  apply Hlow; [|reflexivity].
  apply list_elem_of_further, list_elem_of_further, list_elem_of_here.
Qed.

End KPIFacts.

(* ===================================================================== *)
(** ** get_current_kpis returns a shallow copy *)
(* ===================================================================== *)

Module AliasingFacts.

Import KPIProcessor.
Import Aliasing.

(** A returned dictionary always shows the live state of the processor,
    whatever method runs after the call. *)
Lemma returned_tracks_self (h : Heap) (f : State -> State) :
  view (method f (get_current_kpis h).2) (get_current_kpis h).1
  = Some (view_self (method f h)).
Proof.
  unfold view, view_self, method, get_current_kpis. simpl.
  rewrite lookup_app_r by lia. rewrite Nat.sub_diag. reflexivity.
Qed.

(** C9 at a concrete input.  A caller takes [get_current_kpis()] from the
    freshly constructed processor and then the aggregator processes a
    queue snapshot of length 5: the value returned earlier now reads 5
    instead of 0.  Conversely, an assignment made by the caller through
    the returned value changes the processor's own state.  Only the top
    level is copied: deleting a key of the returned dictionary leaves
    [self.kpis] alone. *)
Theorem get_current_kpis_is_shallow :
  let v := (get_current_kpis init_heap).1 in
  let h1 := (get_current_kpis init_heap).2 in
  let h2 := method (update_queue_kpis (KPISpec.queue_data 5) 0) h1 in
  read_queue_length h1 v = Some 0
  /\ read_queue_length h2 v = Some 5
  /\ ~ returns_isolated_copy init_heap (update_queue_kpis (KPISpec.queue_data 5) 0)
  /\ current_queue_length (KPISpec.qa (proc h1)) = 0
  /\ current_queue_length (KPISpec.qa (proc (caller_set_queue_length v 99 h1))) = 99
  /\ self_kpis (caller_delitem v "queue_analytics" h1) = self_kpis h1
  /\ view_self (caller_delitem v "queue_analytics" h1) = view_self h1.
Proof.
  intros v h1 h2.
  split; [reflexivity|]. split; [reflexivity|]. split; [|repeat split].
  intros Hiso. unfold returns_isolated_copy in Hiso.
  assert (Hread : read_queue_length h2 v = read_queue_length h1 v).
  { unfold read_queue_length, h2, h1, v. rewrite Hiso. reflexivity. }
  vm_compute in Hread. discriminate Hread.
Qed.

End AliasingFacts.

(* ===================================================================== *)
(** ** The four stream workers in closed form *)
(* ===================================================================== *)

Module WorkerFacts.

Import CameraManager.
Import QueueWorkerSpec.
Import WorkerSpec.

Section Loops.

Variable clock : nat -> datetime.
Variable mc : ModelConfig.

(** A loop body that appends one stamped detection and counts one for
    each selected box computes, over a list of boxes, the number of
    selected boxes and their stamped detections. *)
Lemma select_loop (sel : Box -> bool) (mk : Box -> datetime -> Detection)
    (body : Acc -> Box -> Acc) :
  (forall count dets n b,
     body (count, dets, n) b
     = if sel b then (count + 1, dets ++ [mk b (clock n)], S n)
       else (count, dets, n)) ->
  forall (bs : list Box) (count : Z) (dets : list Detection) (n : nat),
    foldl body (count, dets, n) bs
    = (count + Z.of_nat (length (List.filter sel bs)),
       dets ++ stamped clock n mk (List.filter sel bs),
       (n + length (List.filter sel bs))%nat).
Proof.
  intros Hbody. unfold stamped.
  induction bs as [|b bs IH]; intros count dets n.
  - simpl. rewrite app_nil_r, Z.add_0_r, Nat.add_0_r. reflexivity.
  - cbn [foldl List.filter]. rewrite Hbody.
    destruct (sel b); [|apply IH].
    rewrite IH. cbn [length imap]. rewrite <- app_assoc. cbn [app].
    rewrite Nat.add_0_r.
    f_equal; [f_equal; [lia|]|lia].
    do 2 f_equal. apply imap_ext. intros i x _. simpl. do 2 f_equal. lia.
Qed.

Lemma parking_box_select count dets n b :
  parking_box clock mc (count, dets, n) b
  = if is_vehicle mc b
    then (count + 1, dets ++ [parking_detection b (clock n)], S n)
    else (count, dets, n).
Proof.
  unfold parking_box, is_vehicle, parking_detection.
  destruct (existsb _ _); [|reflexivity].
  destruct (Num.Qleb _ _); reflexivity.
Qed.

Lemma gate_box_select count dets n b :
  gate_box clock mc (count, dets, n) b
  = if is_person mc b
    then (count + 1, dets ++ [person_detection b (clock n)], S n)
    else (count, dets, n).
Proof.
  unfold gate_box, is_person, person_detection, box_center.
  destruct (cls b =? 0) eqn:Hcls; [|reflexivity].
  destruct (Num.Qleb _ _); [|reflexivity].
  destruct (xyxy b) as [[[x1 y1] x2] y2]. reflexivity.
Qed.

Lemma queue_box_select zones count dets n b :
  queue_box clock mc zones (count, dets, n) b
  = if in_queue mc zones b
    then (count + 1, dets ++ [queue_detection zones b (clock n)], S n)
    else (count, dets, n).
Proof.
  unfold queue_box, in_queue, is_person, queue_detection, classify, box_center.
  destruct (cls b =? 0) eqn:Hcls; [|reflexivity].
  destruct (Num.Qleb _ _); [|reflexivity].
  destruct (xyxy b) as [[[x1 y1] x2] y2]. cbn [fst snd andb].
  destruct (zone_scan zones (midpoint x1 x2) (midpoint y1 y2)) as [z|].
  - rewrite bool_decide_true by (simpl; eauto). reflexivity.
  - rewrite bool_decide_false by (simpl; intros [? ?]; discriminate). reflexivity.
Qed.

Lemma kitchen_box_select zones count dets n washing b :
  kitchen_box clock mc zones (count, dets, n, washing) b
  = if is_person mc b
    then (if in_work_area mc zones b then count + 1 else count,
          dets ++ [person_detection b (clock n)], S n,
          if at_wash_station mc zones b then true else washing)
    else (count, dets, n, washing).
Proof.
  unfold kitchen_box, in_work_area, at_wash_station, is_person,
    person_detection, box_center.
  destruct (cls b =? 0); [|reflexivity].
  destruct (Num.Qleb _ _); [|reflexivity].
  destruct (xyxy b) as [[[x1 y1] x2] y2]. reflexivity.
Qed.

(** The kitchen loop keeps two results besides the detections. *)
Lemma kitchen_loop (zones : MonitoringZones) (bs : list Box) (count : Z)
    (dets : list Detection) (n : nat) (washing : bool) :
  foldl (kitchen_box clock mc zones) (count, dets, n, washing) bs
  = (count + Z.of_nat (length (List.filter (in_work_area mc zones) bs)),
     dets ++ stamped clock n person_detection (List.filter (is_person mc) bs),
     (n + length (List.filter (is_person mc) bs))%nat,
     washing || existsb (at_wash_station mc zones) bs).
Proof.
  unfold stamped. revert count dets n washing.
  induction bs as [|b bs IH]; intros count dets n washing.
  - simpl. rewrite app_nil_r, Z.add_0_r, Nat.add_0_r, orb_false_r. reflexivity.
  - cbn [foldl List.filter existsb]. rewrite kitchen_box_select.
    destruct (is_person mc b) eqn:Hp.
    + rewrite IH. cbn [length imap]. rewrite <- app_assoc. cbn [app].
      rewrite Nat.add_0_r.
      assert (Himap : imap (fun i b0 => person_detection b0 (clock (S n + i)))
                        (List.filter (is_person mc) bs)
                      = imap ((fun i b0 => person_detection b0 (clock (n + i))) ∘ S)
                          (List.filter (is_person mc) bs)).
      { apply imap_ext. intros i x _. simpl. do 2 f_equal. lia. }
      rewrite Himap.
      destruct (in_work_area mc zones b); destruct (at_wash_station mc zones b);
        cbn [length orb]; rewrite ?orb_true_r;
        repeat first [lia | reflexivity | progress f_equal].
    + assert (Hw : in_work_area mc zones b = false)
        by (unfold in_work_area; rewrite Hp; reflexivity).
      assert (Hs : at_wash_station mc zones b = false)
        by (unfold at_wash_station; rewrite Hp; reflexivity).
      rewrite Hw, Hs, orb_false_l. apply IH.
Qed.

End Loops.

Section Closed.

Variable clock : nat -> datetime.
Variable mc : ModelConfig.

(** The state each worker leaves behind, as a function of the boxes of
    the frame. *)
Lemma parking_closed (results : list Result) (st : State) :
  process_parking_camera clock mc results st
  = mkState
      (<["parking" :=
           Snap (ParkingSnap
                   (Z.of_nat (length (List.filter (is_vehicle mc) (all_boxes results))))
                   (stamped clock (now_calls st) parking_detection
                      (List.filter (is_vehicle mc) (all_boxes results)))
                   (clock (now_calls st
                           + length (List.filter (is_vehicle mc) (all_boxes results)))%nat))]>
         (detection_data st))
      (S (now_calls st + length (List.filter (is_vehicle mc) (all_boxes results)))).
Proof.
  unfold process_parking_camera.
  rewrite QueueWorkerFacts.for_boxes_all.
  rewrite (select_loop clock (is_vehicle mc) parking_detection
             (parking_box clock mc) (parking_box_select clock mc)).
  reflexivity.
Qed.

Lemma gate_closed (results : list Result) (st : State) :
  process_gate_camera clock mc results st
  = mkState
      (<["gate" :=
           Snap (GateSnap
                   (Z.of_nat (length (List.filter (is_person mc) (all_boxes results))))
                   (stamped clock (now_calls st) person_detection
                      (List.filter (is_person mc) (all_boxes results)))
                   (clock (now_calls st
                           + length (List.filter (is_person mc) (all_boxes results)))%nat))]>
         (detection_data st))
      (S (now_calls st + length (List.filter (is_person mc) (all_boxes results)))).
Proof.
  unfold process_gate_camera.
  rewrite QueueWorkerFacts.for_boxes_all.
  rewrite (select_loop clock (is_person mc) person_detection
             (gate_box clock mc) (gate_box_select clock mc)).
  reflexivity.
Qed.

Lemma queue_closed (config : CameraConfig) (results : list Result) (st : State) :
  process_queue_camera clock mc config results st
  = mkState
      (<["queue" :=
           Snap (QueueSnap
                   (Z.of_nat (length (List.filter (in_queue mc (queue_zones config))
                                        (all_boxes results))))
                   (stamped clock (now_calls st) (queue_detection (queue_zones config))
                      (List.filter (in_queue mc (queue_zones config)) (all_boxes results)))
                   (clock (now_calls st
                           + length (List.filter (in_queue mc (queue_zones config))
                                       (all_boxes results)))%nat))]>
         (detection_data st))
      (S (now_calls st
          + length (List.filter (in_queue mc (queue_zones config)) (all_boxes results)))).
Proof.
  unfold process_queue_camera, queue_snapshot.
  rewrite QueueWorkerFacts.for_boxes_all.
  rewrite (select_loop clock (in_queue mc (queue_zones config))
             (queue_detection (queue_zones config))
             (queue_box clock mc (queue_zones config))
             (queue_box_select clock mc (queue_zones config))).
  reflexivity.
Qed.

Lemma kitchen_closed (config : CameraConfig) (results : list Result) (st : State) :
  process_kitchen_camera clock mc config results st
  = mkState
      (<["kitchen" :=
           Snap (KitchenSnap
                   (Z.of_nat (length (List.filter (in_work_area mc (monitoring_zones config))
                                        (all_boxes results))))
                   (existsb (at_wash_station mc (monitoring_zones config))
                      (all_boxes results))
                   (stamped clock (now_calls st) person_detection
                      (List.filter (is_person mc) (all_boxes results)))
                   (clock (now_calls st
                           + length (List.filter (is_person mc) (all_boxes results)))%nat))]>
         (detection_data st))
      (S (now_calls st + length (List.filter (is_person mc) (all_boxes results)))).
Proof.
  unfold process_kitchen_camera.
  rewrite QueueWorkerFacts.for_boxes_all, kitchen_loop.
  reflexivity.
Qed.

Lemma length_stamped n mk bs : length (stamped clock n mk bs) = length bs.
Proof. apply length_imap. Qed.

Lemma elem_of_stamped n mk bs d :
  d ∈ stamped clock n mk bs ->
  exists (i : nat) (b : Box), bs !! i = Some b /\ d = mk b (clock (n + i)%nat).
Proof.
  intros Hd. apply list_elem_of_lookup in Hd as [i Hi].
  unfold stamped in Hi. rewrite list_lookup_imap in Hi.
  destruct (bs !! i) as [b|] eqn:Hb; [|discriminate].
  injection Hi as <-. eauto.
Qed.

Lemma filter_elem {A} (f : A -> bool) (l : list A) (i : nat) (x : A) :
  List.filter f l !! i = Some x -> f x = true /\ x ∈ l.
Proof.
  intros Hi.
  assert (Hin : In x (List.filter f l)).
  { apply list_elem_of_In, list_elem_of_lookup. eauto. }
  apply filter_In in Hin as [Hin Hf]. split; [exact Hf|].
  apply list_elem_of_In. exact Hin.
Qed.

End Closed.


Lemma is_vehicle_spec (mc : ModelConfig) (b : Box) :
  is_vehicle mc b = true ->
  cls b ∈ vehicle_classes mc
  /\ (vehicle_confidence_threshold mc <= conf b)%Q.
Proof.
  unfold is_vehicle, Num.Qleb. rewrite andb_true_iff, Qle_bool_iff.
  intros [Hcls Hconf]. split; [|exact Hconf].
  apply existsb_exists in Hcls as (c & Hin & Heq).
  apply Z.eqb_eq in Heq. subst c. apply list_elem_of_In. exact Hin.
Qed.

Lemma is_person_spec (mc : ModelConfig) (b : Box) :
  is_person mc b = true ->
  cls b = 0 /\ (person_confidence_threshold mc <= conf b)%Q.
Proof.
  unfold is_person, Num.Qleb. rewrite andb_true_iff, Qle_bool_iff, Z.eqb_eq.
  tauto.
Qed.

(** X1.  The parking worker publishes a snapshot whose [vehicle_count] is
    the number of its detections, which are, in frame order, exactly the
    boxes of a whitelisted class whose confidence reaches the vehicle
    threshold; each detection keeps the box's class, confidence and
    corners and has neither centre nor zone.  With an empty whitelist the
    snapshot counts nothing. *)
Theorem parking_counts_whitelisted_vehicles (clock : nat -> datetime)
    (mc : ModelConfig) (results : list Result) (st : State) :
  (exists (dets : list Detection) (t : datetime),
     detection_data (process_parking_camera clock mc results st) !! "parking"
       = Some (Snap (ParkingSnap (Z.of_nat (length dets)) dets t))
     /\ map (fun d => (class_id d, confidence d, bbox d, center d, zone d)) dets
        = map (fun b => (cls b, conf b, xyxy b, None, None))
            (List.filter (is_vehicle mc) (all_boxes results))
     /\ (forall d, d ∈ dets ->
           class_id d ∈ vehicle_classes mc
           /\ (vehicle_confidence_threshold mc <= confidence d)%Q))
  /\ (exists t : datetime,
        detection_data
          (process_parking_camera clock
             (mkModelConfig [] (vehicle_confidence_threshold mc)
                (person_confidence_threshold mc)) results st) !! "parking"
        = Some (Snap (ParkingSnap 0 [] t))).
Proof.
  split.
  - rewrite parking_closed. cbn [detection_data]. rewrite lookup_insert_eq.
    eexists _, _. rewrite length_stamped. split; [reflexivity|]. split.
    + unfold stamped. generalize (now_calls st).
      induction (List.filter (is_vehicle mc) (all_boxes results)) as [|b l IH];
        intros n; [reflexivity|].
      cbn [imap map]. f_equal.
      rewrite <- (IH (S n)). f_equal. apply imap_ext. intros i x _.
      simpl. do 2 f_equal. lia.
    + intros d Hd. apply elem_of_stamped in Hd as (i & b & Hb & ->).
      apply filter_elem in Hb as [Hb _]. apply is_vehicle_spec in Hb.
      exact Hb.
  - rewrite parking_closed. cbn [detection_data]. rewrite lookup_insert_eq.
    assert (Hnone : List.filter
                      (is_vehicle (mkModelConfig [] (vehicle_confidence_threshold mc)
                                     (person_confidence_threshold mc)))
                      (all_boxes results) = []).
    { induction (all_boxes results) as [|b l IH]; [reflexivity|]. exact IH. }
    rewrite Hnone. eexists. reflexivity.
Qed.




Lemma no_queue_zones (mc : ModelConfig) (bs : list Box) :
  List.filter (in_queue mc []) bs = [].
Proof.
  induction bs as [|b l IH]; [reflexivity|]. simpl.
  unfold in_queue at 1. unfold classify. simpl.
  destruct (is_person mc b); simpl; exact IH.
Qed.


(** X4.  Every detection of a published queue snapshot is a person (class
    0) whose confidence reaches the person threshold and whose recorded
    centre lies inside a zone of the camera's [queue_zones] that bears the
    name recorded under ['zone'].  A camera without queue zones publishes
    queue length 0 and no detections, whatever the frame shows. *)
Theorem queue_detections_lie_in_their_zone (clock : nat -> datetime)
    (mc : ModelConfig) (config : CameraConfig) (results : list Result)
    (st : State) :
  (exists (n : Z) (dets : list Detection) (t : datetime),
     detection_data (process_queue_camera clock mc config results st) !! "queue"
       = Some (Snap (QueueSnap n dets t))
     /\ forall d, d ∈ dets ->
          class_id d = 0
          /\ (person_confidence_threshold mc <= confidence d)%Q
          /\ exists (z : Zone) (c : Q * Q),
               z ∈ queue_zones config
               /\ zone d = Some (zone_name z)
               /\ center d = Some c
               /\ ZoneSpec.contains z c)
  /\ (exists t : datetime,
        detection_data
          (process_queue_camera clock mc
             (mkCameraConfig [] (monitoring_zones config)) results st) !! "queue"
        = Some (Snap (QueueSnap 0 [] t))).
Proof.
  split.
  - rewrite queue_closed. cbn [detection_data]. rewrite lookup_insert_eq.
    eexists _, _, _. split; [reflexivity|].
    intros d Hd. apply elem_of_stamped in Hd as (i & b & Hb & ->).
    apply filter_elem in Hb as [Hb _]. unfold in_queue in Hb.
    apply andb_true_iff in Hb as [Hperson Hzone].
    apply is_person_spec in Hperson as [Hcls Hconf].
    split; [exact Hcls|]. split; [exact Hconf|].
    apply bool_decide_eq_true in Hzone. unfold classify in Hzone |- *.
    cbn [queue_detection zone center].
    pose proof (ZoneFacts.zone_scan_first (queue_zones config)
                  (box_center b).1 (box_center b).2) as Hscan.
    unfold classify.
    destruct (zone_scan (queue_zones config) (box_center b).1 (box_center b).2)
      as [z|]; [|destruct Hzone; discriminate].
    destruct Hscan as (j & Hj & Hin & _).
    exists z, (box_center b). split; [|split; [reflexivity|split; [reflexivity|]]].
    + apply list_elem_of_lookup. eauto.
    + apply ZoneFacts.in_zone_contains. exact Hin.
  - rewrite queue_closed. cbn [detection_data queue_zones].
    rewrite lookup_insert_eq.
    rewrite no_queue_zones. eexists. reflexivity.
Qed.

(** *** The store under publishes *)

Section Publishes.

Variable clock : nat -> datetime.
Variable mc : ModelConfig.

(** A worker iteration in closed form: it binds its role key to a
    snapshot whose detections are stamped boxes, and the snapshot depends
    on the state only through the clock position. *)
Lemma publish_closed (p : Publish) (st : State) :
  exists (snap : nat -> Snapshot) (k : nat),
    (forall st' : State,
       publish clock mc st' p
       = mkState (<[role_of p := Snap (snap (now_calls st'))]> (detection_data st'))
           (S (now_calls st' + k)))
    /\ exists (mk : Box -> datetime -> Detection) (bs : list Box),
         k = length bs
         /\ (forall b t, det_timestamp (mk b t) = t)
         /\ forall n, snapshot_detections (snap n) = stamped clock n mk bs
                      /\ snapshot_timestamp (snap n) = clock (n + k)%nat.
Proof.
  destruct p as [rs|rs|c rs|c rs]; cbn [publish role_of].
  - set (bs := List.filter (is_vehicle mc) (all_boxes rs)).
    exists (fun n => ParkingSnap (Z.of_nat (length bs))
                       (stamped clock n parking_detection bs)
                       (clock (n + length bs)%nat)), (length bs).
    split; [intros st'; apply parking_closed|].
    exists parking_detection, bs. repeat split.
  - set (bs := List.filter (is_person mc) (all_boxes rs)).
    exists (fun n => GateSnap (Z.of_nat (length bs))
                       (stamped clock n person_detection bs)
                       (clock (n + length bs)%nat)), (length bs).
    split; [intros st'; apply gate_closed|].
    exists person_detection, bs. repeat split.
  - set (bs := List.filter (in_queue mc (queue_zones c)) (all_boxes rs)).
    exists (fun n => QueueSnap (Z.of_nat (length bs))
                       (stamped clock n (queue_detection (queue_zones c)) bs)
                       (clock (n + length bs)%nat)), (length bs).
    split; [intros st'; apply queue_closed|].
    exists (queue_detection (queue_zones c)), bs. repeat split.
  - set (bs := List.filter (is_person mc) (all_boxes rs)).
    exists (fun n => KitchenSnap
                       (Z.of_nat (length (List.filter
                                            (in_work_area mc (monitoring_zones c))
                                            (all_boxes rs))))
                       (existsb (at_wash_station mc (monitoring_zones c)) (all_boxes rs))
                       (stamped clock n person_detection bs)
                       (clock (n + length bs)%nat)), (length bs).
    split; [intros st'; apply kitchen_closed|].
    exists person_detection, bs. repeat split.
Qed.

Lemma role_of_in_roles (p : Publish) : role_of p ∈ StoreSpec.roles.
Proof.
  unfold StoreSpec.roles.
  destruct p; simpl; repeat first [apply list_elem_of_here | apply list_elem_of_further].
Qed.

(** X5.  The store always has exactly the four role keys, whatever has
    been published.  A worker iteration leaves every key other than its
    own as it was, and what it stores under its own key does not depend
    on what was stored before: a publish overwrites, it never merges. *)
Theorem store_keeps_four_roles (ps : list Publish) (p : Publish) (st : State)
    (d1 d2 : gmap string DetectionValue) (n : nat) :
  dom (detection_data (run clock mc ps)) = list_to_set StoreSpec.roles
  /\ delete (role_of p) (detection_data (publish clock mc st p))
     = delete (role_of p) (detection_data st)
  /\ detection_data (publish clock mc (mkState d1 n) p) !! role_of p
     = detection_data (publish clock mc (mkState d2 n) p) !! role_of p.
Proof.
  split; [|split].
  - induction ps as [|q ps IH] using rev_ind.
    + unfold run, StoreSpec.roles. cbn [foldl init detection_data].
      rewrite !dom_insert_L, dom_empty_L. cbn [list_to_set foldr].
      reflexivity.
    + rewrite StoreFacts.run_snoc.
      destruct (StoreFacts.publish_insert clock mc (run clock mc ps) q) as [s ->].
      rewrite dom_insert_L, IH.
      pose proof (role_of_in_roles q) as Hq.
      apply (elem_of_list_to_set (C := gset string)) in Hq.
      apply subseteq_union_1_L, singleton_subseteq_l. exact Hq.
  - destruct (publish_closed p st) as (snap & k & Hpub & _).
    rewrite Hpub. cbn [detection_data]. apply delete_insert_eq.
  - destruct (publish_closed p st) as (snap & k & Hpub & _).
    rewrite !Hpub. cbn [detection_data now_calls].
    rewrite !lookup_insert_eq. reflexivity.
Qed.

(** Time stamps of stamped detections are successive clock readings. *)
Lemma stamped_timestamp (mk : Box -> datetime -> Detection) (bs : list Box)
    (n i : nat) (a : datetime) :
  (forall b t, det_timestamp (mk b t) = t) ->
  map det_timestamp (stamped clock n mk bs) !! i = Some a ->
  a = clock (n + i)%nat /\ (i < length bs)%nat.
Proof.
  intros Hmk Hi. unfold stamped in Hi.
  rewrite list_lookup_fmap, list_lookup_imap in Hi.
  destruct (bs !! i) as [b|] eqn:Hb; [|discriminate].
  simpl in Hi. injection Hi as <-. split; [apply Hmk|].
  apply lookup_lt_Some in Hb. exact Hb.
Qed.

(** X7.  When the clock never runs backwards, the detections of every
    published snapshot carry time stamps in non-decreasing order, none
    earlier than the clock reading at the start of the iteration and none
    later than the snapshot's own time stamp. *)
Theorem snapshot_timestamps_ordered (p : Publish) (st : State) :
  monotone_clock clock ->
  exists s : Snapshot,
    detection_data (publish clock mc st p) !! role_of p = Some (Snap s)
    /\ nondecreasing (map det_timestamp (snapshot_detections s))
    /\ forall d, d ∈ snapshot_detections s ->
         clock (now_calls st) <= det_timestamp d <= snapshot_timestamp s.
Proof.
  intros Hmono.
  destruct (publish_closed p st) as (snap & k & Hpub & mk & bs & -> & Hmk & Hsnap).
  exists (snap (now_calls st)).
  destruct (Hsnap (now_calls st)) as [Hdets Htime].
  rewrite Hpub. cbn [detection_data]. rewrite lookup_insert_eq.
  split; [reflexivity|]. rewrite Hdets, Htime. split.
  - intros i j a b Hij Ha Hb.
    apply (stamped_timestamp mk bs _ _ _ Hmk) in Ha as [-> _].
    apply (stamped_timestamp mk bs _ _ _ Hmk) in Hb as [-> _].
    apply Hmono. lia.
  - intros d Hd. apply elem_of_stamped in Hd as (i & b & Hb & ->).
    rewrite Hmk. apply lookup_lt_Some in Hb.
    split; apply Hmono; lia.
Qed.

End Publishes.

Lemma snapshot_timestamps_ordered_witness :
  exists s : Snapshot,
    detection_data (publish StoreSpec.clock0 StoreSpec.mc0 init gate_publish)
      !! role_of gate_publish = Some (Snap s)
    /\ nondecreasing (map det_timestamp (snapshot_detections s))
    /\ forall d, d ∈ snapshot_detections s ->
         StoreSpec.clock0 (now_calls init) <= det_timestamp d <= snapshot_timestamp s.
Proof.
  apply (snapshot_timestamps_ordered StoreSpec.clock0 StoreSpec.mc0 gate_publish init).
  intros i j Hij. unfold StoreSpec.clock0. lia.
Defined.

(** *** The per-camera loop *)

Section FeedFacts.

Variable Frame : Type.
Variable yolo_model : Frame -> list Result.
Variable clock : nat -> datetime.
Variable mc : ModelConfig.

Lemma feed_iteration_frame (camera_type : string) (config : CameraConfig)
    (st : State) (read : option Frame) :
  match camera_role camera_type with
  | Some role =>
      delete role
        (detection_data
           (CameraFeed.feed_iteration Frame yolo_model clock mc camera_type config st read))
      = delete role (detection_data st)
  | None =>
      CameraFeed.feed_iteration Frame yolo_model clock mc camera_type config st read = st
  end.
Proof.
  unfold camera_role, CameraFeed.feed_iteration.
  destruct (String.eqb camera_type "vehicle_detection").
  { destruct read as [frame|]; [|reflexivity].
    rewrite parking_closed. apply delete_insert_eq. }
  destruct (String.eqb camera_type "person_tracking").
  { destruct read as [frame|]; [|reflexivity].
    rewrite gate_closed. apply delete_insert_eq. }
  destruct (String.eqb camera_type "queue_analysis").
  { destruct read as [frame|]; [|reflexivity].
    rewrite queue_closed. apply delete_insert_eq. }
  destruct (String.eqb camera_type "staff_monitoring").
  { destruct read as [frame|]; [|reflexivity].
    rewrite kitchen_closed. apply delete_insert_eq. }
  destruct read; reflexivity.
Qed.

(** X6.  In the per-camera loop a failed read changes nothing: the loop
    over any sequence of reads leaves the same store as the loop over its
    successful reads alone, so a run of failures before a success leaves
    the old snapshot in place until the success.  A camera that could not
    be opened never publishes.  A camera whose type is one of the four
    known ones changes only that type's role key; any other type changes
    nothing at all. *)
Theorem failed_reads_leave_store_stale (camera_type : string)
    (config : CameraConfig) (reads : list (option Frame)) (n : nat) (st : State) :
  CameraFeed.process_camera_feed Frame yolo_model clock mc true camera_type config reads st
  = CameraFeed.process_camera_feed Frame yolo_model clock mc true camera_type config
      (successful reads) st
  /\ CameraFeed.process_camera_feed Frame yolo_model clock mc true camera_type config
       (replicate n None ++ reads) st
     = CameraFeed.process_camera_feed Frame yolo_model clock mc true camera_type config
         reads st
  /\ CameraFeed.process_camera_feed Frame yolo_model clock mc false camera_type config
       reads st = st
  /\ match camera_role camera_type with
     | Some role =>
         delete role
           (detection_data
              (CameraFeed.process_camera_feed Frame yolo_model clock mc true
                 camera_type config reads st))
         = delete role (detection_data st)
     | None =>
         CameraFeed.process_camera_feed Frame yolo_model clock mc true
           camera_type config reads st = st
     end.
Proof.
  unfold CameraFeed.process_camera_feed.
  split; [|split; [|split; [reflexivity|]]].
  - revert st. induction reads as [|[frame|] reads IH]; intros st;
      [reflexivity| |]; cbn [successful List.filter foldl].
    + apply IH.
    + apply IH.
  - rewrite foldl_app. f_equal.
    induction n as [|n IH]; [reflexivity|]. exact IH.
  - revert st. induction reads as [|read reads IH]; intros st; cbn [foldl].
    + destruct (camera_role camera_type); reflexivity.
    + pose proof (feed_iteration_frame camera_type config st read) as Hstep.
      specialize (IH (CameraFeed.feed_iteration Frame yolo_model clock mc
                        camera_type config st read)).
      destruct (camera_role camera_type) as [role|].
      * rewrite IH. exact Hstep.
      * rewrite Hstep in IH |- *. exact IH.
Qed.

End FeedFacts.

End WorkerFacts.

(* ===================================================================== *)
(** ** The aggregator over its lifetime, its queries and its timer loop *)
(* ===================================================================== *)

Module ServiceFacts.

Import KPIProcessor.
Import KPISpec.
Import KPIService.

Import ServiceSpec.

(** *** Each update method touches its own part only *)

Lemma customer_flow_parts d t st :
  parking_part (update_customer_flow_kpis d t st) = parking_part st
  /\ queue_part (update_customer_flow_kpis d t st) = queue_part st
  /\ kitchen_part (update_customer_flow_kpis d t st) = kitchen_part st
  /\ op (update_customer_flow_kpis d t st) = op st.
Proof.
  unfold update_customer_flow_kpis.
  destruct (snapshot_of d); [|auto].
  destruct (HourDict.getitem _ _). auto.
Qed.

Lemma vehicle_parts d t st :
  gate_part (update_vehicle_kpis d t st) = gate_part st
  /\ queue_part (update_vehicle_kpis d t st) = queue_part st
  /\ kitchen_part (update_vehicle_kpis d t st) = kitchen_part st
  /\ op (update_vehicle_kpis d t st) = op st.
Proof. unfold update_vehicle_kpis. destruct (snapshot_of d); auto. Qed.

Lemma queue_parts maxlen d t st :
  gate_part (update_queue_kpis_with maxlen d t st) = gate_part st
  /\ parking_part (update_queue_kpis_with maxlen d t st) = parking_part st
  /\ kitchen_part (update_queue_kpis_with maxlen d t st) = kitchen_part st
  /\ op (update_queue_kpis_with maxlen d t st) = op st.
Proof. unfold update_queue_kpis_with. destruct (snapshot_of d); auto. Qed.

Lemma staff_parts d t st :
  gate_part (update_staff_kpis d t st) = gate_part st
  /\ parking_part (update_staff_kpis d t st) = parking_part st
  /\ queue_part (update_staff_kpis d t st) = queue_part st
  /\ op (update_staff_kpis d t st) = op st.
Proof. unfold update_staff_kpis. destruct (snapshot_of d); auto. Qed.

Lemma operational_parts t st :
  gate_part (update_operational_kpis t st) = gate_part st
  /\ parking_part (update_operational_kpis t st) = parking_part st
  /\ queue_part (update_operational_kpis t st) = queue_part st
  /\ kitchen_part (update_operational_kpis t st) = kitchen_part st.
Proof. unfold update_operational_kpis. auto. Qed.

Lemma alerts_parts config t st :
  gate_part (check_and_generate_alerts config t st) = gate_part st
  /\ parking_part (check_and_generate_alerts config t st) = parking_part st
  /\ queue_part (check_and_generate_alerts config t st) = queue_part st
  /\ kitchen_part (check_and_generate_alerts config t st) = kitchen_part st.
Proof. unfold check_and_generate_alerts. auto. Qed.

(** *** Each update method reads its own part only *)

Lemma customer_flow_local d t st1 st2 :
  gate_part st1 = gate_part st2 ->
  gate_part (update_customer_flow_kpis d t st1)
  = gate_part (update_customer_flow_kpis d t st2).
Proof.
  unfold gate_part, cf, update_customer_flow_kpis. intros Heq.
  injection Heq as Hcf Hh.
  destruct (snapshot_of d); [|simpl; congruence].
  rewrite Hcf. destruct (HourDict.getitem _ _). simpl. rewrite Hh. reflexivity.
Qed.

Lemma vehicle_local d t st1 st2 :
  parking_part st1 = parking_part st2 ->
  parking_part (update_vehicle_kpis d t st1)
  = parking_part (update_vehicle_kpis d t st2).
Proof.
  unfold parking_part, update_vehicle_kpis. intros Heq.
  injection Heq as Hvm Hh.
  destruct (snapshot_of d); [|simpl; congruence].
  simpl. rewrite Hvm, Hh. reflexivity.
Qed.

Lemma queue_local maxlen d t st1 st2 :
  queue_part st1 = queue_part st2 ->
  queue_part (update_queue_kpis_with maxlen d t st1)
  = queue_part (update_queue_kpis_with maxlen d t st2).
Proof.
  unfold queue_part, qa, update_queue_kpis_with. intros Heq.
  injection Heq as Hqa Hh.
  destruct (snapshot_of d); [|cbn [kpis historical_data]; congruence].
  cbn [kpis historical_data queue_analytics set_queue_analytics queue_lengths].
  rewrite Hqa, Hh. reflexivity.
Qed.

Lemma staff_local d t st1 st2 :
  kitchen_part st1 = kitchen_part st2 ->
  kitchen_part (update_staff_kpis d t st1)
  = kitchen_part (update_staff_kpis d t st2).
Proof.
  unfold kitchen_part, sm, update_staff_kpis. intros Heq.
  injection Heq as Hsm Hh.
  destruct (snapshot_of d); [|simpl; congruence].
  simpl. rewrite Hsm, Hh. reflexivity.
Qed.

(** A cycle on a non-empty store copy updates each part exactly as the
    update method of that part would on its own. *)
Lemma process_kpis_by_part config dd t st :
  dd <> ∅ ->
  gate_part (process_kpis config dd t st)
  = gate_part (update_customer_flow_kpis (dd !! "gate") t st)
  /\ parking_part (process_kpis config dd t st)
     = parking_part (update_vehicle_kpis (dd !! "parking") t st)
  /\ queue_part (process_kpis config dd t st)
     = queue_part (update_queue_kpis (dd !! "queue") t st)
  /\ kitchen_part (process_kpis config dd t st)
     = kitchen_part (update_staff_kpis (dd !! "kitchen") t st).
Proof.
  intros Hdd. unfold process_kpis. rewrite bool_decide_false by exact Hdd.
  unfold update_queue_kpis.
  split; [|split; [|split]].
  - rewrite (proj1 (alerts_parts _ _ _)), (proj1 (operational_parts _ _)),
      (proj1 (staff_parts _ _ _)), (proj1 (queue_parts _ _ _ _)),
      (proj1 (vehicle_parts _ _ _)).
    reflexivity.
  - rewrite (proj1 (proj2 (alerts_parts _ _ _))),
      (proj1 (proj2 (operational_parts _ _))),
      (proj1 (proj2 (staff_parts _ _ _))),
      (proj1 (proj2 (queue_parts _ _ _ _))).
    apply vehicle_local, customer_flow_parts.
  - rewrite (proj1 (proj2 (proj2 (alerts_parts _ _ _)))),
      (proj1 (proj2 (proj2 (operational_parts _ _)))),
      (proj1 (proj2 (proj2 (staff_parts _ _ _)))).
    apply queue_local.
    rewrite (proj1 (proj2 (vehicle_parts _ _ _))).
    apply customer_flow_parts.
  - rewrite (proj2 (proj2 (proj2 (alerts_parts _ _ _)))),
      (proj2 (proj2 (proj2 (operational_parts _ _)))).
    apply staff_local.
    rewrite (proj1 (proj2 (proj2 (queue_parts _ _ _ _)))),
      (proj1 (proj2 (proj2 (vehicle_parts _ _ _)))).
    apply customer_flow_parts.
Qed.

Lemma lookup_nonempty (dd : gmap string DetectionValue) (k : string) (v : DetectionValue) :
  dd !! k = Some v -> dd <> ∅.
Proof. intros Hk ->. rewrite lookup_empty in Hk. discriminate. Qed.


(** X9.  A role whose store entry is missing or still the empty list
    leaves its KPI family and its historical deque exactly as they were
    over a whole aggregation cycle: the last values stay visible. *)
Theorem absent_role_leaves_part_stale (config : AnalyticsConfig)
    (dd : gmap string DetectionValue) (t : datetime) (st : State) :
  (snapshot_of (dd !! "gate") = None ->
   gate_part (process_kpis config dd t st) = gate_part st)
  /\ (snapshot_of (dd !! "parking") = None ->
      parking_part (process_kpis config dd t st) = parking_part st)
  /\ (snapshot_of (dd !! "queue") = None ->
      queue_part (process_kpis config dd t st) = queue_part st)
  /\ (snapshot_of (dd !! "kitchen") = None ->
      kitchen_part (process_kpis config dd t st) = kitchen_part st).
Proof.
  destruct (decide (dd = ∅)) as [Hdd|Hdd].
  { unfold process_kpis. rewrite bool_decide_true by exact Hdd. auto. }
  destruct (process_kpis_by_part config dd t st Hdd) as (-> & -> & -> & ->).
  unfold update_customer_flow_kpis, update_vehicle_kpis, update_queue_kpis,
    update_queue_kpis_with, update_staff_kpis.
  repeat split; intros ->; reflexivity.
Qed.

Lemma absent_role_leaves_part_stale_witness :
  gate_part (process_kpis default_config
               (CameraManager.detection_data CameraManager.init) 0 init)
  = gate_part init
  /\ queue_part (process_kpis default_config
                   (CameraManager.detection_data CameraManager.init) 0 init)
     = queue_part init.
Proof.
  destruct (absent_role_leaves_part_stale default_config
              (CameraManager.detection_data CameraManager.init) 0 init)
    as (Hg & _ & Hq & _).
  split; [apply Hg | apply Hq]; vm_compute; reflexivity.
Defined.

(** *** Invariants along the aggregator's lifetime *)

Lemma run_cycles_invariant (P : State -> Prop) (config : AnalyticsConfig) :
  (forall dd t st, P st -> P (process_kpis config dd t st)) ->
  forall (ticks : list Tick) (st : State), P st -> P (run_cycles config ticks st).
Proof.
  intros Hstep ticks. induction ticks as [|[dd t] ticks IH]; intros st Hst;
    [exact Hst|].
  simpl. apply IH, Hstep, Hst.
Qed.

Lemma deque_append_bounded {A} (maxlen : nat) (d : list A) (x : A) :
  (length (Deque.append maxlen d x) <= maxlen)%nat.
Proof.
  destruct (KPIFacts.deque_append_split maxlen d x) as (ev & _ & Hlen & _).
  rewrite Hlen. lia.
Qed.

Lemma process_kpis_within_capacity config dd t st :
  within_capacity st -> within_capacity (process_kpis config dd t st).
Proof.
  intros Hst.
  destruct (decide (dd = ∅)) as [Hdd|Hdd].
  { unfold process_kpis. rewrite bool_decide_true by exact Hdd. exact Hst. }
  destruct (process_kpis_by_part config dd t st Hdd) as (Hg & Hp & Hq & Hk).
  apply (f_equal snd) in Hg, Hp, Hk.
  pose proof (f_equal fst Hq) as Hqa. apply (f_equal snd) in Hq.
  cbn [fst snd gate_part parking_part queue_part kitchen_part] in Hg, Hp, Hq, Hk, Hqa.
  destruct Hst as (H1 & H2 & H3 & H4 & H5).
  unfold within_capacity. rewrite Hg, Hp, Hq, Hk, Hqa.
  unfold update_customer_flow_kpis, update_vehicle_kpis, update_queue_kpis,
    update_queue_kpis_with, update_staff_kpis, qa.
  repeat split.
  - destruct (snapshot_of (dd !! "gate")); [|exact H1].
    destruct (HourDict.getitem _ _). apply deque_append_bounded.
  - destruct (snapshot_of (dd !! "queue")); [|exact H2]. apply deque_append_bounded.
  - destruct (snapshot_of (dd !! "kitchen")); [|exact H3]. apply deque_append_bounded.
  - destruct (snapshot_of (dd !! "parking")); [|exact H4]. apply deque_append_bounded.
  - destruct (snapshot_of (dd !! "queue")); [|exact H5]. apply deque_append_bounded.
Qed.

(** X10.  Over any number of aggregation cycles from the initial state the
    containers stay within their capacities: at most 24 hourly samples,
    at most 1440 samples in each of the queue, staff and vehicle
    histories, and at most 100 entries in the queue history ring. *)
Theorem containers_stay_within_capacity (config : AnalyticsConfig)
    (ticks : list Tick) :
  let st := run_cycles config ticks init in
  (length (entries_per_hour (historical_data st)) <= 24)%nat
  /\ (length (queue_lengths (historical_data st)) <= 1440)%nat
  /\ (length (staff_counts (historical_data st)) <= 1440)%nat
  /\ (length (vehicle_counts (historical_data st)) <= 1440)%nat
  /\ (length (queue_history (qa st)) <= 100)%nat.
Proof.
  apply (run_cycles_invariant within_capacity config
           (process_kpis_within_capacity config)).
  unfold within_capacity. simpl. repeat split; lia.
Qed.

(** *** The hourly histogram *)

Lemma hour_range (t : datetime) : 0 <= hour t < 24.
Proof. unfold hour. apply Z.mod_pos_bound. lia. Qed.

Lemma get_None_not_key (d : HourDict.t) (k : Z) :
  HourDict.get d k = None -> k ∉ HourDict.keys d.
Proof.
  induction d as [|[k' v] d IH]; simpl; intros Hget Hin.
  - inversion Hin.
  - destruct (Z.eqb_spec k' k) as [->|Hne]; [discriminate|].
    apply elem_of_cons in Hin as [->|Hin]; [congruence|]. exact (IH Hget Hin).
Qed.

Lemma getitem_ok (d : HourDict.t) (k : Z) :
  histogram_ok d -> 0 <= k < 24 ->
  histogram_ok (HourDict.getitem d k).2
  /\ (HourDict.getitem d k).1 = 0
  /\ HourDict.keys d `prefix_of` HourDict.keys (HourDict.getitem d k).2
  /\ (d <> [] ->
      head (HourDict.keys (HourDict.getitem d k).2) = head (HourDict.keys d)).
Proof.
  intros [Hnd Hall] Hk. unfold HourDict.getitem.
  destruct (HourDict.get d k) as [v|] eqn:Hget; cbn [fst snd].
  - split; [split; assumption|]. split; [|split; [reflexivity|reflexivity]].
    clear Hnd. induction d as [|[k' v'] d IH]; [discriminate|].
    simpl in Hget. apply Forall_cons in Hall as [[_ Hv'] Hall].
    destruct (k' =? k); [injection Hget as <-; exact Hv'|]. apply IH; assumption.
  - split; [|split; [reflexivity|split]].
    + split.
      * unfold HourDict.keys. rewrite map_app. apply NoDup_app.
        split; [exact Hnd|]. split; [|apply NoDup_singleton].
        intros x Hx Hx'. apply list_elem_of_singleton in Hx'. subst x.
        exact (get_None_not_key d k Hget Hx).
      * apply Forall_app. split; [exact Hall|].
        apply Forall_cons. split; [split; [exact Hk|reflexivity]|apply Forall_nil_2].
    + unfold HourDict.keys. rewrite map_app. apply prefix_app_r. reflexivity.
    + intros Hne. unfold HourDict.keys. rewrite map_app.
      destruct d; [contradiction|reflexivity].
Qed.

Lemma count_zero (d : HourDict.t) (k : Z) :
  Forall (fun kv : Z * Z => 0 <= kv.1 < 24 /\ kv.2 = 0) d -> HourDict.count d k = 0.
Proof.
  unfold HourDict.count. induction d as [|[k' v] d IH]; intros Hall; [reflexivity|].
  apply Forall_cons in Hall as [[_ Hv] Hall]. simpl.
  destruct (k' =? k); [exact Hv|apply IH, Hall].
Qed.

Lemma max_from_flat {A} (f : A -> Z) (rest : list A) (best : A) :
  (forall x, f x = 0) -> HourDict.max_from f best rest = best.
Proof.
  intros Hf. revert best. induction rest as [|x rest IH]; intros best; simpl;
    [reflexivity|].
  rewrite !Hf. simpl. apply IH.
Qed.

Lemma peak_is_head (d : HourDict.t) :
  Forall (fun kv : Z * Z => 0 <= kv.1 < 24 /\ kv.2 = 0) d ->
  HourDict.peak d = head (HourDict.keys d).
Proof.
  intros Hall. unfold HourDict.peak.
  destruct (HourDict.keys d) as [|k ks]; [reflexivity|]. simpl. f_equal.
  apply max_from_flat. intros x. apply count_zero, Hall.
Qed.

Lemma values_zero (d : HourDict.t) :
  Forall (fun kv : Z * Z => 0 <= kv.1 < 24 /\ kv.2 = 0) d ->
  Forall (fun x => x = 0) (HourDict.values d).
Proof.
  intros Hall. unfold HourDict.values. apply Forall_fmap.
  eapply Forall_impl; [exact Hall|]. intros [k v] [_ Hv]. exact Hv.
Qed.

(** With a mean of zero no count of zero exceeds one and a half times
    the mean. *)
Lemma no_peak_hours (d : list (Z * Z)) :
  Forall (fun kv : Z * Z => 0 <= kv.1 < 24 /\ kv.2 = 0) d ->
  map fst (filter (fun item : Z * Z =>
                     Num.Qltb (Num.fmul 0 (3 # 2)) (Num.of_int item.2) = true) d) = [].
Proof.
  induction d as [|[k v] d IH]; intros Hall; [reflexivity|].
  apply Forall_cons in Hall as [[_ Hv] Hall]. simpl in Hv. subst v.
  rewrite filter_cons_False; [apply IH, Hall|].
  vm_compute. intros H. discriminate H.
Qed.

(** The peak-hours list after a cycle, in terms of the histogram the
    cycle leaves behind. *)
Lemma process_kpis_peak_hours config dd t st :
  dd <> ∅ ->
  peak_hours (op (process_kpis config dd t st))
  = match hourly_entries (cf (process_kpis config dd t st)) with
    | [] => peak_hours (op st)
    | _ :: _ =>
        map fst
          (filter (fun item : Z * Z =>
                     Num.Qltb
                       (Num.fmul
                          (Num.np_mean
                             (HourDict.values
                                (hourly_entries (cf (process_kpis config dd t st)))))
                          (3 # 2))
                       (Num.of_int item.2) = true)
             (hourly_entries (cf (process_kpis config dd t st))))
    end.
Proof.
  intros Hdd. unfold process_kpis. rewrite bool_decide_false by exact Hdd.
  set (st4 := update_staff_kpis _ _ _).
  assert (Hcf : cf (check_and_generate_alerts config t (update_operational_kpis t st4))
                = cf st4) by reflexivity.
  assert (Hop : op st4 = op st).
  { unfold st4, update_queue_kpis.
    rewrite (proj2 (proj2 (proj2 (staff_parts _ _ _)))),
      (proj2 (proj2 (proj2 (queue_parts _ _ _ _)))),
      (proj2 (proj2 (proj2 (vehicle_parts _ _ _)))).
    apply customer_flow_parts. }
  rewrite Hcf, <- Hop. unfold cf. reflexivity.
Qed.

Lemma update_customer_flow_ok d t st :
  histogram_ok (hourly_entries (cf st)) ->
  (peak_hour (cf st) = None
   \/ peak_hour (cf st) = head (HourDict.keys (hourly_entries (cf st)))) ->
  let st' := update_customer_flow_kpis d t st in
  histogram_ok (hourly_entries (cf st'))
  /\ (peak_hour (cf st') = None
      \/ peak_hour (cf st') = head (HourDict.keys (hourly_entries (cf st'))))
  /\ HourDict.keys (hourly_entries (cf st))
       `prefix_of` HourDict.keys (hourly_entries (cf st'))
  /\ total_entries (cf st') = total_entries (cf st)
  /\ total_exits (cf st') = total_exits (cf st)
  /\ current_occupancy (cf st') = current_occupancy (cf st).
Proof.
  intros Hok Hpeak st'. unfold st', update_customer_flow_kpis.
  destruct (snapshot_of d);
    [|split; [exact Hok|split; [exact Hpeak|split; [reflexivity|repeat split]]]].
  pose proof (getitem_ok (hourly_entries (cf st)) (hour t) Hok (hour_range t))
    as (Hok' & _ & Hpre & Hhead).
  pose proof (peak_is_head (hourly_entries (cf st)) (proj2 Hok)) as Hp.
  unfold cf in *.
  destruct (HourDict.getitem (hourly_entries (customer_flow (kpis st))) (hour t))
    as [e hourly]. cbn [fst snd] in *. cbn.
  split; [exact Hok'|]. split; [|split; [exact Hpre|repeat split]].
  rewrite Hp.
  destruct (hourly_entries (customer_flow (kpis st))) as [|kv rest] eqn:Hd.
  - simpl. destruct Hpeak as [Hn|Hn]; [left; exact Hn|]. left. exact Hn.
  - right. simpl. change (map fst hourly) with (HourDict.keys hourly).
    rewrite Hhead by discriminate. reflexivity.
Qed.

Lemma process_kpis_flow_ok config dd t st :
  flow_ok st ->
  flow_ok (process_kpis config dd t st)
  /\ HourDict.keys (hourly_entries (cf st))
       `prefix_of` HourDict.keys (hourly_entries (cf (process_kpis config dd t st))).
Proof.
  intros Hst.
  destruct (decide (dd = ∅)) as [Hdd|Hdd].
  { unfold process_kpis. rewrite bool_decide_true by exact Hdd.
    split; [exact Hst|reflexivity]. }
  destruct Hst as (Hok & Hpeak & (He & Hx & Ho) & (Harr & Hpark) & Hph).
  pose proof (process_kpis_peak_hours config dd t st Hdd) as Hpeaks.
  destruct (process_kpis_by_part config dd t st Hdd) as (Hg & Hp & _ & _).
  apply (f_equal fst) in Hg, Hp. cbn [fst gate_part parking_part] in Hg, Hp.
  destruct (update_customer_flow_ok (dd !! "gate") t st Hok Hpeak)
    as (Hok' & Hpeak' & Hpre & He' & Hx' & Ho').
  rewrite <- Hg in Hok', Hpeak', Hpre, He', Hx', Ho'.
  split; [|exact Hpre].
  unfold flow_ok. split; [exact Hok'|]. split; [exact Hpeak'|].
  split; [repeat split; congruence|]. split.
  - rewrite Hp. unfold update_vehicle_kpis.
    destruct (snapshot_of (dd !! "parking")); [|split; assumption].
    cbn. rewrite Harr. split; [reflexivity|exact Hpark].
  - rewrite Hpeaks.
    destruct (hourly_entries (cf (process_kpis config dd t st))) as [|kv rest] eqn:Hd;
      [exact Hph|].
    rewrite (np_mean_zero _ (values_zero _ (proj2 Hok'))).
    apply no_peak_hours, Hok'.
Qed.

Lemma run_cycles_flow_ok config ticks st :
  flow_ok st ->
  flow_ok (run_cycles config ticks st)
  /\ HourDict.keys (hourly_entries (cf st))
       `prefix_of` HourDict.keys (hourly_entries (cf (run_cycles config ticks st))).
Proof.
  revert st. induction ticks as [|[dd t] ticks IH]; intros st Hst.
  - split; [exact Hst|reflexivity].
  - simpl. destruct (process_kpis_flow_ok config dd t st Hst) as [Hok Hpre].
    destruct (IH _ Hok) as [Hok' Hpre']. split; [exact Hok'|].
    etransitivity; eassumption.
Qed.

Lemma init_flow_ok : flow_ok init.
Proof.
  unfold flow_ok, histogram_ok. simpl.
  repeat split; auto using NoDup_nil_2.
Qed.

(** X11.  Over any number of aggregation cycles from the initial state
    the hourly-entries histogram has no hour twice and only hours of the
    day (0 to 23) as keys, hence at most 24 entries. *)
Theorem histogram_holds_distinct_hours (config : AnalyticsConfig)
    (ticks : list Tick) :
  let d := hourly_entries (cf (run_cycles config ticks init)) in
  NoDup (HourDict.keys d)
  /\ (forall k, k ∈ HourDict.keys d -> 0 <= k < 24)
  /\ (length d <= 24)%nat.
Proof.
  intros d.
  destruct (run_cycles_flow_ok config ticks init init_flow_ok) as [Hok _].
  destruct Hok as ((Hnd & Hall) & _). fold d in Hnd, Hall.
  assert (Hrange : forall k, k ∈ HourDict.keys d -> 0 <= k < 24).
  { intros k Hk. unfold HourDict.keys in Hk.
    apply list_elem_of_fmap in Hk as ([k' v] & -> & Hkv).
    rewrite Forall_forall in Hall. apply (Hall _ Hkv). }
  split; [exact Hnd|]. split; [exact Hrange|].
  assert (Hsub : HourDict.keys d ⊆+ seqZ 0 24).
  { apply NoDup_submseteq; [exact Hnd|].
    intros k Hk. apply elem_of_seqZ. specialize (Hrange k Hk). lia. }
  apply submseteq_length in Hsub. rewrite length_seqZ in Hsub.
  unfold HourDict.keys in Hsub. rewrite length_map in Hsub.
  change (Z.to_nat 24) with 24%nat in Hsub. exact Hsub.
Qed.

(** X12.  Over any number of aggregation cycles from the initial state
    several KPIs are never given a value: every count of the hourly
    histogram is still 0, the entry, exit and occupancy totals are 0, the
    hourly-arrivals histogram is empty, [peak_parking_hour] is [None] and
    the [peak_hours] list is empty. *)
Theorem placeholder_kpis_never_move (config : AnalyticsConfig)
    (ticks : list Tick) :
  let st := run_cycles config ticks init in
  (forall k, HourDict.count (hourly_entries (cf st)) k = 0)
  /\ total_entries (cf st) = 0
  /\ total_exits (cf st) = 0
  /\ current_occupancy (cf st) = 0
  /\ hourly_arrivals (vehicle_metrics (kpis st)) = []
  /\ peak_parking_hour (vehicle_metrics (kpis st)) = None
  /\ peak_hours (op st) = [].
Proof.
  intros st.
  destruct (run_cycles_flow_ok config ticks init init_flow_ok) as [Hok _].
  fold st in Hok.
  destruct Hok as ((_ & Hall) & _ & (He & Hx & Ho) & (Harr & Hpark) & Hph).
  split; [intros k; apply count_zero, Hall|]. tauto.
Qed.

Lemma process_kpis_peak_set config dd t st :
  is_Some (peak_hour (cf st)) ->
  is_Some (peak_hour (cf (process_kpis config dd t st))).
Proof.
  intros Hset.
  destruct (decide (dd = ∅)) as [Hdd|Hdd].
  { unfold process_kpis. rewrite bool_decide_true by exact Hdd. exact Hset. }
  destruct (process_kpis_by_part config dd t st Hdd) as (Hg & _).
  apply (f_equal fst) in Hg. cbn [fst gate_part] in Hg. rewrite Hg.
  unfold update_customer_flow_kpis, cf in *.
  destruct (snapshot_of (dd !! "gate")); [|exact Hset].
  destruct (HourDict.getitem _ _). cbn.
  destruct (HourDict.peak _); [eauto|exact Hset].
Qed.

Lemma run_cycles_peak_set config ticks st :
  is_Some (peak_hour (cf st)) ->
  is_Some (peak_hour (cf (run_cycles config ticks st))).
Proof.
  revert st. induction ticks as [|[dd t] ticks IH]; intros st Hset; [exact Hset|].
  simpl. apply IH, process_kpis_peak_set, Hset.
Qed.

(** X13.  Over any number of aggregation cycles from the initial state
    [peak_hour] is either unset or the first key of the hourly histogram,
    which is the hour of the first gate update the aggregator ever
    processed; further cycles only append hours behind it, so the stored
    peak hour never moves once it is set. *)
Theorem peak_hour_is_first_hour_seen (config : AnalyticsConfig)
    (ticks ticks' : list Tick) :
  let st := run_cycles config ticks init in
  let st' := run_cycles config (ticks ++ ticks') init in
  (peak_hour (cf st) = None
   \/ peak_hour (cf st) = head (HourDict.keys (hourly_entries (cf st))))
  /\ HourDict.keys (hourly_entries (cf st))
       `prefix_of` HourDict.keys (hourly_entries (cf st'))
  /\ (peak_hour (cf st) = None \/ peak_hour (cf st') = peak_hour (cf st)).
Proof.
  intros st st'.
  destruct (run_cycles_flow_ok config ticks init init_flow_ok) as [Hok _].
  fold st in Hok.
  assert (Hst' : st' = run_cycles config ticks' st).
  { unfold st', st, run_cycles. apply foldl_app. }
  destruct (run_cycles_flow_ok config ticks' st Hok) as [Hok' Hpre].
  pose proof (run_cycles_peak_set config ticks' st) as Hset.
  rewrite <- Hst' in Hok', Hpre, Hset.
  destruct Hok as (_ & Hpeak & _). destruct Hok' as (_ & Hpeak' & _).
  split; [exact Hpeak|]. split; [exact Hpre|].
  destruct (peak_hour (cf st)) as [h|] eqn:Hh; [|left; reflexivity]. right.
  destruct Hpeak as [Hnone|Hhead]; [discriminate|].
  destruct (Hset ltac:(eauto)) as [h' Hh'].
  destruct Hpeak' as [Hnone'|Hhead']; [congruence|].
  rewrite Hhead', Hhead.
  destruct Hpre as [more ->].
  destruct (HourDict.keys (hourly_entries (cf st))); [discriminate|reflexivity].
Qed.

(** *** The rolling average against the maximum *)

Lemma update_queue_ring_le_max maxlen d t st :
  Forall (fun e => entry_length e <= max_queue_length (qa st)) (queue_history (qa st)) ->
  let st' := update_queue_kpis_with maxlen d t st in
  Forall (fun e => entry_length e <= max_queue_length (qa st')) (queue_history (qa st')).
Proof.
  intros Hring st'. unfold st', update_queue_kpis_with.
  destruct (snapshot_of d) as [s|]; [|assumption].
  unfold qa in *. cbn [kpis queue_analytics set_queue_analytics
                       queue_history max_queue_length average_queue_length].
  set (cur := get_queue_length s).
  set (old := max_queue_length (queue_analytics (kpis st))) in *.
  set (new_max := if old <? cur then cur else old).
  assert (Hmax : old <= new_max /\ cur <= new_max).
  { unfold new_max. destruct (Z.ltb_spec old cur); lia. }
  unfold Deque.append. apply Forall_drop, Forall_app. split.
  - eapply Forall_impl; [exact Hring|]. simpl. intros e He. lia.
  - apply Forall_cons. split; [simpl; lia|apply Forall_nil_2].
Qed.

Lemma update_queue_average_ok d t st :
  (forall s, snapshot_of d = Some s -> Z.abs (get_queue_length s) <= count_limit) ->
  average_ok st -> average_ok (update_queue_kpis d t st).
Proof.
  intros Hsmall (Hring & Hlen & Havg).
  unfold average_ok, update_queue_kpis, update_queue_kpis_with.
  destruct (snapshot_of d) as [s|]; [|repeat split; assumption].
  specialize (Hsmall s eq_refl).
  unfold qa in *. cbn [kpis queue_analytics set_queue_analytics
                       queue_history max_queue_length average_queue_length].
  set (cur := get_queue_length s) in *.
  set (old := max_queue_length (queue_analytics (kpis st))) in *.
  set (new_max := if old <? cur then cur else old).
  assert (Hmax : old <= new_max /\ cur <= new_max).
  { unfold new_max. destruct (Z.ltb_spec old cur); lia. }
  assert (Hring' : Forall (fun e => entry_length e <= new_max
                                    /\ Z.abs (entry_length e) <= count_limit)
                     (Deque.append queue_history_maxlen
                        (queue_history (queue_analytics (kpis st)))
                        (mkHistoryEntry cur t))).
  { unfold Deque.append. apply Forall_drop, Forall_app. split.
    - eapply Forall_impl; [exact Hring|]. simpl. intros e He. lia.
    - apply Forall_cons. split; [simpl; lia|apply Forall_nil_2]. }
  pose proof (deque_append_bounded queue_history_maxlen
                (queue_history (queue_analytics (kpis st)))
                (mkHistoryEntry cur t)) as Hlen'.
  unfold queue_history_maxlen in *.
  split; [exact Hring'|split; [exact Hlen'|]].
  destruct (Deque.append 100 (queue_history (queue_analytics (kpis st)))
              (mkHistoryEntry cur t)) as [|e ring] eqn:Hd.
  - eapply Qle_trans; [exact Havg|].
    rewrite <- Zle_Qle. lia.
  - apply round2_mean_le.
    + discriminate.
    + unfold lengths. rewrite length_map. exact Hlen'.
    + unfold lengths. apply Forall_fmap.
      eapply Forall_impl; [exact Hring'|]. intros x [_ Hx]. exact Hx.
    + unfold lengths. apply Forall_fmap.
      eapply Forall_impl; [exact Hring'|]. intros x [Hx _]. exact Hx.
Qed.

Lemma process_kpis_average_ok config dd t st :
  Z.abs (queue_reading dd) <= count_limit ->
  average_ok st -> average_ok (process_kpis config dd t st).
Proof.
  intros Hsmall Hst.
  assert (Hqa : forall st1 st2, qa st1 = qa st2 -> average_ok st2 -> average_ok st1).
  { intros st1 st2 Heq. unfold average_ok. rewrite Heq. exact id. }
  destruct (KPIFacts.process_kpis_qa config dd t st) as [Heq | Heq];
    [exact (Hqa _ _ Heq Hst)|].
  apply (Hqa _ _ Heq). apply update_queue_average_ok; [|exact Hst].
  intros s Hs. unfold queue_reading in Hsmall. rewrite Hs in Hsmall. exact Hsmall.
Qed.

Lemma run_cycles_average_ok config ticks st :
  small_queue_counts ticks -> average_ok st -> average_ok (run_cycles config ticks st).
Proof.
  revert st. induction ticks as [|[dd t] ticks IH]; intros st Hsmall Hst;
    [exact Hst|].
  apply Forall_cons in Hsmall as [Hdd Hsmall]. simpl.
  apply IH; [exact Hsmall|]. apply process_kpis_average_ok; assumption.
Qed.

(** X14.  Over any number of aggregation cycles from the initial state
    every queue length retained in the history ring is at most
    [max_queue_length].  As long as the queue lengths read are of
    magnitude at most 2^46, so is the rounded rolling average.  Beyond
    2^53 the conversion to binary64 can round a queue length up: after a
    single cycle with queue length 2^53 + 3 the average is 2^53 + 4. *)
Theorem average_never_exceeds_max (config : AnalyticsConfig) (ticks : list Tick) :
  let st := run_cycles config ticks init in
  (forall e, e ∈ queue_history (qa st) -> entry_length e <= max_queue_length (qa st))
  /\ (small_queue_counts ticks ->
      (average_queue_length (qa st) <= inject_Z (max_queue_length (qa st)))%Q)
  /\ (max_queue_length
        (qa (run_cycles config [(detections_with (2 ^ 53 + 3) 1, 0)] init))
      = 2 ^ 53 + 3
      /\ average_queue_length
           (qa (run_cycles config [(detections_with (2 ^ 53 + 3) 1, 0)] init))
         = inject_Z (2 ^ 53 + 4)).
Proof.
  intros st. split; [|split].
  - assert (Hinv : Forall (fun e => entry_length e <= max_queue_length (qa st))
                     (queue_history (qa st))).
    { unfold st.
      apply (run_cycles_invariant
               (fun st => Forall (fun e => entry_length e <= max_queue_length (qa st))
                            (queue_history (qa st))) config).
      - intros dd t st0 Hring.
        destruct (KPIFacts.process_kpis_qa config dd t st0) as [-> | ->];
          [assumption|].
        apply (update_queue_ring_le_max queue_history_maxlen); assumption.
      - apply Forall_nil_2. }
    rewrite Forall_forall in Hinv. exact Hinv.
  - intros Hsmall.
    apply (run_cycles_average_ok config ticks init Hsmall).
    unfold average_ok. simpl. split; [apply Forall_nil_2|]. split; [lia|].
    unfold Qle. simpl. lia.
  - split; vm_compute; reflexivity.
Qed.

Lemma average_never_exceeds_max_witness :
  Qle (average_queue_length
         (qa (run_cycles default_config
                [(detections_with 3 1, 0); (detections_with 8 1, 0);
                 (detections_with 2 1, 0)] init)))
      (inject_Z
         (max_queue_length
            (qa (run_cycles default_config
                   [(detections_with 3 1, 0); (detections_with 8 1, 0);
                    (detections_with 2 1, 0)] init)))).
Proof.
  apply (average_never_exceeds_max default_config
           [(detections_with 3 1, 0); (detections_with 8 1, 0);
            (detections_with 2 1, 0)]).
  unfold small_queue_counts.
  repeat (apply Forall_cons; split; [vm_compute; intros H; discriminate H|]).
  apply Forall_nil_2.
Defined.

(** *** The alert list *)

Lemma new_alerts_known config t k a :
  a ∈ new_alerts config t k -> known_alert a /\ alert_timestamp a = t.
Proof.
  unfold new_alerts, known_alert.
  destruct (_ <? _); destruct (_ <? _); cbn [app]; intros Ha;
    repeat (apply elem_of_cons in Ha as [->|Ha]); try (inversion Ha; fail);
    simpl; auto.
Qed.

Lemma process_kpis_alerts config dd t st :
  dd <> ∅ ->
  exists k : KPIs,
    alerts (op (process_kpis config dd t st))
    = last_n alerts_limit (alerts (op st) ++ new_alerts config t k).
Proof.
  intros Hdd. unfold process_kpis. rewrite bool_decide_false by exact Hdd.
  rewrite KPIFacts.alerts_after.
  rewrite (proj2 (proj2 (proj2 (KPIFacts.operational_frame _ _)))).
  unfold update_queue_kpis.
  rewrite (proj2 (proj2 (proj2 (staff_parts _ _ _)))),
    (proj2 (proj2 (proj2 (queue_parts _ _ _ _)))),
    (proj2 (proj2 (proj2 (vehicle_parts _ _ _)))),
    (proj2 (proj2 (proj2 (customer_flow_parts _ _ _)))).
  eexists. reflexivity.
Qed.

(** X15.  Over any number of aggregation cycles from the initial state
    the alert list holds only alerts of type ['queue_alert'] with severity
    ['high'] and alerts of type ['staff_alert'] with severity ['medium'],
    each stamped with the time of one of the cycles. *)
Theorem alerts_are_of_two_kinds (config : AnalyticsConfig) (ticks : list Tick) :
  Forall (fun a => known_alert a /\ alert_timestamp a ∈ map snd ticks)
    (alerts (op (run_cycles config ticks init))).
Proof.
  apply Forall_forall.
  assert (Hgen : forall (ticks : list Tick) (st : State) (past : list datetime),
             (forall a, a ∈ alerts (op st) ->
                known_alert a /\ alert_timestamp a ∈ past) ->
             forall a, a ∈ alerts (op (run_cycles config ticks st)) ->
               known_alert a /\ alert_timestamp a ∈ past ++ map snd ticks).
  { clear ticks. induction ticks as [|[dd t] ticks IH]; intros st past Hst a Ha.
    - simpl in Ha. rewrite app_nil_r. apply Hst, Ha.
    - simpl in Ha. cbn [map snd].
      replace (past ++ t :: map snd ticks) with ((past ++ [t]) ++ map snd ticks)
        by (rewrite <- app_assoc; reflexivity).
      apply (IH (process_kpis config dd t st)); [|exact Ha].
      clear a Ha. intros a Ha.
      destruct (decide (dd = ∅)) as [Hdd|Hdd].
      { unfold process_kpis in Ha. rewrite bool_decide_true in Ha by exact Hdd.
        destruct (Hst a Ha) as [Hk Ht]. split; [exact Hk|].
        apply elem_of_app. left. exact Ht. }
      destruct (process_kpis_alerts config dd t st Hdd) as [k Hk].
      rewrite Hk in Ha. unfold last_n in Ha.
      apply (subseteq_drop _ _ a) in Ha.
      apply elem_of_app in Ha as [Ha|Ha].
      + destruct (Hst a Ha) as [Hka Ht]. split; [exact Hka|].
        apply elem_of_app. left. exact Ht.
      + apply new_alerts_known in Ha as [Hka ->]. split; [exact Hka|].
        apply elem_of_app. right. apply list_elem_of_here. }
  intros a Ha. apply (Hgen ticks init []); [|exact Ha].
  intros a' Ha'. inversion Ha'.
Qed.

(** X16.  Once the alert list holds 100 entries it holds exactly 100
    after every further evaluation, whether or not that evaluation raises
    an alert. *)
Theorem alert_list_stays_full (config : AnalyticsConfig) (t : datetime)
    (st : State) :
  length (alerts (op st)) = 100%nat ->
  length (alerts (op (check_and_generate_alerts config t st))) = 100%nat.
Proof.
  intros Hfull. rewrite KPIFacts.alerts_after.
  destruct (KPIFacts.last_n_split alerts_limit
              (alerts (op st) ++ new_alerts config t (kpis st)))
    as (dropped & _ & Hlen & _).
  rewrite Hlen, length_app, Hfull. unfold alerts_limit. lia.
Qed.

Lemma alert_list_stays_full_witness :
  length (alerts (op (check_and_generate_alerts default_config 7 saturated))) = 100%nat.
Proof.
  apply (alert_list_stays_full default_config 7 saturated).
  vm_compute. reflexivity.
Defined.

(** *** Queries over the historical deques *)





Lemma deque_append_last {A} (m : nat) (d : list A) (x : A) :
  exists kept : list A, Deque.append (S m) d x = kept ++ [x].
Proof.
  unfold Deque.append. exists (drop (length (d ++ [x]) - S m) d).
  rewrite drop_app_le; [reflexivity|]. rewrite length_app. simpl. lia.
Qed.

(** X18.  A queue sample recorded by an aggregation cycle at time [t] is
    the last entry that a [queue_lengths] query returns afterwards,
    provided the query window reaches back to [t]. *)
Theorem recorded_sample_is_returned (config : AnalyticsConfig)
    (dd : gmap string DetectionValue) (t : datetime) (st : State)
    (s : Snapshot) (now : datetime) (hours : Z) :
  dd !! "queue" = Some (Snap s) ->
  now - hours * 3600 <= t ->
  last (get_historical_data now "queue_lengths" hours (process_kpis config dd t st))
  = Some (LengthEntry (mkHistoryEntry (get_queue_length s) t)).
Proof.
  intros Hq Hwin.
  destruct (process_kpis_by_part config dd t st (lookup_nonempty _ _ _ Hq))
    as (_ & _ & Hpart & _).
  apply (f_equal snd) in Hpart. cbn [snd queue_part] in Hpart.
  unfold get_historical_data, historical_lookup.
  cbn [String.eqb Ascii.eqb Bool.eqb andb]. rewrite Hpart, Hq.
  unfold update_queue_kpis, update_queue_kpis_with.
  cbn [snapshot_of historical_data queue_lengths].
  destruct (deque_append_last 1439 (queue_lengths (historical_data st))
              (mkHistoryEntry (get_queue_length s) t)) as [kept ->].
  rewrite map_app, List.filter_app. cbn [map List.filter timestamp_of entry_timestamp].
  unfold timedelta_hours.
  destruct (Z.leb_spec (now - hours * 3600) t) as [_|Hlt]; [|lia].
  apply last_snoc.
Qed.

Lemma recorded_sample_is_returned_witness :
  last (get_historical_data 7200 "queue_lengths" 1
          (process_kpis default_config (detections_with 4 2) 3600 init))
  = Some (LengthEntry (mkHistoryEntry 4 3600)).
Proof.
  apply (recorded_sample_is_returned default_config (detections_with 4 2) 3600 init
           (QueueSnap 4 [] 0) 7200 1).
  - vm_compute. reflexivity.
  - lia.
Defined.

(** *** The ring and the day-long history *)

Lemma update_queue_ring_ok d t st :
  ring_ok st -> ring_ok (update_queue_kpis d t st).
Proof.
  intros [Hsuf Hlast]. unfold ring_ok, update_queue_kpis, update_queue_kpis_with.
  destruct (snapshot_of d) as [s|]; [|split; assumption].
  unfold qa in *.
  cbn [kpis historical_data queue_analytics set_queue_analytics queue_history
       queue_lengths current_queue_length].
  set (x := mkHistoryEntry (get_queue_length s) t).
  set (ring := queue_history (queue_analytics (kpis st))) in *.
  set (hist := queue_lengths (historical_data st)) in *.
  split.
  - assert (H1 : Deque.append queue_history_maxlen ring x `suffix_of` hist ++ [x]).
    { etransitivity; [apply suffix_drop|]. apply suffix_app, Hsuf. }
    assert (H2 : Deque.append 1440 hist x `suffix_of` hist ++ [x])
      by apply suffix_drop.
    destruct (suffix_weak_total _ _ _ H1 H2) as [H|H]; [exact H|].
    destruct (KPIFacts.deque_append_split queue_history_maxlen ring x)
      as (e1 & _ & Hl1 & _).
    destruct (KPIFacts.deque_append_split 1440 hist x) as (e2 & _ & Hl2 & _).
    apply suffix_length in Hsuf.
    rewrite (suffix_length_eq _ _ H); [reflexivity|].
    rewrite Hl1, Hl2. unfold queue_history_maxlen. lia.
  - right.
    destruct (deque_append_last 99 ring x) as [kept Hkept].
    unfold queue_history_maxlen. rewrite Hkept, last_snoc. reflexivity.
Qed.

(** X21.  Over any number of aggregation cycles from the initial state
    the queue history ring is the most recent end of the day-long
    [queue_lengths] history (the two never disagree), and once a queue
    sample has been taken the newest ring entry is the current queue
    length. *)
Theorem ring_is_recent_history (config : AnalyticsConfig) (ticks : list Tick) :
  let st := run_cycles config ticks init in
  queue_history (qa st) `suffix_of` queue_lengths (historical_data st)
  /\ (last (queue_history (qa st)) = None
      \/ entry_length <$> last (queue_history (qa st))
         = Some (current_queue_length (qa st))).
Proof.
  apply (run_cycles_invariant ring_ok config).
  - intros dd t st Hst.
    destruct (decide (dd = ∅)) as [Hdd|Hdd].
    { unfold process_kpis. rewrite bool_decide_true by exact Hdd. exact Hst. }
    destruct (process_kpis_by_part config dd t st Hdd) as (_ & _ & Hq & _).
    pose proof (update_queue_ring_ok (dd !! "queue") t st Hst) as Hok.
    unfold ring_ok in *. unfold queue_part in Hq.
    injection Hq as Hqa Hhist. rewrite Hqa, Hhist. exact Hok.
  - split; [reflexivity|left; reflexivity].
Qed.

(** *** The timer loop *)

Section TimerLoop.

Variable config : AnalyticsConfig.
Variable save_interval : Q.


(** One pass either saves, which needs the interval to have elapsed, or
    leaves the saved records and [last_save_time] alone. *)
Lemma loop_iteration_cases (l : Loop) (r : Reading) :
  ((save_interval <= time_time r - last_save_time l)%Q
   /\ last_save_time (loop_iteration config save_interval l r) = time_time r
   /\ saved (loop_iteration config save_interval l r)
      = saved l ++ [kpi_record (now_save r)
                      (kpis (process_kpis config (KPIService.detection_data r)
                               (now_process r) (processor l)))])
  \/ (last_save_time (loop_iteration config save_interval l r) = last_save_time l
      /\ saved (loop_iteration config save_interval l r) = saved l).
Proof.
  unfold loop_iteration.
  destruct (Qle_bool save_interval (time_time r - last_save_time l)) eqn:Hdue.
  - left. apply Qle_bool_iff in Hdue. auto.
  - right. auto.
Qed.

Lemma loop_rate (readings : list Reading) (l0 : Loop) :
  let l := foldl (loop_iteration config save_interval) l0 readings in
  exists n : nat,
    length (saved l) = (length (saved l0) + n)%nat
    /\ (n <= length readings)%nat
    /\ (inject_Z (Z.of_nat n) * save_interval <= last_save_time l - last_save_time l0)%Q
    /\ (last_save_time l = last_save_time l0
        \/ last_save_time l ∈ map time_time readings).
Proof.
  revert l0. induction readings as [|r readings IH]; intros l0.
  - exists 0%nat. cbn [foldl length map].
    split; [lia|]. split; [lia|].
    split; [change (inject_Z (Z.of_nat 0)) with 0%Q; lra|left; reflexivity].
  - cbn [foldl].
    destruct (IH (loop_iteration config save_interval l0 r))
      as (n & Hlen & Hn & Hrate & Hlast).
    destruct (loop_iteration_cases l0 r) as [(Hdue & Ht & Hs)|(Ht & Hs)];
      rewrite Ht in Hrate, Hlast; rewrite Hs in Hlen.
    + rewrite length_app in Hlen. cbn [length] in Hlen.
      exists (S n). cbn [length map].
      split; [lia|]. split; [lia|]. split.
      * rewrite Nat2Z.inj_succ. unfold Z.succ. rewrite inject_Z_plus.
        change (inject_Z 1) with 1%Q. lra.
      * right. destruct Hlast as [->|Hin];
          [apply list_elem_of_here|apply list_elem_of_further, Hin].
    + exists n. cbn [length map]. split; [exact Hlen|]. split; [lia|].
      split; [exact Hrate|].
      destruct Hlast as [Heq|Hin]; [left; exact Heq|].
      right. apply list_elem_of_further, Hin.
Qed.

(** X19.  The timer loop saves at most once per pass and never more often
    than the save interval allows: after any number of passes the number
    of saved records times the interval is at most the time elapsed
    between entering the loop and the last save, and [last_save_time] is
    the entry time or one of the [time.time()] readings. *)
Theorem saves_are_rate_limited (start : Q) (readings : list Reading) (st : State) :
  let l := start_processing config save_interval start readings st in
  (length (saved l) <= length readings)%nat
  /\ (inject_Z (Z.of_nat (length (saved l))) * save_interval
      <= last_save_time l - start)%Q
  /\ (last_save_time l = start \/ last_save_time l ∈ map time_time readings).
Proof.
  intros l. unfold l, start_processing.
  destruct (loop_rate readings (mkLoop st start [])) as (n & Hlen & Hn & Hrate & Hlast).
  cbn [saved last_save_time length] in Hlen, Hrate, Hlast.
  rewrite Hlen. cbn [Nat.add]. split; [exact Hn|]. split; assumption.
Qed.



End TimerLoop.

End ServiceFacts.
